(** * Combat and physics core of the PyGame DMC 2D sprite game

    A shallow embedding of [rigidbody.py], [enemy1.py], [Yori.py] and
    [player.py], and the properties of the specification checked on it.

    Numbers.  Python floats are modelled by exact numbers: the rigid body,
    which takes a square root, lives in the reals [R]; animation cursors and
    wall-clock seconds are rationals [Q] (so the state machines run);
    health, damage, pixel coordinates of sprite rectangles and millisecond
    ticks are integers [Z], as they are in the source.  Rounding of the
    64-bit floats is therefore not part of the model. *)

From Stdlib Require Import ZArith QArith Qround Qminmax Reals Qreals Psatz Bool List.
From Stdlib Require Import String.
Import ListNotations.

(** ** pygame.Rect: integer rectangle, [right = left + width] *)

Record Rect := mkRect { left : Z; top : Z; width : Z; height : Z }.

Definition right (r : Rect) : Z := (left r + width r)%Z.
Definition bottom (r : Rect) : Z := (top r + height r)%Z.

(** ** rigidbody.py *)

Module RigidBody.

Local Open Scope R_scope.

Definition Rleb (x y : R) : bool := if Rle_dec x y then true else false.
Definition Rltb (x y : R) : bool := if Rlt_dec x y then true else false.

(** class CircleCollider *)
Record CircleCollider := mkCollider {
  center_x : R;
  center_y : R;
  radius : R
}.

Definition update_position (c : CircleCollider) (x y : R) : CircleCollider :=
  {| center_x := x; center_y := y; radius := radius c |}.

Definition get_center (c : CircleCollider) : R * R := (center_x c, center_y c).

(** Closest point of the rectangle to the collider centre, and the distance
    to it; [collides_with_rect] and [resolve_tile_collision] both compute
    them inline. *)
Definition closest_x (c : CircleCollider) (rect : Rect) : R :=
  Rmax (IZR (left rect)) (Rmin (center_x c) (IZR (right rect))).

Definition closest_y (c : CircleCollider) (rect : Rect) : R :=
  Rmax (IZR (top rect)) (Rmin (center_y c) (IZR (bottom rect))).

Definition closest_distance (c : CircleCollider) (rect : Rect) : R :=
  let dx := center_x c - closest_x c rect in
  let dy := center_y c - closest_y c rect in
  sqrt (dx * dx + dy * dy).

Definition collides_with_rect (c : CircleCollider) (rect : Rect) : bool :=
  Rleb (closest_distance c rect) (radius c).

(** class RigidBody; [ground_y] is [None] or a height. *)
Record t := mk {
  collider : CircleCollider;
  mass : R;
  velocity_x : R;
  velocity_y : R;
  acceleration_x : R;
  acceleration_y : R;
  gravity : R;
  friction : R;
  air_resistance : R;
  bounce : R;
  is_grounded : bool;
  ground_y : option R;
  can_collide : bool
}.

(** [RigidBody.__init__] *)
Definition init (cx cy r m : R) : t :=
  {| collider := mkCollider cx cy r; mass := m;
     velocity_x := 0; velocity_y := 0;
     acceleration_x := 0; acceleration_y := 0;
     gravity := 0.8; friction := 0.9;
     air_resistance := 0.99; bounce := 0.1;
     is_grounded := false; ground_y := None; can_collide := true |}.

Definition set_collider (rb : t) (c : CircleCollider) : t :=
  {| collider := c; mass := mass rb;
     velocity_x := velocity_x rb; velocity_y := velocity_y rb;
     acceleration_x := acceleration_x rb; acceleration_y := acceleration_y rb;
     gravity := gravity rb; friction := friction rb;
     air_resistance := air_resistance rb; bounce := bounce rb;
     is_grounded := is_grounded rb; ground_y := ground_y rb;
     can_collide := can_collide rb |}.

Definition set_velocity (rb : t) (vx vy : R) : t :=
  {| collider := collider rb; mass := mass rb;
     velocity_x := vx; velocity_y := vy;
     acceleration_x := acceleration_x rb; acceleration_y := acceleration_y rb;
     gravity := gravity rb; friction := friction rb;
     air_resistance := air_resistance rb; bounce := bounce rb;
     is_grounded := is_grounded rb; ground_y := ground_y rb;
     can_collide := can_collide rb |}.

Definition set_velocity_x (rb : t) (vx : R) : t :=
  set_velocity rb vx (velocity_y rb).

Definition set_velocity_y (rb : t) (vy : R) : t :=
  set_velocity rb (velocity_x rb) vy.

Definition set_acceleration (rb : t) (ax ay : R) : t :=
  {| collider := collider rb; mass := mass rb;
     velocity_x := velocity_x rb; velocity_y := velocity_y rb;
     acceleration_x := ax; acceleration_y := ay;
     gravity := gravity rb; friction := friction rb;
     air_resistance := air_resistance rb; bounce := bounce rb;
     is_grounded := is_grounded rb; ground_y := ground_y rb;
     can_collide := can_collide rb |}.

Definition set_ground (rb : t) (g : bool) (gy : option R) : t :=
  {| collider := collider rb; mass := mass rb;
     velocity_x := velocity_x rb; velocity_y := velocity_y rb;
     acceleration_x := acceleration_x rb; acceleration_y := acceleration_y rb;
     gravity := gravity rb; friction := friction rb;
     air_resistance := air_resistance rb; bounce := bounce rb;
     is_grounded := g; ground_y := gy;
     can_collide := can_collide rb |}.

Definition set_is_grounded (rb : t) (g : bool) : t :=
  set_ground rb g (ground_y rb).

Definition set_position (rb : t) (x y : R) : t :=
  set_collider rb (update_position (collider rb) x y).

Definition get_position (rb : t) : R * R := get_center (collider rb).

(** [update_physics(dt)] *)
Definition update_physics (rb : t) (dt : R) : t :=
  let ay := if is_grounded rb then acceleration_y rb
            else acceleration_y rb + gravity rb in
  let vx := velocity_x rb + acceleration_x rb * dt in
  let vy := velocity_y rb + ay * dt in
  let vx := if is_grounded rb then vx * friction rb
            else vx * air_resistance rb in
  let vy := if is_grounded rb then vy else vy * air_resistance rb in
  let new_x := center_x (collider rb) + vx * dt in
  let new_y := center_y (collider rb) + vy * dt in
  set_acceleration (set_position (set_velocity rb vx vy) new_x new_y) 0 0.

(** [check_ground_collision(ground_y)] *)
Definition check_ground_collision (rb : t) (gy : option R) : t :=
  let bottom_y := center_y (collider rb) + radius (collider rb) in
  match gy with
  | None => set_ground rb false None
  | Some g =>
      if Rleb g bottom_y then
        if Rleb 0 (velocity_y rb) then
          let rb := set_ground rb true (Some g) in
          let new_center_y := g - radius (collider rb) in
          let rb := set_position rb (center_x (collider rb)) new_center_y in
          set_velocity_y rb 0
        else rb
      else set_ground rb false (Some g)
  end.

(** [resolve_tile_collision(tile_rect)] *)
Definition resolve_tile_collision (rb : t) (tile_rect : Rect) : t :=
  let cx := center_x (collider rb) in
  let cy := center_y (collider rb) in
  let r := radius (collider rb) in
  let dx := cx - closest_x (collider rb) tile_rect in
  let dy := cy - closest_y (collider rb) tile_rect in
  let distance := sqrt (dx * dx + dy * dy) in
  if Rltb distance r && Rltb 0 distance then
    let nx := dx / distance in
    let ny := dy / distance in
    let penetration := r - distance in
    let new_x := cx + nx * penetration in
    let new_y := cy + ny * penetration in
    let rb1 := set_position rb new_x new_y in
    let dot_product := velocity_x rb1 * nx + velocity_y rb1 * ny in
    let rb2 := set_velocity_x rb1
                 (velocity_x rb1 - 2 * dot_product * nx * bounce rb1) in
    let rb3 := set_velocity_y rb2
                 (velocity_y rb2 - 2 * dot_product * ny * bounce rb2) in
    if Rltb ny (- 0.7) then
      let rb4 := set_ground rb3 true (Some (IZR (top tile_rect))) in
      if Rltb 0 (velocity_y rb4) then set_velocity_y rb4 0 else rb4
    else rb3
  else rb.

(** [check_tile_collision(tile_rects)] *)
Definition check_tile_collision (rb : t) (tile_rects : list Rect) : t :=
  if negb (can_collide rb) then rb
  else fold_left
         (fun rb tile_rect =>
            if collides_with_rect (collider rb) tile_rect
            then resolve_tile_collision rb tile_rect else rb)
         tile_rects rb.

(** [CircleCollider.collides_with_circle(other_collider)] *)
Definition collides_with_circle (c other : CircleCollider) : bool :=
  let dx := center_x c - center_x other in
  let dy := center_y c - center_y other in
  let distance := sqrt (dx * dx + dy * dy) in
  Rltb distance (radius c + radius other).

(** [CircleCollider.collides_with_point(point_x, point_y)] *)
Definition collides_with_point (c : CircleCollider) (point_x point_y : R)
  : bool :=
  let dx := center_x c - point_x in
  let dy := center_y c - point_y in
  let distance := sqrt (dx * dx + dy * dy) in
  Rleb distance (radius c).

(** [apply_force(force_x, force_y)]; the division raises
    [ZeroDivisionError] for a mass of 0, before anything is assigned:
    [None]. *)
Definition apply_force (rb : t) (force_x force_y : R) : option t :=
  if Req_dec_T (mass rb) 0 then None
  else Some (set_acceleration rb
               (acceleration_x rb + force_x / mass rb)
               (acceleration_y rb + force_y / mass rb)).

(** [apply_impulse(impulse_x, impulse_y)] *)
Definition apply_impulse (rb : t) (impulse_x impulse_y : R) : option t :=
  if Req_dec_T (mass rb) 0 then None
  else Some (set_velocity rb
               (velocity_x rb + impulse_x / mass rb)
               (velocity_y rb + impulse_y / mass rb)).

End RigidBody.

(** ** Numbers, time and console/UI output shared by the entities *)

Definition Qleb (x y : Q) : bool := Qle_bool x y.
Definition Qltb (x y : Q) : bool := negb (Qle_bool y x).

(** Python's [x % n] on a float [x] and a list length [n > 0]: the
    remainder has the sign of [n], [x - n * floor (x / n)]. *)
Definition fmod (x : Q) (n : positive) : Q :=
  x - inject_Z (Z.pos n * Qfloor (x / inject_Z (Z.pos n))).

(** [len(seq)] as a float operand *)
Definition len (n : positive) : Q := inject_Z (Z.pos n).

(** Python's [int(x)] on a float: truncation towards zero. *)
Definition py_int (r : R) : Z :=
  if Rle_dec 0 r then (up r - 1)%Z else (1 - up (- r))%Z.

Definition Qtrunc (q : Q) : Z :=
  if Qle_bool 0 q then Qfloor q else (- Qfloor (- q))%Z.

(** [((ax - bx)**2 + (ay - by)**2)**0.5 <= r] on integer points: the
    square root is not taken, the radius is squared instead (the two agree,
    see [within_radius_sqrt]). *)
Definition dist2 (a b : Z * Z) : Z :=
  ((fst a - fst b) * (fst a - fst b) + (snd a - snd b) * (snd a - snd b))%Z.

Definition within_radius (a b : Z * Z) (r : Q) : bool :=
  Qleb 0 r && Qleb (inject_Z (dist2 a b)) (r * r).

(** The text handed to [ui_system.add_damage_text]. *)
Inductive ui_text :=
| Text_damage (damage : Z)
| Text_Miss
| Text_Blocked
| Text_MISS.

(** Console lines that report an attack or its outcome. *)
Inductive message :=
| Msg_player_took (damage health : Z)
| Msg_player_invincible (damage : Z)
| Msg_player_blocked (damage : Z)
| Msg_player_died
| Msg_player_hit_enemies (hit_count damage : Z)
| Msg_player_hit_target (damage : Z)
| Msg_enemy_attacks (damage : Z)
| Msg_enemy_attack_hits (damage : Z)
| Msg_enemy_attack_missed
| Msg_enemy_took (damage health : Z)
| Msg_yori_attack_hits (damage : Z)
| Msg_yori_attack_missed
| Msg_yori_took (damage health : Z)
| Msg_yori_parries
| Msg_yori_counters.

Inductive event :=
| Print (m : message)
| DamageText (x y : Z) (t : ui_text).

(** What a call evaluates to.  The [take_damage] methods have no [return]
    with a value, so every call of them evaluates to [None]. *)
Inductive py_value := PyNone.

(** Action states.  The player's state is an attack number or a name. *)
Inductive pstate :=
| P_attack (n : Z)
| P_idle | P_walk_start | P_walk | P_walk_stop
| P_jump | P_jump2 | P_dash | P_hurt | P_death
| P_block | P_counter | P_counter_attack | P_skill.

Inductive block_anim := B_none | B_entering | B_holding | B_exiting.

Inductive estate :=
| E_idle | E_walk | E_approach | E_attack | E_recover
| E_hurt | E_stun | E_die.

Inductive ystate :=
| Y_idle | Y_walking | Y_attack1 | Y_attack2 | Y_attack3 | Y_dash
| Y_counter_wait | Y_hurt_counter | Y_block | Y_counter | Y_skill | Y_die.

Definition pstate_eqb (a b : pstate) : bool :=
  match a, b with
  | P_attack n, P_attack m => (n =? m)%Z
  | P_idle, P_idle | P_walk_start, P_walk_start | P_walk, P_walk
  | P_walk_stop, P_walk_stop | P_jump, P_jump | P_jump2, P_jump2
  | P_dash, P_dash | P_hurt, P_hurt | P_death, P_death | P_block, P_block
  | P_counter, P_counter | P_counter_attack, P_counter_attack
  | P_skill, P_skill => true
  | _, _ => false
  end.

(** [isinstance(self.state, int)] *)
Definition is_int (s : pstate) : bool :=
  match s with P_attack _ => true | _ => false end.

Definition estate_eqb (a b : estate) : bool :=
  match a, b with
  | E_idle, E_idle | E_walk, E_walk | E_approach, E_approach
  | E_attack, E_attack | E_recover, E_recover | E_hurt, E_hurt
  | E_stun, E_stun | E_die, E_die => true
  | _, _ => false
  end.

Definition ystate_eqb (a b : ystate) : bool :=
  match a, b with
  | Y_idle, Y_idle | Y_walking, Y_walking | Y_attack1, Y_attack1
  | Y_attack2, Y_attack2 | Y_attack3, Y_attack3 | Y_dash, Y_dash
  | Y_counter_wait, Y_counter_wait | Y_hurt_counter, Y_hurt_counter
  | Y_block, Y_block | Y_counter, Y_counter | Y_skill, Y_skill
  | Y_die, Y_die => true
  | _, _ => false
  end.

(** The player's [target] and the members of [all_enemies] are references
    to the mooks and the boss that main.py owns: an index into the list of
    mooks, or the boss. *)
Inductive target_ref := Ref_enemy (i : nat) | Ref_yori.

(** Sprites are scaled to 600 x 600, so [rect.width] is 600 for every
    entity and [rect.bottom = rect.centery + 300]. *)
Definition SPRITE_WIDTH : Z := 600.

(** ** The three entities: attributes of [Player], [Enemy] and [Yori]
    that the combat logic reads or writes, with one setter per assigned
    attribute.  Images and sounds are presentation and are left out. *)

Record Player := mkPlayer {
  p_state : pstate;  (* self.state *)
  p_frame : Q;  (* self.frame *)
  p_dir : Z;
  p_flip : bool;
  p_facing : Z;
  p_rect_centerx : Z;  (* self.rect.centerx *)
  p_rect_centery : Z;  (* self.rect.centery *)
  p_world_x : Z;
  p_is_dead : bool;
  p_dashing : bool;
  p_blocking : bool;
  p_block_animation_state : block_anim;
  p_countering : bool;
  p_counter_success : bool;
  p_counter_attacking : bool;
  p_counter_attack_damage : Z;
  p_counter_ready : bool;
  p_last_counter_time : Z;
  p_counter_damage_dealt : bool;  (* self._counter_damage_dealt *)
  p_atk_covered : Q;  (* self._atk_covered *)
  p_attack_point : Z * Z;
  p_attack_radius : Z;
  p_last_attack_time : Z;
  p_attack_cooldown : Z;
  p_target : option target_ref;  (* self.target *)
  p_all_enemies : option (list target_ref);  (* set by main.py; absent until then *)
  p_max_health : Z;
  p_current_health : Z;
  p_rigid_body : RigidBody.t;
  p_knockback_end_time : option Z;  (* attribute created by Yori, removed by update *)
  p_auto_unblock_time : option Q;  (* attribute created by Yori *)
  p_ui_system : bool  (* whether a ui_system attribute is set *)
}.

Definition set_p_state (p : Player) (v : pstate) : Player :=
  mkPlayer v (p_frame p) (p_dir p) (p_flip p) (p_facing p) (p_rect_centerx
    p) (p_rect_centery p) (p_world_x p) (p_is_dead p) (p_dashing p)
    (p_blocking p) (p_block_animation_state p) (p_countering p)
    (p_counter_success p) (p_counter_attacking p) (p_counter_attack_damage
    p) (p_counter_ready p) (p_last_counter_time p) (p_counter_damage_dealt
    p) (p_atk_covered p) (p_attack_point p) (p_attack_radius p)
    (p_last_attack_time p) (p_attack_cooldown p) (p_target p) (p_all_enemies
    p) (p_max_health p) (p_current_health p) (p_rigid_body p)
    (p_knockback_end_time p) (p_auto_unblock_time p) (p_ui_system p).

Definition set_p_frame (p : Player) (v : Q) : Player :=
  mkPlayer (p_state p) v (p_dir p) (p_flip p) (p_facing p) (p_rect_centerx
    p) (p_rect_centery p) (p_world_x p) (p_is_dead p) (p_dashing p)
    (p_blocking p) (p_block_animation_state p) (p_countering p)
    (p_counter_success p) (p_counter_attacking p) (p_counter_attack_damage
    p) (p_counter_ready p) (p_last_counter_time p) (p_counter_damage_dealt
    p) (p_atk_covered p) (p_attack_point p) (p_attack_radius p)
    (p_last_attack_time p) (p_attack_cooldown p) (p_target p) (p_all_enemies
    p) (p_max_health p) (p_current_health p) (p_rigid_body p)
    (p_knockback_end_time p) (p_auto_unblock_time p) (p_ui_system p).

Definition set_p_dir (p : Player) (v : Z) : Player :=
  mkPlayer (p_state p) (p_frame p) v (p_flip p) (p_facing p) (p_rect_centerx
    p) (p_rect_centery p) (p_world_x p) (p_is_dead p) (p_dashing p)
    (p_blocking p) (p_block_animation_state p) (p_countering p)
    (p_counter_success p) (p_counter_attacking p) (p_counter_attack_damage
    p) (p_counter_ready p) (p_last_counter_time p) (p_counter_damage_dealt
    p) (p_atk_covered p) (p_attack_point p) (p_attack_radius p)
    (p_last_attack_time p) (p_attack_cooldown p) (p_target p) (p_all_enemies
    p) (p_max_health p) (p_current_health p) (p_rigid_body p)
    (p_knockback_end_time p) (p_auto_unblock_time p) (p_ui_system p).

Definition set_p_flip (p : Player) (v : bool) : Player :=
  mkPlayer (p_state p) (p_frame p) (p_dir p) v (p_facing p) (p_rect_centerx
    p) (p_rect_centery p) (p_world_x p) (p_is_dead p) (p_dashing p)
    (p_blocking p) (p_block_animation_state p) (p_countering p)
    (p_counter_success p) (p_counter_attacking p) (p_counter_attack_damage
    p) (p_counter_ready p) (p_last_counter_time p) (p_counter_damage_dealt
    p) (p_atk_covered p) (p_attack_point p) (p_attack_radius p)
    (p_last_attack_time p) (p_attack_cooldown p) (p_target p) (p_all_enemies
    p) (p_max_health p) (p_current_health p) (p_rigid_body p)
    (p_knockback_end_time p) (p_auto_unblock_time p) (p_ui_system p).

Definition set_p_facing (p : Player) (v : Z) : Player :=
  mkPlayer (p_state p) (p_frame p) (p_dir p) (p_flip p) v (p_rect_centerx p)
    (p_rect_centery p) (p_world_x p) (p_is_dead p) (p_dashing p) (p_blocking
    p) (p_block_animation_state p) (p_countering p) (p_counter_success p)
    (p_counter_attacking p) (p_counter_attack_damage p) (p_counter_ready p)
    (p_last_counter_time p) (p_counter_damage_dealt p) (p_atk_covered p)
    (p_attack_point p) (p_attack_radius p) (p_last_attack_time p)
    (p_attack_cooldown p) (p_target p) (p_all_enemies p) (p_max_health p)
    (p_current_health p) (p_rigid_body p) (p_knockback_end_time p)
    (p_auto_unblock_time p) (p_ui_system p).




Definition set_p_is_dead (p : Player) (v : bool) : Player :=
  mkPlayer (p_state p) (p_frame p) (p_dir p) (p_flip p) (p_facing p)
    (p_rect_centerx p) (p_rect_centery p) (p_world_x p) v (p_dashing p)
    (p_blocking p) (p_block_animation_state p) (p_countering p)
    (p_counter_success p) (p_counter_attacking p) (p_counter_attack_damage
    p) (p_counter_ready p) (p_last_counter_time p) (p_counter_damage_dealt
    p) (p_atk_covered p) (p_attack_point p) (p_attack_radius p)
    (p_last_attack_time p) (p_attack_cooldown p) (p_target p) (p_all_enemies
    p) (p_max_health p) (p_current_health p) (p_rigid_body p)
    (p_knockback_end_time p) (p_auto_unblock_time p) (p_ui_system p).

Definition set_p_dashing (p : Player) (v : bool) : Player :=
  mkPlayer (p_state p) (p_frame p) (p_dir p) (p_flip p) (p_facing p)
    (p_rect_centerx p) (p_rect_centery p) (p_world_x p) (p_is_dead p) v
    (p_blocking p) (p_block_animation_state p) (p_countering p)
    (p_counter_success p) (p_counter_attacking p) (p_counter_attack_damage
    p) (p_counter_ready p) (p_last_counter_time p) (p_counter_damage_dealt
    p) (p_atk_covered p) (p_attack_point p) (p_attack_radius p)
    (p_last_attack_time p) (p_attack_cooldown p) (p_target p) (p_all_enemies
    p) (p_max_health p) (p_current_health p) (p_rigid_body p)
    (p_knockback_end_time p) (p_auto_unblock_time p) (p_ui_system p).

Definition set_p_blocking (p : Player) (v : bool) : Player :=
  mkPlayer (p_state p) (p_frame p) (p_dir p) (p_flip p) (p_facing p)
    (p_rect_centerx p) (p_rect_centery p) (p_world_x p) (p_is_dead p)
    (p_dashing p) v (p_block_animation_state p) (p_countering p)
    (p_counter_success p) (p_counter_attacking p) (p_counter_attack_damage
    p) (p_counter_ready p) (p_last_counter_time p) (p_counter_damage_dealt
    p) (p_atk_covered p) (p_attack_point p) (p_attack_radius p)
    (p_last_attack_time p) (p_attack_cooldown p) (p_target p) (p_all_enemies
    p) (p_max_health p) (p_current_health p) (p_rigid_body p)
    (p_knockback_end_time p) (p_auto_unblock_time p) (p_ui_system p).

Definition set_p_block_animation_state (p : Player) (v : block_anim) : Player :=
  mkPlayer (p_state p) (p_frame p) (p_dir p) (p_flip p) (p_facing p)
    (p_rect_centerx p) (p_rect_centery p) (p_world_x p) (p_is_dead p)
    (p_dashing p) (p_blocking p) v (p_countering p) (p_counter_success p)
    (p_counter_attacking p) (p_counter_attack_damage p) (p_counter_ready p)
    (p_last_counter_time p) (p_counter_damage_dealt p) (p_atk_covered p)
    (p_attack_point p) (p_attack_radius p) (p_last_attack_time p)
    (p_attack_cooldown p) (p_target p) (p_all_enemies p) (p_max_health p)
    (p_current_health p) (p_rigid_body p) (p_knockback_end_time p)
    (p_auto_unblock_time p) (p_ui_system p).

Definition set_p_countering (p : Player) (v : bool) : Player :=
  mkPlayer (p_state p) (p_frame p) (p_dir p) (p_flip p) (p_facing p)
    (p_rect_centerx p) (p_rect_centery p) (p_world_x p) (p_is_dead p)
    (p_dashing p) (p_blocking p) (p_block_animation_state p) v
    (p_counter_success p) (p_counter_attacking p) (p_counter_attack_damage
    p) (p_counter_ready p) (p_last_counter_time p) (p_counter_damage_dealt
    p) (p_atk_covered p) (p_attack_point p) (p_attack_radius p)
    (p_last_attack_time p) (p_attack_cooldown p) (p_target p) (p_all_enemies
    p) (p_max_health p) (p_current_health p) (p_rigid_body p)
    (p_knockback_end_time p) (p_auto_unblock_time p) (p_ui_system p).

Definition set_p_counter_success (p : Player) (v : bool) : Player :=
  mkPlayer (p_state p) (p_frame p) (p_dir p) (p_flip p) (p_facing p)
    (p_rect_centerx p) (p_rect_centery p) (p_world_x p) (p_is_dead p)
    (p_dashing p) (p_blocking p) (p_block_animation_state p) (p_countering
    p) v (p_counter_attacking p) (p_counter_attack_damage p)
    (p_counter_ready p) (p_last_counter_time p) (p_counter_damage_dealt p)
    (p_atk_covered p) (p_attack_point p) (p_attack_radius p)
    (p_last_attack_time p) (p_attack_cooldown p) (p_target p) (p_all_enemies
    p) (p_max_health p) (p_current_health p) (p_rigid_body p)
    (p_knockback_end_time p) (p_auto_unblock_time p) (p_ui_system p).

Definition set_p_counter_attacking (p : Player) (v : bool) : Player :=
  mkPlayer (p_state p) (p_frame p) (p_dir p) (p_flip p) (p_facing p)
    (p_rect_centerx p) (p_rect_centery p) (p_world_x p) (p_is_dead p)
    (p_dashing p) (p_blocking p) (p_block_animation_state p) (p_countering
    p) (p_counter_success p) v (p_counter_attack_damage p) (p_counter_ready
    p) (p_last_counter_time p) (p_counter_damage_dealt p) (p_atk_covered p)
    (p_attack_point p) (p_attack_radius p) (p_last_attack_time p)
    (p_attack_cooldown p) (p_target p) (p_all_enemies p) (p_max_health p)
    (p_current_health p) (p_rigid_body p) (p_knockback_end_time p)
    (p_auto_unblock_time p) (p_ui_system p).

Definition set_p_counter_ready (p : Player) (v : bool) : Player :=
  mkPlayer (p_state p) (p_frame p) (p_dir p) (p_flip p) (p_facing p)
    (p_rect_centerx p) (p_rect_centery p) (p_world_x p) (p_is_dead p)
    (p_dashing p) (p_blocking p) (p_block_animation_state p) (p_countering
    p) (p_counter_success p) (p_counter_attacking p)
    (p_counter_attack_damage p) v (p_last_counter_time p)
    (p_counter_damage_dealt p) (p_atk_covered p) (p_attack_point p)
    (p_attack_radius p) (p_last_attack_time p) (p_attack_cooldown p)
    (p_target p) (p_all_enemies p) (p_max_health p) (p_current_health p)
    (p_rigid_body p) (p_knockback_end_time p) (p_auto_unblock_time p)
    (p_ui_system p).

Definition set_p_last_counter_time (p : Player) (v : Z) : Player :=
  mkPlayer (p_state p) (p_frame p) (p_dir p) (p_flip p) (p_facing p)
    (p_rect_centerx p) (p_rect_centery p) (p_world_x p) (p_is_dead p)
    (p_dashing p) (p_blocking p) (p_block_animation_state p) (p_countering
    p) (p_counter_success p) (p_counter_attacking p)
    (p_counter_attack_damage p) (p_counter_ready p) v
    (p_counter_damage_dealt p) (p_atk_covered p) (p_attack_point p)
    (p_attack_radius p) (p_last_attack_time p) (p_attack_cooldown p)
    (p_target p) (p_all_enemies p) (p_max_health p) (p_current_health p)
    (p_rigid_body p) (p_knockback_end_time p) (p_auto_unblock_time p)
    (p_ui_system p).

Definition set_p_counter_damage_dealt (p : Player) (v : bool) : Player :=
  mkPlayer (p_state p) (p_frame p) (p_dir p) (p_flip p) (p_facing p)
    (p_rect_centerx p) (p_rect_centery p) (p_world_x p) (p_is_dead p)
    (p_dashing p) (p_blocking p) (p_block_animation_state p) (p_countering
    p) (p_counter_success p) (p_counter_attacking p)
    (p_counter_attack_damage p) (p_counter_ready p) (p_last_counter_time p)
    v (p_atk_covered p) (p_attack_point p) (p_attack_radius p)
    (p_last_attack_time p) (p_attack_cooldown p) (p_target p) (p_all_enemies
    p) (p_max_health p) (p_current_health p) (p_rigid_body p)
    (p_knockback_end_time p) (p_auto_unblock_time p) (p_ui_system p).

Definition set_p_atk_covered (p : Player) (v : Q) : Player :=
  mkPlayer (p_state p) (p_frame p) (p_dir p) (p_flip p) (p_facing p)
    (p_rect_centerx p) (p_rect_centery p) (p_world_x p) (p_is_dead p)
    (p_dashing p) (p_blocking p) (p_block_animation_state p) (p_countering
    p) (p_counter_success p) (p_counter_attacking p)
    (p_counter_attack_damage p) (p_counter_ready p) (p_last_counter_time p)
    (p_counter_damage_dealt p) v (p_attack_point p) (p_attack_radius p)
    (p_last_attack_time p) (p_attack_cooldown p) (p_target p) (p_all_enemies
    p) (p_max_health p) (p_current_health p) (p_rigid_body p)
    (p_knockback_end_time p) (p_auto_unblock_time p) (p_ui_system p).

Definition set_p_attack_point (p : Player) (v : Z * Z) : Player :=
  mkPlayer (p_state p) (p_frame p) (p_dir p) (p_flip p) (p_facing p)
    (p_rect_centerx p) (p_rect_centery p) (p_world_x p) (p_is_dead p)
    (p_dashing p) (p_blocking p) (p_block_animation_state p) (p_countering
    p) (p_counter_success p) (p_counter_attacking p)
    (p_counter_attack_damage p) (p_counter_ready p) (p_last_counter_time p)
    (p_counter_damage_dealt p) (p_atk_covered p) v (p_attack_radius p)
    (p_last_attack_time p) (p_attack_cooldown p) (p_target p) (p_all_enemies
    p) (p_max_health p) (p_current_health p) (p_rigid_body p)
    (p_knockback_end_time p) (p_auto_unblock_time p) (p_ui_system p).

Definition set_p_last_attack_time (p : Player) (v : Z) : Player :=
  mkPlayer (p_state p) (p_frame p) (p_dir p) (p_flip p) (p_facing p)
    (p_rect_centerx p) (p_rect_centery p) (p_world_x p) (p_is_dead p)
    (p_dashing p) (p_blocking p) (p_block_animation_state p) (p_countering
    p) (p_counter_success p) (p_counter_attacking p)
    (p_counter_attack_damage p) (p_counter_ready p) (p_last_counter_time p)
    (p_counter_damage_dealt p) (p_atk_covered p) (p_attack_point p)
    (p_attack_radius p) v (p_attack_cooldown p) (p_target p) (p_all_enemies
    p) (p_max_health p) (p_current_health p) (p_rigid_body p)
    (p_knockback_end_time p) (p_auto_unblock_time p) (p_ui_system p).

Definition set_p_target (p : Player) (v : option target_ref) : Player :=
  mkPlayer (p_state p) (p_frame p) (p_dir p) (p_flip p) (p_facing p)
    (p_rect_centerx p) (p_rect_centery p) (p_world_x p) (p_is_dead p)
    (p_dashing p) (p_blocking p) (p_block_animation_state p) (p_countering
    p) (p_counter_success p) (p_counter_attacking p)
    (p_counter_attack_damage p) (p_counter_ready p) (p_last_counter_time p)
    (p_counter_damage_dealt p) (p_atk_covered p) (p_attack_point p)
    (p_attack_radius p) (p_last_attack_time p) (p_attack_cooldown p) v
    (p_all_enemies p) (p_max_health p) (p_current_health p) (p_rigid_body p)
    (p_knockback_end_time p) (p_auto_unblock_time p) (p_ui_system p).

Definition set_p_all_enemies (p : Player) (v : option (list target_ref)) : Player :=
  mkPlayer (p_state p) (p_frame p) (p_dir p) (p_flip p) (p_facing p)
    (p_rect_centerx p) (p_rect_centery p) (p_world_x p) (p_is_dead p)
    (p_dashing p) (p_blocking p) (p_block_animation_state p) (p_countering
    p) (p_counter_success p) (p_counter_attacking p)
    (p_counter_attack_damage p) (p_counter_ready p) (p_last_counter_time p)
    (p_counter_damage_dealt p) (p_atk_covered p) (p_attack_point p)
    (p_attack_radius p) (p_last_attack_time p) (p_attack_cooldown p)
    (p_target p) v (p_max_health p) (p_current_health p) (p_rigid_body p)
    (p_knockback_end_time p) (p_auto_unblock_time p) (p_ui_system p).

Definition set_p_current_health (p : Player) (v : Z) : Player :=
  mkPlayer (p_state p) (p_frame p) (p_dir p) (p_flip p) (p_facing p)
    (p_rect_centerx p) (p_rect_centery p) (p_world_x p) (p_is_dead p)
    (p_dashing p) (p_blocking p) (p_block_animation_state p) (p_countering
    p) (p_counter_success p) (p_counter_attacking p)
    (p_counter_attack_damage p) (p_counter_ready p) (p_last_counter_time p)
    (p_counter_damage_dealt p) (p_atk_covered p) (p_attack_point p)
    (p_attack_radius p) (p_last_attack_time p) (p_attack_cooldown p)
    (p_target p) (p_all_enemies p) (p_max_health p) v (p_rigid_body p)
    (p_knockback_end_time p) (p_auto_unblock_time p) (p_ui_system p).

Definition set_p_rigid_body (p : Player) (v : RigidBody.t) : Player :=
  mkPlayer (p_state p) (p_frame p) (p_dir p) (p_flip p) (p_facing p)
    (p_rect_centerx p) (p_rect_centery p) (p_world_x p) (p_is_dead p)
    (p_dashing p) (p_blocking p) (p_block_animation_state p) (p_countering
    p) (p_counter_success p) (p_counter_attacking p)
    (p_counter_attack_damage p) (p_counter_ready p) (p_last_counter_time p)
    (p_counter_damage_dealt p) (p_atk_covered p) (p_attack_point p)
    (p_attack_radius p) (p_last_attack_time p) (p_attack_cooldown p)
    (p_target p) (p_all_enemies p) (p_max_health p) (p_current_health p) v
    (p_knockback_end_time p) (p_auto_unblock_time p) (p_ui_system p).

Definition set_p_knockback_end_time (p : Player) (v : option Z) : Player :=
  mkPlayer (p_state p) (p_frame p) (p_dir p) (p_flip p) (p_facing p)
    (p_rect_centerx p) (p_rect_centery p) (p_world_x p) (p_is_dead p)
    (p_dashing p) (p_blocking p) (p_block_animation_state p) (p_countering
    p) (p_counter_success p) (p_counter_attacking p)
    (p_counter_attack_damage p) (p_counter_ready p) (p_last_counter_time p)
    (p_counter_damage_dealt p) (p_atk_covered p) (p_attack_point p)
    (p_attack_radius p) (p_last_attack_time p) (p_attack_cooldown p)
    (p_target p) (p_all_enemies p) (p_max_health p) (p_current_health p)
    (p_rigid_body p) v (p_auto_unblock_time p) (p_ui_system p).

Definition set_p_auto_unblock_time (p : Player) (v : option Q) : Player :=
  mkPlayer (p_state p) (p_frame p) (p_dir p) (p_flip p) (p_facing p)
    (p_rect_centerx p) (p_rect_centery p) (p_world_x p) (p_is_dead p)
    (p_dashing p) (p_blocking p) (p_block_animation_state p) (p_countering
    p) (p_counter_success p) (p_counter_attacking p)
    (p_counter_attack_damage p) (p_counter_ready p) (p_last_counter_time p)
    (p_counter_damage_dealt p) (p_atk_covered p) (p_attack_point p)
    (p_attack_radius p) (p_last_attack_time p) (p_attack_cooldown p)
    (p_target p) (p_all_enemies p) (p_max_health p) (p_current_health p)
    (p_rigid_body p) (p_knockback_end_time p) v (p_ui_system p).

Definition set_p_ui_system (p : Player) (v : bool) : Player :=
  mkPlayer (p_state p) (p_frame p) (p_dir p) (p_flip p) (p_facing p)
    (p_rect_centerx p) (p_rect_centery p) (p_world_x p) (p_is_dead p)
    (p_dashing p) (p_blocking p) (p_block_animation_state p) (p_countering
    p) (p_counter_success p) (p_counter_attacking p)
    (p_counter_attack_damage p) (p_counter_ready p) (p_last_counter_time p)
    (p_counter_damage_dealt p) (p_atk_covered p) (p_attack_point p)
    (p_attack_radius p) (p_last_attack_time p) (p_attack_cooldown p)
    (p_target p) (p_all_enemies p) (p_max_health p) (p_current_health p)
    (p_rigid_body p) (p_knockback_end_time p) (p_auto_unblock_time p) v.

Record Enemy := mkEnemy {
  e_state : estate;
  e_frame : Q;
  e_max_health : Z;
  e_current_health : Z;
  e_dir : Z;
  e_flip : bool;
  e_rect_centerx : Z;
  e_rect_centery : Z;
  e_next_idle : Q;
  e_patrol_dist : Z;
  e_patrol_tgt : Z;
  e_stun_timer : Q;
  e_recover_end : Q;
  e_attack_damage : Z;
  e_attack_point : Z * Z;
  e_attack_radius : Z;
  e_damage_dealt : bool;
  e_damage_frame : Q;
  e_stunned : bool;
  e_stun_end_time : Q;
  e_ui_system : bool;  (* whether main.py has set a ui_system *)
  e_rigid_body : RigidBody.t;
  e_ground_y : option Z;
  e_killed : bool  (* self.kill() was called *)
}.

Definition set_e_state (e : Enemy) (v : estate) : Enemy :=
  mkEnemy v (e_frame e) (e_max_health e) (e_current_health e) (e_dir e)
    (e_flip e) (e_rect_centerx e) (e_rect_centery e) (e_next_idle e)
    (e_patrol_dist e) (e_patrol_tgt e) (e_stun_timer e) (e_recover_end e)
    (e_attack_damage e) (e_attack_point e) (e_attack_radius e)
    (e_damage_dealt e) (e_damage_frame e) (e_stunned e) (e_stun_end_time e)
    (e_ui_system e) (e_rigid_body e) (e_ground_y e) (e_killed e).

Definition set_e_frame (e : Enemy) (v : Q) : Enemy :=
  mkEnemy (e_state e) v (e_max_health e) (e_current_health e) (e_dir e)
    (e_flip e) (e_rect_centerx e) (e_rect_centery e) (e_next_idle e)
    (e_patrol_dist e) (e_patrol_tgt e) (e_stun_timer e) (e_recover_end e)
    (e_attack_damage e) (e_attack_point e) (e_attack_radius e)
    (e_damage_dealt e) (e_damage_frame e) (e_stunned e) (e_stun_end_time e)
    (e_ui_system e) (e_rigid_body e) (e_ground_y e) (e_killed e).

Definition set_e_current_health (e : Enemy) (v : Z) : Enemy :=
  mkEnemy (e_state e) (e_frame e) (e_max_health e) v (e_dir e) (e_flip e)
    (e_rect_centerx e) (e_rect_centery e) (e_next_idle e) (e_patrol_dist e)
    (e_patrol_tgt e) (e_stun_timer e) (e_recover_end e) (e_attack_damage e)
    (e_attack_point e) (e_attack_radius e) (e_damage_dealt e)
    (e_damage_frame e) (e_stunned e) (e_stun_end_time e) (e_ui_system e)
    (e_rigid_body e) (e_ground_y e) (e_killed e).

Definition set_e_dir (e : Enemy) (v : Z) : Enemy :=
  mkEnemy (e_state e) (e_frame e) (e_max_health e) (e_current_health e) v
    (e_flip e) (e_rect_centerx e) (e_rect_centery e) (e_next_idle e)
    (e_patrol_dist e) (e_patrol_tgt e) (e_stun_timer e) (e_recover_end e)
    (e_attack_damage e) (e_attack_point e) (e_attack_radius e)
    (e_damage_dealt e) (e_damage_frame e) (e_stunned e) (e_stun_end_time e)
    (e_ui_system e) (e_rigid_body e) (e_ground_y e) (e_killed e).

Definition set_e_flip (e : Enemy) (v : bool) : Enemy :=
  mkEnemy (e_state e) (e_frame e) (e_max_health e) (e_current_health e)
    (e_dir e) v (e_rect_centerx e) (e_rect_centery e) (e_next_idle e)
    (e_patrol_dist e) (e_patrol_tgt e) (e_stun_timer e) (e_recover_end e)
    (e_attack_damage e) (e_attack_point e) (e_attack_radius e)
    (e_damage_dealt e) (e_damage_frame e) (e_stunned e) (e_stun_end_time e)
    (e_ui_system e) (e_rigid_body e) (e_ground_y e) (e_killed e).

Definition set_e_rect_centerx (e : Enemy) (v : Z) : Enemy :=
  mkEnemy (e_state e) (e_frame e) (e_max_health e) (e_current_health e)
    (e_dir e) (e_flip e) v (e_rect_centery e) (e_next_idle e) (e_patrol_dist
    e) (e_patrol_tgt e) (e_stun_timer e) (e_recover_end e) (e_attack_damage
    e) (e_attack_point e) (e_attack_radius e) (e_damage_dealt e)
    (e_damage_frame e) (e_stunned e) (e_stun_end_time e) (e_ui_system e)
    (e_rigid_body e) (e_ground_y e) (e_killed e).

Definition set_e_rect_centery (e : Enemy) (v : Z) : Enemy :=
  mkEnemy (e_state e) (e_frame e) (e_max_health e) (e_current_health e)
    (e_dir e) (e_flip e) (e_rect_centerx e) v (e_next_idle e) (e_patrol_dist
    e) (e_patrol_tgt e) (e_stun_timer e) (e_recover_end e) (e_attack_damage
    e) (e_attack_point e) (e_attack_radius e) (e_damage_dealt e)
    (e_damage_frame e) (e_stunned e) (e_stun_end_time e) (e_ui_system e)
    (e_rigid_body e) (e_ground_y e) (e_killed e).

Definition set_e_next_idle (e : Enemy) (v : Q) : Enemy :=
  mkEnemy (e_state e) (e_frame e) (e_max_health e) (e_current_health e)
    (e_dir e) (e_flip e) (e_rect_centerx e) (e_rect_centery e) v
    (e_patrol_dist e) (e_patrol_tgt e) (e_stun_timer e) (e_recover_end e)
    (e_attack_damage e) (e_attack_point e) (e_attack_radius e)
    (e_damage_dealt e) (e_damage_frame e) (e_stunned e) (e_stun_end_time e)
    (e_ui_system e) (e_rigid_body e) (e_ground_y e) (e_killed e).

Definition set_e_patrol_dist (e : Enemy) (v : Z) : Enemy :=
  mkEnemy (e_state e) (e_frame e) (e_max_health e) (e_current_health e)
    (e_dir e) (e_flip e) (e_rect_centerx e) (e_rect_centery e) (e_next_idle
    e) v (e_patrol_tgt e) (e_stun_timer e) (e_recover_end e)
    (e_attack_damage e) (e_attack_point e) (e_attack_radius e)
    (e_damage_dealt e) (e_damage_frame e) (e_stunned e) (e_stun_end_time e)
    (e_ui_system e) (e_rigid_body e) (e_ground_y e) (e_killed e).

Definition set_e_patrol_tgt (e : Enemy) (v : Z) : Enemy :=
  mkEnemy (e_state e) (e_frame e) (e_max_health e) (e_current_health e)
    (e_dir e) (e_flip e) (e_rect_centerx e) (e_rect_centery e) (e_next_idle
    e) (e_patrol_dist e) v (e_stun_timer e) (e_recover_end e)
    (e_attack_damage e) (e_attack_point e) (e_attack_radius e)
    (e_damage_dealt e) (e_damage_frame e) (e_stunned e) (e_stun_end_time e)
    (e_ui_system e) (e_rigid_body e) (e_ground_y e) (e_killed e).

Definition set_e_stun_timer (e : Enemy) (v : Q) : Enemy :=
  mkEnemy (e_state e) (e_frame e) (e_max_health e) (e_current_health e)
    (e_dir e) (e_flip e) (e_rect_centerx e) (e_rect_centery e) (e_next_idle
    e) (e_patrol_dist e) (e_patrol_tgt e) v (e_recover_end e)
    (e_attack_damage e) (e_attack_point e) (e_attack_radius e)
    (e_damage_dealt e) (e_damage_frame e) (e_stunned e) (e_stun_end_time e)
    (e_ui_system e) (e_rigid_body e) (e_ground_y e) (e_killed e).

Definition set_e_recover_end (e : Enemy) (v : Q) : Enemy :=
  mkEnemy (e_state e) (e_frame e) (e_max_health e) (e_current_health e)
    (e_dir e) (e_flip e) (e_rect_centerx e) (e_rect_centery e) (e_next_idle
    e) (e_patrol_dist e) (e_patrol_tgt e) (e_stun_timer e) v
    (e_attack_damage e) (e_attack_point e) (e_attack_radius e)
    (e_damage_dealt e) (e_damage_frame e) (e_stunned e) (e_stun_end_time e)
    (e_ui_system e) (e_rigid_body e) (e_ground_y e) (e_killed e).

Definition set_e_attack_point (e : Enemy) (v : Z * Z) : Enemy :=
  mkEnemy (e_state e) (e_frame e) (e_max_health e) (e_current_health e)
    (e_dir e) (e_flip e) (e_rect_centerx e) (e_rect_centery e) (e_next_idle
    e) (e_patrol_dist e) (e_patrol_tgt e) (e_stun_timer e) (e_recover_end e)
    (e_attack_damage e) v (e_attack_radius e) (e_damage_dealt e)
    (e_damage_frame e) (e_stunned e) (e_stun_end_time e) (e_ui_system e)
    (e_rigid_body e) (e_ground_y e) (e_killed e).

Definition set_e_damage_dealt (e : Enemy) (v : bool) : Enemy :=
  mkEnemy (e_state e) (e_frame e) (e_max_health e) (e_current_health e)
    (e_dir e) (e_flip e) (e_rect_centerx e) (e_rect_centery e) (e_next_idle
    e) (e_patrol_dist e) (e_patrol_tgt e) (e_stun_timer e) (e_recover_end e)
    (e_attack_damage e) (e_attack_point e) (e_attack_radius e) v
    (e_damage_frame e) (e_stunned e) (e_stun_end_time e) (e_ui_system e)
    (e_rigid_body e) (e_ground_y e) (e_killed e).

Definition set_e_stunned (e : Enemy) (v : bool) : Enemy :=
  mkEnemy (e_state e) (e_frame e) (e_max_health e) (e_current_health e)
    (e_dir e) (e_flip e) (e_rect_centerx e) (e_rect_centery e) (e_next_idle
    e) (e_patrol_dist e) (e_patrol_tgt e) (e_stun_timer e) (e_recover_end e)
    (e_attack_damage e) (e_attack_point e) (e_attack_radius e)
    (e_damage_dealt e) (e_damage_frame e) v (e_stun_end_time e) (e_ui_system
    e) (e_rigid_body e) (e_ground_y e) (e_killed e).

Definition set_e_stun_end_time (e : Enemy) (v : Q) : Enemy :=
  mkEnemy (e_state e) (e_frame e) (e_max_health e) (e_current_health e)
    (e_dir e) (e_flip e) (e_rect_centerx e) (e_rect_centery e) (e_next_idle
    e) (e_patrol_dist e) (e_patrol_tgt e) (e_stun_timer e) (e_recover_end e)
    (e_attack_damage e) (e_attack_point e) (e_attack_radius e)
    (e_damage_dealt e) (e_damage_frame e) (e_stunned e) v (e_ui_system e)
    (e_rigid_body e) (e_ground_y e) (e_killed e).

Definition set_e_ui_system (e : Enemy) (v : bool) : Enemy :=
  mkEnemy (e_state e) (e_frame e) (e_max_health e) (e_current_health e)
    (e_dir e) (e_flip e) (e_rect_centerx e) (e_rect_centery e) (e_next_idle
    e) (e_patrol_dist e) (e_patrol_tgt e) (e_stun_timer e) (e_recover_end e)
    (e_attack_damage e) (e_attack_point e) (e_attack_radius e)
    (e_damage_dealt e) (e_damage_frame e) (e_stunned e) (e_stun_end_time e)
    v (e_rigid_body e) (e_ground_y e) (e_killed e).

Definition set_e_rigid_body (e : Enemy) (v : RigidBody.t) : Enemy :=
  mkEnemy (e_state e) (e_frame e) (e_max_health e) (e_current_health e)
    (e_dir e) (e_flip e) (e_rect_centerx e) (e_rect_centery e) (e_next_idle
    e) (e_patrol_dist e) (e_patrol_tgt e) (e_stun_timer e) (e_recover_end e)
    (e_attack_damage e) (e_attack_point e) (e_attack_radius e)
    (e_damage_dealt e) (e_damage_frame e) (e_stunned e) (e_stun_end_time e)
    (e_ui_system e) v (e_ground_y e) (e_killed e).

Definition set_e_ground_y (e : Enemy) (v : option Z) : Enemy :=
  mkEnemy (e_state e) (e_frame e) (e_max_health e) (e_current_health e)
    (e_dir e) (e_flip e) (e_rect_centerx e) (e_rect_centery e) (e_next_idle
    e) (e_patrol_dist e) (e_patrol_tgt e) (e_stun_timer e) (e_recover_end e)
    (e_attack_damage e) (e_attack_point e) (e_attack_radius e)
    (e_damage_dealt e) (e_damage_frame e) (e_stunned e) (e_stun_end_time e)
    (e_ui_system e) (e_rigid_body e) v (e_killed e).

Definition set_e_killed (e : Enemy) (v : bool) : Enemy :=
  mkEnemy (e_state e) (e_frame e) (e_max_health e) (e_current_health e)
    (e_dir e) (e_flip e) (e_rect_centerx e) (e_rect_centery e) (e_next_idle
    e) (e_patrol_dist e) (e_patrol_tgt e) (e_stun_timer e) (e_recover_end e)
    (e_attack_damage e) (e_attack_point e) (e_attack_radius e)
    (e_damage_dealt e) (e_damage_frame e) (e_stunned e) (e_stun_end_time e)
    (e_ui_system e) (e_rigid_body e) (e_ground_y e) v.

Record Yori := mkYori {
  y_state : ystate;
  y_frame : Q;
  y_max_health : Z;
  y_current_health : Z;
  y_hurt_counter_time : Q;
  y_block_time : Q;
  y_counter_delay : Q;
  y_block_duration : Q;
  y_low_health_threshold : Q;
  y_low_health_dialog_shown : bool;
  y_should_trigger_low_health_dialog : bool;
  y_can_counter_attack : bool;
  y_counter_attack_chance : Q;
  y_counter_attack_time : Q;
  y_counter_attack_duration : Q;
  y_counter_wait_duration : Q;
  y_counter_wait_start_time : Q;
  y_counter_attack_lunge : Z;
  y_counter_start_x : Z;  (* self._counter_start_x *)
  y_skill_cooldown : Q;
  y_skill_cooldown_duration : Q;
  y_skill_time : Q;
  y_skill_duration : Q;
  y_skill_damage : Z;
  y_should_use_skill : bool;
  y_knockback_start_velocity : Q;
  y_knockback_duration : Q;
  y_is_in_knockback : bool;
  y_death_time : Q;
  y_death_knockback_force : Q;
  y_death_knockback_duration : Q;
  y_is_death_knockback : bool;
  y_cinematic_death : bool;
  y_dir : Z;
  y_flip : bool;
  y_rect_centerx : Z;
  y_rect_centery : Z;
  y_world_x : Z;
  y_attack_combo_count : Z;
  y_attack_damage : Z;
  y_attack_point : Z * Z;
  y_attack_radius : Z;
  y_damage_dealt : bool;
  y_damage_frame : Q;
  y_next_action_time : Q;
  y_dash_target_x : Z;
  y_is_dashing : bool;
  y_in_combo : bool;
  y_ui_system : bool;  (* whether main.py has set a ui_system *)
  y_rigid_body : RigidBody.t;
  y_ground_y : option Z;
  y_is_active : bool;  (* hasattr(self, 'is_active') and self.is_active *)
  y_skill_attack_radius : option Z  (* optional attribute, 250 when absent *)
}.

Definition set_y_state (y : Yori) (v : ystate) : Yori :=
  mkYori v (y_frame y) (y_max_health y) (y_current_health y)
    (y_hurt_counter_time y) (y_block_time y) (y_counter_delay y)
    (y_block_duration y) (y_low_health_threshold y)
    (y_low_health_dialog_shown y) (y_should_trigger_low_health_dialog y)
    (y_can_counter_attack y) (y_counter_attack_chance y)
    (y_counter_attack_time y) (y_counter_attack_duration y)
    (y_counter_wait_duration y) (y_counter_wait_start_time y)
    (y_counter_attack_lunge y) (y_counter_start_x y) (y_skill_cooldown y)
    (y_skill_cooldown_duration y) (y_skill_time y) (y_skill_duration y)
    (y_skill_damage y) (y_should_use_skill y) (y_knockback_start_velocity y)
    (y_knockback_duration y) (y_is_in_knockback y) (y_death_time y)
    (y_death_knockback_force y) (y_death_knockback_duration y)
    (y_is_death_knockback y) (y_cinematic_death y) (y_dir y) (y_flip y)
    (y_rect_centerx y) (y_rect_centery y) (y_world_x y)
    (y_attack_combo_count y) (y_attack_damage y) (y_attack_point y)
    (y_attack_radius y) (y_damage_dealt y) (y_damage_frame y)
    (y_next_action_time y) (y_dash_target_x y) (y_is_dashing y) (y_in_combo
    y) (y_ui_system y) (y_rigid_body y) (y_ground_y y) (y_is_active y)
    (y_skill_attack_radius y).

Definition set_y_frame (y : Yori) (v : Q) : Yori :=
  mkYori (y_state y) v (y_max_health y) (y_current_health y)
    (y_hurt_counter_time y) (y_block_time y) (y_counter_delay y)
    (y_block_duration y) (y_low_health_threshold y)
    (y_low_health_dialog_shown y) (y_should_trigger_low_health_dialog y)
    (y_can_counter_attack y) (y_counter_attack_chance y)
    (y_counter_attack_time y) (y_counter_attack_duration y)
    (y_counter_wait_duration y) (y_counter_wait_start_time y)
    (y_counter_attack_lunge y) (y_counter_start_x y) (y_skill_cooldown y)
    (y_skill_cooldown_duration y) (y_skill_time y) (y_skill_duration y)
    (y_skill_damage y) (y_should_use_skill y) (y_knockback_start_velocity y)
    (y_knockback_duration y) (y_is_in_knockback y) (y_death_time y)
    (y_death_knockback_force y) (y_death_knockback_duration y)
    (y_is_death_knockback y) (y_cinematic_death y) (y_dir y) (y_flip y)
    (y_rect_centerx y) (y_rect_centery y) (y_world_x y)
    (y_attack_combo_count y) (y_attack_damage y) (y_attack_point y)
    (y_attack_radius y) (y_damage_dealt y) (y_damage_frame y)
    (y_next_action_time y) (y_dash_target_x y) (y_is_dashing y) (y_in_combo
    y) (y_ui_system y) (y_rigid_body y) (y_ground_y y) (y_is_active y)
    (y_skill_attack_radius y).

Definition set_y_current_health (y : Yori) (v : Z) : Yori :=
  mkYori (y_state y) (y_frame y) (y_max_health y) v (y_hurt_counter_time y)
    (y_block_time y) (y_counter_delay y) (y_block_duration y)
    (y_low_health_threshold y) (y_low_health_dialog_shown y)
    (y_should_trigger_low_health_dialog y) (y_can_counter_attack y)
    (y_counter_attack_chance y) (y_counter_attack_time y)
    (y_counter_attack_duration y) (y_counter_wait_duration y)
    (y_counter_wait_start_time y) (y_counter_attack_lunge y)
    (y_counter_start_x y) (y_skill_cooldown y) (y_skill_cooldown_duration y)
    (y_skill_time y) (y_skill_duration y) (y_skill_damage y)
    (y_should_use_skill y) (y_knockback_start_velocity y)
    (y_knockback_duration y) (y_is_in_knockback y) (y_death_time y)
    (y_death_knockback_force y) (y_death_knockback_duration y)
    (y_is_death_knockback y) (y_cinematic_death y) (y_dir y) (y_flip y)
    (y_rect_centerx y) (y_rect_centery y) (y_world_x y)
    (y_attack_combo_count y) (y_attack_damage y) (y_attack_point y)
    (y_attack_radius y) (y_damage_dealt y) (y_damage_frame y)
    (y_next_action_time y) (y_dash_target_x y) (y_is_dashing y) (y_in_combo
    y) (y_ui_system y) (y_rigid_body y) (y_ground_y y) (y_is_active y)
    (y_skill_attack_radius y).

Definition set_y_hurt_counter_time (y : Yori) (v : Q) : Yori :=
  mkYori (y_state y) (y_frame y) (y_max_health y) (y_current_health y) v
    (y_block_time y) (y_counter_delay y) (y_block_duration y)
    (y_low_health_threshold y) (y_low_health_dialog_shown y)
    (y_should_trigger_low_health_dialog y) (y_can_counter_attack y)
    (y_counter_attack_chance y) (y_counter_attack_time y)
    (y_counter_attack_duration y) (y_counter_wait_duration y)
    (y_counter_wait_start_time y) (y_counter_attack_lunge y)
    (y_counter_start_x y) (y_skill_cooldown y) (y_skill_cooldown_duration y)
    (y_skill_time y) (y_skill_duration y) (y_skill_damage y)
    (y_should_use_skill y) (y_knockback_start_velocity y)
    (y_knockback_duration y) (y_is_in_knockback y) (y_death_time y)
    (y_death_knockback_force y) (y_death_knockback_duration y)
    (y_is_death_knockback y) (y_cinematic_death y) (y_dir y) (y_flip y)
    (y_rect_centerx y) (y_rect_centery y) (y_world_x y)
    (y_attack_combo_count y) (y_attack_damage y) (y_attack_point y)
    (y_attack_radius y) (y_damage_dealt y) (y_damage_frame y)
    (y_next_action_time y) (y_dash_target_x y) (y_is_dashing y) (y_in_combo
    y) (y_ui_system y) (y_rigid_body y) (y_ground_y y) (y_is_active y)
    (y_skill_attack_radius y).


Definition set_y_low_health_dialog_shown (y : Yori) (v : bool) : Yori :=
  mkYori (y_state y) (y_frame y) (y_max_health y) (y_current_health y)
    (y_hurt_counter_time y) (y_block_time y) (y_counter_delay y)
    (y_block_duration y) (y_low_health_threshold y) v
    (y_should_trigger_low_health_dialog y) (y_can_counter_attack y)
    (y_counter_attack_chance y) (y_counter_attack_time y)
    (y_counter_attack_duration y) (y_counter_wait_duration y)
    (y_counter_wait_start_time y) (y_counter_attack_lunge y)
    (y_counter_start_x y) (y_skill_cooldown y) (y_skill_cooldown_duration y)
    (y_skill_time y) (y_skill_duration y) (y_skill_damage y)
    (y_should_use_skill y) (y_knockback_start_velocity y)
    (y_knockback_duration y) (y_is_in_knockback y) (y_death_time y)
    (y_death_knockback_force y) (y_death_knockback_duration y)
    (y_is_death_knockback y) (y_cinematic_death y) (y_dir y) (y_flip y)
    (y_rect_centerx y) (y_rect_centery y) (y_world_x y)
    (y_attack_combo_count y) (y_attack_damage y) (y_attack_point y)
    (y_attack_radius y) (y_damage_dealt y) (y_damage_frame y)
    (y_next_action_time y) (y_dash_target_x y) (y_is_dashing y) (y_in_combo
    y) (y_ui_system y) (y_rigid_body y) (y_ground_y y) (y_is_active y)
    (y_skill_attack_radius y).

Definition set_y_should_trigger_low_health_dialog (y : Yori) (v : bool) : Yori :=
  mkYori (y_state y) (y_frame y) (y_max_health y) (y_current_health y)
    (y_hurt_counter_time y) (y_block_time y) (y_counter_delay y)
    (y_block_duration y) (y_low_health_threshold y)
    (y_low_health_dialog_shown y) v (y_can_counter_attack y)
    (y_counter_attack_chance y) (y_counter_attack_time y)
    (y_counter_attack_duration y) (y_counter_wait_duration y)
    (y_counter_wait_start_time y) (y_counter_attack_lunge y)
    (y_counter_start_x y) (y_skill_cooldown y) (y_skill_cooldown_duration y)
    (y_skill_time y) (y_skill_duration y) (y_skill_damage y)
    (y_should_use_skill y) (y_knockback_start_velocity y)
    (y_knockback_duration y) (y_is_in_knockback y) (y_death_time y)
    (y_death_knockback_force y) (y_death_knockback_duration y)
    (y_is_death_knockback y) (y_cinematic_death y) (y_dir y) (y_flip y)
    (y_rect_centerx y) (y_rect_centery y) (y_world_x y)
    (y_attack_combo_count y) (y_attack_damage y) (y_attack_point y)
    (y_attack_radius y) (y_damage_dealt y) (y_damage_frame y)
    (y_next_action_time y) (y_dash_target_x y) (y_is_dashing y) (y_in_combo
    y) (y_ui_system y) (y_rigid_body y) (y_ground_y y) (y_is_active y)
    (y_skill_attack_radius y).

Definition set_y_can_counter_attack (y : Yori) (v : bool) : Yori :=
  mkYori (y_state y) (y_frame y) (y_max_health y) (y_current_health y)
    (y_hurt_counter_time y) (y_block_time y) (y_counter_delay y)
    (y_block_duration y) (y_low_health_threshold y)
    (y_low_health_dialog_shown y) (y_should_trigger_low_health_dialog y) v
    (y_counter_attack_chance y) (y_counter_attack_time y)
    (y_counter_attack_duration y) (y_counter_wait_duration y)
    (y_counter_wait_start_time y) (y_counter_attack_lunge y)
    (y_counter_start_x y) (y_skill_cooldown y) (y_skill_cooldown_duration y)
    (y_skill_time y) (y_skill_duration y) (y_skill_damage y)
    (y_should_use_skill y) (y_knockback_start_velocity y)
    (y_knockback_duration y) (y_is_in_knockback y) (y_death_time y)
    (y_death_knockback_force y) (y_death_knockback_duration y)
    (y_is_death_knockback y) (y_cinematic_death y) (y_dir y) (y_flip y)
    (y_rect_centerx y) (y_rect_centery y) (y_world_x y)
    (y_attack_combo_count y) (y_attack_damage y) (y_attack_point y)
    (y_attack_radius y) (y_damage_dealt y) (y_damage_frame y)
    (y_next_action_time y) (y_dash_target_x y) (y_is_dashing y) (y_in_combo
    y) (y_ui_system y) (y_rigid_body y) (y_ground_y y) (y_is_active y)
    (y_skill_attack_radius y).

Definition set_y_counter_attack_time (y : Yori) (v : Q) : Yori :=
  mkYori (y_state y) (y_frame y) (y_max_health y) (y_current_health y)
    (y_hurt_counter_time y) (y_block_time y) (y_counter_delay y)
    (y_block_duration y) (y_low_health_threshold y)
    (y_low_health_dialog_shown y) (y_should_trigger_low_health_dialog y)
    (y_can_counter_attack y) (y_counter_attack_chance y) v
    (y_counter_attack_duration y) (y_counter_wait_duration y)
    (y_counter_wait_start_time y) (y_counter_attack_lunge y)
    (y_counter_start_x y) (y_skill_cooldown y) (y_skill_cooldown_duration y)
    (y_skill_time y) (y_skill_duration y) (y_skill_damage y)
    (y_should_use_skill y) (y_knockback_start_velocity y)
    (y_knockback_duration y) (y_is_in_knockback y) (y_death_time y)
    (y_death_knockback_force y) (y_death_knockback_duration y)
    (y_is_death_knockback y) (y_cinematic_death y) (y_dir y) (y_flip y)
    (y_rect_centerx y) (y_rect_centery y) (y_world_x y)
    (y_attack_combo_count y) (y_attack_damage y) (y_attack_point y)
    (y_attack_radius y) (y_damage_dealt y) (y_damage_frame y)
    (y_next_action_time y) (y_dash_target_x y) (y_is_dashing y) (y_in_combo
    y) (y_ui_system y) (y_rigid_body y) (y_ground_y y) (y_is_active y)
    (y_skill_attack_radius y).

Definition set_y_counter_wait_start_time (y : Yori) (v : Q) : Yori :=
  mkYori (y_state y) (y_frame y) (y_max_health y) (y_current_health y)
    (y_hurt_counter_time y) (y_block_time y) (y_counter_delay y)
    (y_block_duration y) (y_low_health_threshold y)
    (y_low_health_dialog_shown y) (y_should_trigger_low_health_dialog y)
    (y_can_counter_attack y) (y_counter_attack_chance y)
    (y_counter_attack_time y) (y_counter_attack_duration y)
    (y_counter_wait_duration y) v (y_counter_attack_lunge y)
    (y_counter_start_x y) (y_skill_cooldown y) (y_skill_cooldown_duration y)
    (y_skill_time y) (y_skill_duration y) (y_skill_damage y)
    (y_should_use_skill y) (y_knockback_start_velocity y)
    (y_knockback_duration y) (y_is_in_knockback y) (y_death_time y)
    (y_death_knockback_force y) (y_death_knockback_duration y)
    (y_is_death_knockback y) (y_cinematic_death y) (y_dir y) (y_flip y)
    (y_rect_centerx y) (y_rect_centery y) (y_world_x y)
    (y_attack_combo_count y) (y_attack_damage y) (y_attack_point y)
    (y_attack_radius y) (y_damage_dealt y) (y_damage_frame y)
    (y_next_action_time y) (y_dash_target_x y) (y_is_dashing y) (y_in_combo
    y) (y_ui_system y) (y_rigid_body y) (y_ground_y y) (y_is_active y)
    (y_skill_attack_radius y).

Definition set_y_counter_start_x (y : Yori) (v : Z) : Yori :=
  mkYori (y_state y) (y_frame y) (y_max_health y) (y_current_health y)
    (y_hurt_counter_time y) (y_block_time y) (y_counter_delay y)
    (y_block_duration y) (y_low_health_threshold y)
    (y_low_health_dialog_shown y) (y_should_trigger_low_health_dialog y)
    (y_can_counter_attack y) (y_counter_attack_chance y)
    (y_counter_attack_time y) (y_counter_attack_duration y)
    (y_counter_wait_duration y) (y_counter_wait_start_time y)
    (y_counter_attack_lunge y) v (y_skill_cooldown y)
    (y_skill_cooldown_duration y) (y_skill_time y) (y_skill_duration y)
    (y_skill_damage y) (y_should_use_skill y) (y_knockback_start_velocity y)
    (y_knockback_duration y) (y_is_in_knockback y) (y_death_time y)
    (y_death_knockback_force y) (y_death_knockback_duration y)
    (y_is_death_knockback y) (y_cinematic_death y) (y_dir y) (y_flip y)
    (y_rect_centerx y) (y_rect_centery y) (y_world_x y)
    (y_attack_combo_count y) (y_attack_damage y) (y_attack_point y)
    (y_attack_radius y) (y_damage_dealt y) (y_damage_frame y)
    (y_next_action_time y) (y_dash_target_x y) (y_is_dashing y) (y_in_combo
    y) (y_ui_system y) (y_rigid_body y) (y_ground_y y) (y_is_active y)
    (y_skill_attack_radius y).

Definition set_y_skill_cooldown (y : Yori) (v : Q) : Yori :=
  mkYori (y_state y) (y_frame y) (y_max_health y) (y_current_health y)
    (y_hurt_counter_time y) (y_block_time y) (y_counter_delay y)
    (y_block_duration y) (y_low_health_threshold y)
    (y_low_health_dialog_shown y) (y_should_trigger_low_health_dialog y)
    (y_can_counter_attack y) (y_counter_attack_chance y)
    (y_counter_attack_time y) (y_counter_attack_duration y)
    (y_counter_wait_duration y) (y_counter_wait_start_time y)
    (y_counter_attack_lunge y) (y_counter_start_x y) v
    (y_skill_cooldown_duration y) (y_skill_time y) (y_skill_duration y)
    (y_skill_damage y) (y_should_use_skill y) (y_knockback_start_velocity y)
    (y_knockback_duration y) (y_is_in_knockback y) (y_death_time y)
    (y_death_knockback_force y) (y_death_knockback_duration y)
    (y_is_death_knockback y) (y_cinematic_death y) (y_dir y) (y_flip y)
    (y_rect_centerx y) (y_rect_centery y) (y_world_x y)
    (y_attack_combo_count y) (y_attack_damage y) (y_attack_point y)
    (y_attack_radius y) (y_damage_dealt y) (y_damage_frame y)
    (y_next_action_time y) (y_dash_target_x y) (y_is_dashing y) (y_in_combo
    y) (y_ui_system y) (y_rigid_body y) (y_ground_y y) (y_is_active y)
    (y_skill_attack_radius y).

Definition set_y_skill_time (y : Yori) (v : Q) : Yori :=
  mkYori (y_state y) (y_frame y) (y_max_health y) (y_current_health y)
    (y_hurt_counter_time y) (y_block_time y) (y_counter_delay y)
    (y_block_duration y) (y_low_health_threshold y)
    (y_low_health_dialog_shown y) (y_should_trigger_low_health_dialog y)
    (y_can_counter_attack y) (y_counter_attack_chance y)
    (y_counter_attack_time y) (y_counter_attack_duration y)
    (y_counter_wait_duration y) (y_counter_wait_start_time y)
    (y_counter_attack_lunge y) (y_counter_start_x y) (y_skill_cooldown y)
    (y_skill_cooldown_duration y) v (y_skill_duration y) (y_skill_damage y)
    (y_should_use_skill y) (y_knockback_start_velocity y)
    (y_knockback_duration y) (y_is_in_knockback y) (y_death_time y)
    (y_death_knockback_force y) (y_death_knockback_duration y)
    (y_is_death_knockback y) (y_cinematic_death y) (y_dir y) (y_flip y)
    (y_rect_centerx y) (y_rect_centery y) (y_world_x y)
    (y_attack_combo_count y) (y_attack_damage y) (y_attack_point y)
    (y_attack_radius y) (y_damage_dealt y) (y_damage_frame y)
    (y_next_action_time y) (y_dash_target_x y) (y_is_dashing y) (y_in_combo
    y) (y_ui_system y) (y_rigid_body y) (y_ground_y y) (y_is_active y)
    (y_skill_attack_radius y).

Definition set_y_should_use_skill (y : Yori) (v : bool) : Yori :=
  mkYori (y_state y) (y_frame y) (y_max_health y) (y_current_health y)
    (y_hurt_counter_time y) (y_block_time y) (y_counter_delay y)
    (y_block_duration y) (y_low_health_threshold y)
    (y_low_health_dialog_shown y) (y_should_trigger_low_health_dialog y)
    (y_can_counter_attack y) (y_counter_attack_chance y)
    (y_counter_attack_time y) (y_counter_attack_duration y)
    (y_counter_wait_duration y) (y_counter_wait_start_time y)
    (y_counter_attack_lunge y) (y_counter_start_x y) (y_skill_cooldown y)
    (y_skill_cooldown_duration y) (y_skill_time y) (y_skill_duration y)
    (y_skill_damage y) v (y_knockback_start_velocity y)
    (y_knockback_duration y) (y_is_in_knockback y) (y_death_time y)
    (y_death_knockback_force y) (y_death_knockback_duration y)
    (y_is_death_knockback y) (y_cinematic_death y) (y_dir y) (y_flip y)
    (y_rect_centerx y) (y_rect_centery y) (y_world_x y)
    (y_attack_combo_count y) (y_attack_damage y) (y_attack_point y)
    (y_attack_radius y) (y_damage_dealt y) (y_damage_frame y)
    (y_next_action_time y) (y_dash_target_x y) (y_is_dashing y) (y_in_combo
    y) (y_ui_system y) (y_rigid_body y) (y_ground_y y) (y_is_active y)
    (y_skill_attack_radius y).

Definition set_y_knockback_start_velocity (y : Yori) (v : Q) : Yori :=
  mkYori (y_state y) (y_frame y) (y_max_health y) (y_current_health y)
    (y_hurt_counter_time y) (y_block_time y) (y_counter_delay y)
    (y_block_duration y) (y_low_health_threshold y)
    (y_low_health_dialog_shown y) (y_should_trigger_low_health_dialog y)
    (y_can_counter_attack y) (y_counter_attack_chance y)
    (y_counter_attack_time y) (y_counter_attack_duration y)
    (y_counter_wait_duration y) (y_counter_wait_start_time y)
    (y_counter_attack_lunge y) (y_counter_start_x y) (y_skill_cooldown y)
    (y_skill_cooldown_duration y) (y_skill_time y) (y_skill_duration y)
    (y_skill_damage y) (y_should_use_skill y) v (y_knockback_duration y)
    (y_is_in_knockback y) (y_death_time y) (y_death_knockback_force y)
    (y_death_knockback_duration y) (y_is_death_knockback y)
    (y_cinematic_death y) (y_dir y) (y_flip y) (y_rect_centerx y)
    (y_rect_centery y) (y_world_x y) (y_attack_combo_count y)
    (y_attack_damage y) (y_attack_point y) (y_attack_radius y)
    (y_damage_dealt y) (y_damage_frame y) (y_next_action_time y)
    (y_dash_target_x y) (y_is_dashing y) (y_in_combo y) (y_ui_system y)
    (y_rigid_body y) (y_ground_y y) (y_is_active y) (y_skill_attack_radius
    y).

Definition set_y_is_in_knockback (y : Yori) (v : bool) : Yori :=
  mkYori (y_state y) (y_frame y) (y_max_health y) (y_current_health y)
    (y_hurt_counter_time y) (y_block_time y) (y_counter_delay y)
    (y_block_duration y) (y_low_health_threshold y)
    (y_low_health_dialog_shown y) (y_should_trigger_low_health_dialog y)
    (y_can_counter_attack y) (y_counter_attack_chance y)
    (y_counter_attack_time y) (y_counter_attack_duration y)
    (y_counter_wait_duration y) (y_counter_wait_start_time y)
    (y_counter_attack_lunge y) (y_counter_start_x y) (y_skill_cooldown y)
    (y_skill_cooldown_duration y) (y_skill_time y) (y_skill_duration y)
    (y_skill_damage y) (y_should_use_skill y) (y_knockback_start_velocity y)
    (y_knockback_duration y) v (y_death_time y) (y_death_knockback_force y)
    (y_death_knockback_duration y) (y_is_death_knockback y)
    (y_cinematic_death y) (y_dir y) (y_flip y) (y_rect_centerx y)
    (y_rect_centery y) (y_world_x y) (y_attack_combo_count y)
    (y_attack_damage y) (y_attack_point y) (y_attack_radius y)
    (y_damage_dealt y) (y_damage_frame y) (y_next_action_time y)
    (y_dash_target_x y) (y_is_dashing y) (y_in_combo y) (y_ui_system y)
    (y_rigid_body y) (y_ground_y y) (y_is_active y) (y_skill_attack_radius
    y).

Definition set_y_death_time (y : Yori) (v : Q) : Yori :=
  mkYori (y_state y) (y_frame y) (y_max_health y) (y_current_health y)
    (y_hurt_counter_time y) (y_block_time y) (y_counter_delay y)
    (y_block_duration y) (y_low_health_threshold y)
    (y_low_health_dialog_shown y) (y_should_trigger_low_health_dialog y)
    (y_can_counter_attack y) (y_counter_attack_chance y)
    (y_counter_attack_time y) (y_counter_attack_duration y)
    (y_counter_wait_duration y) (y_counter_wait_start_time y)
    (y_counter_attack_lunge y) (y_counter_start_x y) (y_skill_cooldown y)
    (y_skill_cooldown_duration y) (y_skill_time y) (y_skill_duration y)
    (y_skill_damage y) (y_should_use_skill y) (y_knockback_start_velocity y)
    (y_knockback_duration y) (y_is_in_knockback y) v
    (y_death_knockback_force y) (y_death_knockback_duration y)
    (y_is_death_knockback y) (y_cinematic_death y) (y_dir y) (y_flip y)
    (y_rect_centerx y) (y_rect_centery y) (y_world_x y)
    (y_attack_combo_count y) (y_attack_damage y) (y_attack_point y)
    (y_attack_radius y) (y_damage_dealt y) (y_damage_frame y)
    (y_next_action_time y) (y_dash_target_x y) (y_is_dashing y) (y_in_combo
    y) (y_ui_system y) (y_rigid_body y) (y_ground_y y) (y_is_active y)
    (y_skill_attack_radius y).

Definition set_y_is_death_knockback (y : Yori) (v : bool) : Yori :=
  mkYori (y_state y) (y_frame y) (y_max_health y) (y_current_health y)
    (y_hurt_counter_time y) (y_block_time y) (y_counter_delay y)
    (y_block_duration y) (y_low_health_threshold y)
    (y_low_health_dialog_shown y) (y_should_trigger_low_health_dialog y)
    (y_can_counter_attack y) (y_counter_attack_chance y)
    (y_counter_attack_time y) (y_counter_attack_duration y)
    (y_counter_wait_duration y) (y_counter_wait_start_time y)
    (y_counter_attack_lunge y) (y_counter_start_x y) (y_skill_cooldown y)
    (y_skill_cooldown_duration y) (y_skill_time y) (y_skill_duration y)
    (y_skill_damage y) (y_should_use_skill y) (y_knockback_start_velocity y)
    (y_knockback_duration y) (y_is_in_knockback y) (y_death_time y)
    (y_death_knockback_force y) (y_death_knockback_duration y) v
    (y_cinematic_death y) (y_dir y) (y_flip y) (y_rect_centerx y)
    (y_rect_centery y) (y_world_x y) (y_attack_combo_count y)
    (y_attack_damage y) (y_attack_point y) (y_attack_radius y)
    (y_damage_dealt y) (y_damage_frame y) (y_next_action_time y)
    (y_dash_target_x y) (y_is_dashing y) (y_in_combo y) (y_ui_system y)
    (y_rigid_body y) (y_ground_y y) (y_is_active y) (y_skill_attack_radius
    y).

Definition set_y_cinematic_death (y : Yori) (v : bool) : Yori :=
  mkYori (y_state y) (y_frame y) (y_max_health y) (y_current_health y)
    (y_hurt_counter_time y) (y_block_time y) (y_counter_delay y)
    (y_block_duration y) (y_low_health_threshold y)
    (y_low_health_dialog_shown y) (y_should_trigger_low_health_dialog y)
    (y_can_counter_attack y) (y_counter_attack_chance y)
    (y_counter_attack_time y) (y_counter_attack_duration y)
    (y_counter_wait_duration y) (y_counter_wait_start_time y)
    (y_counter_attack_lunge y) (y_counter_start_x y) (y_skill_cooldown y)
    (y_skill_cooldown_duration y) (y_skill_time y) (y_skill_duration y)
    (y_skill_damage y) (y_should_use_skill y) (y_knockback_start_velocity y)
    (y_knockback_duration y) (y_is_in_knockback y) (y_death_time y)
    (y_death_knockback_force y) (y_death_knockback_duration y)
    (y_is_death_knockback y) v (y_dir y) (y_flip y) (y_rect_centerx y)
    (y_rect_centery y) (y_world_x y) (y_attack_combo_count y)
    (y_attack_damage y) (y_attack_point y) (y_attack_radius y)
    (y_damage_dealt y) (y_damage_frame y) (y_next_action_time y)
    (y_dash_target_x y) (y_is_dashing y) (y_in_combo y) (y_ui_system y)
    (y_rigid_body y) (y_ground_y y) (y_is_active y) (y_skill_attack_radius
    y).

Definition set_y_dir (y : Yori) (v : Z) : Yori :=
  mkYori (y_state y) (y_frame y) (y_max_health y) (y_current_health y)
    (y_hurt_counter_time y) (y_block_time y) (y_counter_delay y)
    (y_block_duration y) (y_low_health_threshold y)
    (y_low_health_dialog_shown y) (y_should_trigger_low_health_dialog y)
    (y_can_counter_attack y) (y_counter_attack_chance y)
    (y_counter_attack_time y) (y_counter_attack_duration y)
    (y_counter_wait_duration y) (y_counter_wait_start_time y)
    (y_counter_attack_lunge y) (y_counter_start_x y) (y_skill_cooldown y)
    (y_skill_cooldown_duration y) (y_skill_time y) (y_skill_duration y)
    (y_skill_damage y) (y_should_use_skill y) (y_knockback_start_velocity y)
    (y_knockback_duration y) (y_is_in_knockback y) (y_death_time y)
    (y_death_knockback_force y) (y_death_knockback_duration y)
    (y_is_death_knockback y) (y_cinematic_death y) v (y_flip y)
    (y_rect_centerx y) (y_rect_centery y) (y_world_x y)
    (y_attack_combo_count y) (y_attack_damage y) (y_attack_point y)
    (y_attack_radius y) (y_damage_dealt y) (y_damage_frame y)
    (y_next_action_time y) (y_dash_target_x y) (y_is_dashing y) (y_in_combo
    y) (y_ui_system y) (y_rigid_body y) (y_ground_y y) (y_is_active y)
    (y_skill_attack_radius y).

Definition set_y_flip (y : Yori) (v : bool) : Yori :=
  mkYori (y_state y) (y_frame y) (y_max_health y) (y_current_health y)
    (y_hurt_counter_time y) (y_block_time y) (y_counter_delay y)
    (y_block_duration y) (y_low_health_threshold y)
    (y_low_health_dialog_shown y) (y_should_trigger_low_health_dialog y)
    (y_can_counter_attack y) (y_counter_attack_chance y)
    (y_counter_attack_time y) (y_counter_attack_duration y)
    (y_counter_wait_duration y) (y_counter_wait_start_time y)
    (y_counter_attack_lunge y) (y_counter_start_x y) (y_skill_cooldown y)
    (y_skill_cooldown_duration y) (y_skill_time y) (y_skill_duration y)
    (y_skill_damage y) (y_should_use_skill y) (y_knockback_start_velocity y)
    (y_knockback_duration y) (y_is_in_knockback y) (y_death_time y)
    (y_death_knockback_force y) (y_death_knockback_duration y)
    (y_is_death_knockback y) (y_cinematic_death y) (y_dir y) v
    (y_rect_centerx y) (y_rect_centery y) (y_world_x y)
    (y_attack_combo_count y) (y_attack_damage y) (y_attack_point y)
    (y_attack_radius y) (y_damage_dealt y) (y_damage_frame y)
    (y_next_action_time y) (y_dash_target_x y) (y_is_dashing y) (y_in_combo
    y) (y_ui_system y) (y_rigid_body y) (y_ground_y y) (y_is_active y)
    (y_skill_attack_radius y).

Definition set_y_rect_centerx (y : Yori) (v : Z) : Yori :=
  mkYori (y_state y) (y_frame y) (y_max_health y) (y_current_health y)
    (y_hurt_counter_time y) (y_block_time y) (y_counter_delay y)
    (y_block_duration y) (y_low_health_threshold y)
    (y_low_health_dialog_shown y) (y_should_trigger_low_health_dialog y)
    (y_can_counter_attack y) (y_counter_attack_chance y)
    (y_counter_attack_time y) (y_counter_attack_duration y)
    (y_counter_wait_duration y) (y_counter_wait_start_time y)
    (y_counter_attack_lunge y) (y_counter_start_x y) (y_skill_cooldown y)
    (y_skill_cooldown_duration y) (y_skill_time y) (y_skill_duration y)
    (y_skill_damage y) (y_should_use_skill y) (y_knockback_start_velocity y)
    (y_knockback_duration y) (y_is_in_knockback y) (y_death_time y)
    (y_death_knockback_force y) (y_death_knockback_duration y)
    (y_is_death_knockback y) (y_cinematic_death y) (y_dir y) (y_flip y) v
    (y_rect_centery y) (y_world_x y) (y_attack_combo_count y)
    (y_attack_damage y) (y_attack_point y) (y_attack_radius y)
    (y_damage_dealt y) (y_damage_frame y) (y_next_action_time y)
    (y_dash_target_x y) (y_is_dashing y) (y_in_combo y) (y_ui_system y)
    (y_rigid_body y) (y_ground_y y) (y_is_active y) (y_skill_attack_radius
    y).

Definition set_y_rect_centery (y : Yori) (v : Z) : Yori :=
  mkYori (y_state y) (y_frame y) (y_max_health y) (y_current_health y)
    (y_hurt_counter_time y) (y_block_time y) (y_counter_delay y)
    (y_block_duration y) (y_low_health_threshold y)
    (y_low_health_dialog_shown y) (y_should_trigger_low_health_dialog y)
    (y_can_counter_attack y) (y_counter_attack_chance y)
    (y_counter_attack_time y) (y_counter_attack_duration y)
    (y_counter_wait_duration y) (y_counter_wait_start_time y)
    (y_counter_attack_lunge y) (y_counter_start_x y) (y_skill_cooldown y)
    (y_skill_cooldown_duration y) (y_skill_time y) (y_skill_duration y)
    (y_skill_damage y) (y_should_use_skill y) (y_knockback_start_velocity y)
    (y_knockback_duration y) (y_is_in_knockback y) (y_death_time y)
    (y_death_knockback_force y) (y_death_knockback_duration y)
    (y_is_death_knockback y) (y_cinematic_death y) (y_dir y) (y_flip y)
    (y_rect_centerx y) v (y_world_x y) (y_attack_combo_count y)
    (y_attack_damage y) (y_attack_point y) (y_attack_radius y)
    (y_damage_dealt y) (y_damage_frame y) (y_next_action_time y)
    (y_dash_target_x y) (y_is_dashing y) (y_in_combo y) (y_ui_system y)
    (y_rigid_body y) (y_ground_y y) (y_is_active y) (y_skill_attack_radius
    y).

Definition set_y_world_x (y : Yori) (v : Z) : Yori :=
  mkYori (y_state y) (y_frame y) (y_max_health y) (y_current_health y)
    (y_hurt_counter_time y) (y_block_time y) (y_counter_delay y)
    (y_block_duration y) (y_low_health_threshold y)
    (y_low_health_dialog_shown y) (y_should_trigger_low_health_dialog y)
    (y_can_counter_attack y) (y_counter_attack_chance y)
    (y_counter_attack_time y) (y_counter_attack_duration y)
    (y_counter_wait_duration y) (y_counter_wait_start_time y)
    (y_counter_attack_lunge y) (y_counter_start_x y) (y_skill_cooldown y)
    (y_skill_cooldown_duration y) (y_skill_time y) (y_skill_duration y)
    (y_skill_damage y) (y_should_use_skill y) (y_knockback_start_velocity y)
    (y_knockback_duration y) (y_is_in_knockback y) (y_death_time y)
    (y_death_knockback_force y) (y_death_knockback_duration y)
    (y_is_death_knockback y) (y_cinematic_death y) (y_dir y) (y_flip y)
    (y_rect_centerx y) (y_rect_centery y) v (y_attack_combo_count y)
    (y_attack_damage y) (y_attack_point y) (y_attack_radius y)
    (y_damage_dealt y) (y_damage_frame y) (y_next_action_time y)
    (y_dash_target_x y) (y_is_dashing y) (y_in_combo y) (y_ui_system y)
    (y_rigid_body y) (y_ground_y y) (y_is_active y) (y_skill_attack_radius
    y).

Definition set_y_attack_combo_count (y : Yori) (v : Z) : Yori :=
  mkYori (y_state y) (y_frame y) (y_max_health y) (y_current_health y)
    (y_hurt_counter_time y) (y_block_time y) (y_counter_delay y)
    (y_block_duration y) (y_low_health_threshold y)
    (y_low_health_dialog_shown y) (y_should_trigger_low_health_dialog y)
    (y_can_counter_attack y) (y_counter_attack_chance y)
    (y_counter_attack_time y) (y_counter_attack_duration y)
    (y_counter_wait_duration y) (y_counter_wait_start_time y)
    (y_counter_attack_lunge y) (y_counter_start_x y) (y_skill_cooldown y)
    (y_skill_cooldown_duration y) (y_skill_time y) (y_skill_duration y)
    (y_skill_damage y) (y_should_use_skill y) (y_knockback_start_velocity y)
    (y_knockback_duration y) (y_is_in_knockback y) (y_death_time y)
    (y_death_knockback_force y) (y_death_knockback_duration y)
    (y_is_death_knockback y) (y_cinematic_death y) (y_dir y) (y_flip y)
    (y_rect_centerx y) (y_rect_centery y) (y_world_x y) v (y_attack_damage
    y) (y_attack_point y) (y_attack_radius y) (y_damage_dealt y)
    (y_damage_frame y) (y_next_action_time y) (y_dash_target_x y)
    (y_is_dashing y) (y_in_combo y) (y_ui_system y) (y_rigid_body y)
    (y_ground_y y) (y_is_active y) (y_skill_attack_radius y).

Definition set_y_attack_damage (y : Yori) (v : Z) : Yori :=
  mkYori (y_state y) (y_frame y) (y_max_health y) (y_current_health y)
    (y_hurt_counter_time y) (y_block_time y) (y_counter_delay y)
    (y_block_duration y) (y_low_health_threshold y)
    (y_low_health_dialog_shown y) (y_should_trigger_low_health_dialog y)
    (y_can_counter_attack y) (y_counter_attack_chance y)
    (y_counter_attack_time y) (y_counter_attack_duration y)
    (y_counter_wait_duration y) (y_counter_wait_start_time y)
    (y_counter_attack_lunge y) (y_counter_start_x y) (y_skill_cooldown y)
    (y_skill_cooldown_duration y) (y_skill_time y) (y_skill_duration y)
    (y_skill_damage y) (y_should_use_skill y) (y_knockback_start_velocity y)
    (y_knockback_duration y) (y_is_in_knockback y) (y_death_time y)
    (y_death_knockback_force y) (y_death_knockback_duration y)
    (y_is_death_knockback y) (y_cinematic_death y) (y_dir y) (y_flip y)
    (y_rect_centerx y) (y_rect_centery y) (y_world_x y)
    (y_attack_combo_count y) v (y_attack_point y) (y_attack_radius y)
    (y_damage_dealt y) (y_damage_frame y) (y_next_action_time y)
    (y_dash_target_x y) (y_is_dashing y) (y_in_combo y) (y_ui_system y)
    (y_rigid_body y) (y_ground_y y) (y_is_active y) (y_skill_attack_radius
    y).

Definition set_y_attack_point (y : Yori) (v : Z * Z) : Yori :=
  mkYori (y_state y) (y_frame y) (y_max_health y) (y_current_health y)
    (y_hurt_counter_time y) (y_block_time y) (y_counter_delay y)
    (y_block_duration y) (y_low_health_threshold y)
    (y_low_health_dialog_shown y) (y_should_trigger_low_health_dialog y)
    (y_can_counter_attack y) (y_counter_attack_chance y)
    (y_counter_attack_time y) (y_counter_attack_duration y)
    (y_counter_wait_duration y) (y_counter_wait_start_time y)
    (y_counter_attack_lunge y) (y_counter_start_x y) (y_skill_cooldown y)
    (y_skill_cooldown_duration y) (y_skill_time y) (y_skill_duration y)
    (y_skill_damage y) (y_should_use_skill y) (y_knockback_start_velocity y)
    (y_knockback_duration y) (y_is_in_knockback y) (y_death_time y)
    (y_death_knockback_force y) (y_death_knockback_duration y)
    (y_is_death_knockback y) (y_cinematic_death y) (y_dir y) (y_flip y)
    (y_rect_centerx y) (y_rect_centery y) (y_world_x y)
    (y_attack_combo_count y) (y_attack_damage y) v (y_attack_radius y)
    (y_damage_dealt y) (y_damage_frame y) (y_next_action_time y)
    (y_dash_target_x y) (y_is_dashing y) (y_in_combo y) (y_ui_system y)
    (y_rigid_body y) (y_ground_y y) (y_is_active y) (y_skill_attack_radius
    y).

Definition set_y_attack_radius (y : Yori) (v : Z) : Yori :=
  mkYori (y_state y) (y_frame y) (y_max_health y) (y_current_health y)
    (y_hurt_counter_time y) (y_block_time y) (y_counter_delay y)
    (y_block_duration y) (y_low_health_threshold y)
    (y_low_health_dialog_shown y) (y_should_trigger_low_health_dialog y)
    (y_can_counter_attack y) (y_counter_attack_chance y)
    (y_counter_attack_time y) (y_counter_attack_duration y)
    (y_counter_wait_duration y) (y_counter_wait_start_time y)
    (y_counter_attack_lunge y) (y_counter_start_x y) (y_skill_cooldown y)
    (y_skill_cooldown_duration y) (y_skill_time y) (y_skill_duration y)
    (y_skill_damage y) (y_should_use_skill y) (y_knockback_start_velocity y)
    (y_knockback_duration y) (y_is_in_knockback y) (y_death_time y)
    (y_death_knockback_force y) (y_death_knockback_duration y)
    (y_is_death_knockback y) (y_cinematic_death y) (y_dir y) (y_flip y)
    (y_rect_centerx y) (y_rect_centery y) (y_world_x y)
    (y_attack_combo_count y) (y_attack_damage y) (y_attack_point y) v
    (y_damage_dealt y) (y_damage_frame y) (y_next_action_time y)
    (y_dash_target_x y) (y_is_dashing y) (y_in_combo y) (y_ui_system y)
    (y_rigid_body y) (y_ground_y y) (y_is_active y) (y_skill_attack_radius
    y).

Definition set_y_damage_dealt (y : Yori) (v : bool) : Yori :=
  mkYori (y_state y) (y_frame y) (y_max_health y) (y_current_health y)
    (y_hurt_counter_time y) (y_block_time y) (y_counter_delay y)
    (y_block_duration y) (y_low_health_threshold y)
    (y_low_health_dialog_shown y) (y_should_trigger_low_health_dialog y)
    (y_can_counter_attack y) (y_counter_attack_chance y)
    (y_counter_attack_time y) (y_counter_attack_duration y)
    (y_counter_wait_duration y) (y_counter_wait_start_time y)
    (y_counter_attack_lunge y) (y_counter_start_x y) (y_skill_cooldown y)
    (y_skill_cooldown_duration y) (y_skill_time y) (y_skill_duration y)
    (y_skill_damage y) (y_should_use_skill y) (y_knockback_start_velocity y)
    (y_knockback_duration y) (y_is_in_knockback y) (y_death_time y)
    (y_death_knockback_force y) (y_death_knockback_duration y)
    (y_is_death_knockback y) (y_cinematic_death y) (y_dir y) (y_flip y)
    (y_rect_centerx y) (y_rect_centery y) (y_world_x y)
    (y_attack_combo_count y) (y_attack_damage y) (y_attack_point y)
    (y_attack_radius y) v (y_damage_frame y) (y_next_action_time y)
    (y_dash_target_x y) (y_is_dashing y) (y_in_combo y) (y_ui_system y)
    (y_rigid_body y) (y_ground_y y) (y_is_active y) (y_skill_attack_radius
    y).

Definition set_y_next_action_time (y : Yori) (v : Q) : Yori :=
  mkYori (y_state y) (y_frame y) (y_max_health y) (y_current_health y)
    (y_hurt_counter_time y) (y_block_time y) (y_counter_delay y)
    (y_block_duration y) (y_low_health_threshold y)
    (y_low_health_dialog_shown y) (y_should_trigger_low_health_dialog y)
    (y_can_counter_attack y) (y_counter_attack_chance y)
    (y_counter_attack_time y) (y_counter_attack_duration y)
    (y_counter_wait_duration y) (y_counter_wait_start_time y)
    (y_counter_attack_lunge y) (y_counter_start_x y) (y_skill_cooldown y)
    (y_skill_cooldown_duration y) (y_skill_time y) (y_skill_duration y)
    (y_skill_damage y) (y_should_use_skill y) (y_knockback_start_velocity y)
    (y_knockback_duration y) (y_is_in_knockback y) (y_death_time y)
    (y_death_knockback_force y) (y_death_knockback_duration y)
    (y_is_death_knockback y) (y_cinematic_death y) (y_dir y) (y_flip y)
    (y_rect_centerx y) (y_rect_centery y) (y_world_x y)
    (y_attack_combo_count y) (y_attack_damage y) (y_attack_point y)
    (y_attack_radius y) (y_damage_dealt y) (y_damage_frame y) v
    (y_dash_target_x y) (y_is_dashing y) (y_in_combo y) (y_ui_system y)
    (y_rigid_body y) (y_ground_y y) (y_is_active y) (y_skill_attack_radius
    y).

Definition set_y_dash_target_x (y : Yori) (v : Z) : Yori :=
  mkYori (y_state y) (y_frame y) (y_max_health y) (y_current_health y)
    (y_hurt_counter_time y) (y_block_time y) (y_counter_delay y)
    (y_block_duration y) (y_low_health_threshold y)
    (y_low_health_dialog_shown y) (y_should_trigger_low_health_dialog y)
    (y_can_counter_attack y) (y_counter_attack_chance y)
    (y_counter_attack_time y) (y_counter_attack_duration y)
    (y_counter_wait_duration y) (y_counter_wait_start_time y)
    (y_counter_attack_lunge y) (y_counter_start_x y) (y_skill_cooldown y)
    (y_skill_cooldown_duration y) (y_skill_time y) (y_skill_duration y)
    (y_skill_damage y) (y_should_use_skill y) (y_knockback_start_velocity y)
    (y_knockback_duration y) (y_is_in_knockback y) (y_death_time y)
    (y_death_knockback_force y) (y_death_knockback_duration y)
    (y_is_death_knockback y) (y_cinematic_death y) (y_dir y) (y_flip y)
    (y_rect_centerx y) (y_rect_centery y) (y_world_x y)
    (y_attack_combo_count y) (y_attack_damage y) (y_attack_point y)
    (y_attack_radius y) (y_damage_dealt y) (y_damage_frame y)
    (y_next_action_time y) v (y_is_dashing y) (y_in_combo y) (y_ui_system y)
    (y_rigid_body y) (y_ground_y y) (y_is_active y) (y_skill_attack_radius
    y).

Definition set_y_is_dashing (y : Yori) (v : bool) : Yori :=
  mkYori (y_state y) (y_frame y) (y_max_health y) (y_current_health y)
    (y_hurt_counter_time y) (y_block_time y) (y_counter_delay y)
    (y_block_duration y) (y_low_health_threshold y)
    (y_low_health_dialog_shown y) (y_should_trigger_low_health_dialog y)
    (y_can_counter_attack y) (y_counter_attack_chance y)
    (y_counter_attack_time y) (y_counter_attack_duration y)
    (y_counter_wait_duration y) (y_counter_wait_start_time y)
    (y_counter_attack_lunge y) (y_counter_start_x y) (y_skill_cooldown y)
    (y_skill_cooldown_duration y) (y_skill_time y) (y_skill_duration y)
    (y_skill_damage y) (y_should_use_skill y) (y_knockback_start_velocity y)
    (y_knockback_duration y) (y_is_in_knockback y) (y_death_time y)
    (y_death_knockback_force y) (y_death_knockback_duration y)
    (y_is_death_knockback y) (y_cinematic_death y) (y_dir y) (y_flip y)
    (y_rect_centerx y) (y_rect_centery y) (y_world_x y)
    (y_attack_combo_count y) (y_attack_damage y) (y_attack_point y)
    (y_attack_radius y) (y_damage_dealt y) (y_damage_frame y)
    (y_next_action_time y) (y_dash_target_x y) v (y_in_combo y) (y_ui_system
    y) (y_rigid_body y) (y_ground_y y) (y_is_active y)
    (y_skill_attack_radius y).

Definition set_y_in_combo (y : Yori) (v : bool) : Yori :=
  mkYori (y_state y) (y_frame y) (y_max_health y) (y_current_health y)
    (y_hurt_counter_time y) (y_block_time y) (y_counter_delay y)
    (y_block_duration y) (y_low_health_threshold y)
    (y_low_health_dialog_shown y) (y_should_trigger_low_health_dialog y)
    (y_can_counter_attack y) (y_counter_attack_chance y)
    (y_counter_attack_time y) (y_counter_attack_duration y)
    (y_counter_wait_duration y) (y_counter_wait_start_time y)
    (y_counter_attack_lunge y) (y_counter_start_x y) (y_skill_cooldown y)
    (y_skill_cooldown_duration y) (y_skill_time y) (y_skill_duration y)
    (y_skill_damage y) (y_should_use_skill y) (y_knockback_start_velocity y)
    (y_knockback_duration y) (y_is_in_knockback y) (y_death_time y)
    (y_death_knockback_force y) (y_death_knockback_duration y)
    (y_is_death_knockback y) (y_cinematic_death y) (y_dir y) (y_flip y)
    (y_rect_centerx y) (y_rect_centery y) (y_world_x y)
    (y_attack_combo_count y) (y_attack_damage y) (y_attack_point y)
    (y_attack_radius y) (y_damage_dealt y) (y_damage_frame y)
    (y_next_action_time y) (y_dash_target_x y) (y_is_dashing y) v
    (y_ui_system y) (y_rigid_body y) (y_ground_y y) (y_is_active y)
    (y_skill_attack_radius y).

Definition set_y_ui_system (y : Yori) (v : bool) : Yori :=
  mkYori (y_state y) (y_frame y) (y_max_health y) (y_current_health y)
    (y_hurt_counter_time y) (y_block_time y) (y_counter_delay y)
    (y_block_duration y) (y_low_health_threshold y)
    (y_low_health_dialog_shown y) (y_should_trigger_low_health_dialog y)
    (y_can_counter_attack y) (y_counter_attack_chance y)
    (y_counter_attack_time y) (y_counter_attack_duration y)
    (y_counter_wait_duration y) (y_counter_wait_start_time y)
    (y_counter_attack_lunge y) (y_counter_start_x y) (y_skill_cooldown y)
    (y_skill_cooldown_duration y) (y_skill_time y) (y_skill_duration y)
    (y_skill_damage y) (y_should_use_skill y) (y_knockback_start_velocity y)
    (y_knockback_duration y) (y_is_in_knockback y) (y_death_time y)
    (y_death_knockback_force y) (y_death_knockback_duration y)
    (y_is_death_knockback y) (y_cinematic_death y) (y_dir y) (y_flip y)
    (y_rect_centerx y) (y_rect_centery y) (y_world_x y)
    (y_attack_combo_count y) (y_attack_damage y) (y_attack_point y)
    (y_attack_radius y) (y_damage_dealt y) (y_damage_frame y)
    (y_next_action_time y) (y_dash_target_x y) (y_is_dashing y) (y_in_combo
    y) v (y_rigid_body y) (y_ground_y y) (y_is_active y)
    (y_skill_attack_radius y).

Definition set_y_rigid_body (y : Yori) (v : RigidBody.t) : Yori :=
  mkYori (y_state y) (y_frame y) (y_max_health y) (y_current_health y)
    (y_hurt_counter_time y) (y_block_time y) (y_counter_delay y)
    (y_block_duration y) (y_low_health_threshold y)
    (y_low_health_dialog_shown y) (y_should_trigger_low_health_dialog y)
    (y_can_counter_attack y) (y_counter_attack_chance y)
    (y_counter_attack_time y) (y_counter_attack_duration y)
    (y_counter_wait_duration y) (y_counter_wait_start_time y)
    (y_counter_attack_lunge y) (y_counter_start_x y) (y_skill_cooldown y)
    (y_skill_cooldown_duration y) (y_skill_time y) (y_skill_duration y)
    (y_skill_damage y) (y_should_use_skill y) (y_knockback_start_velocity y)
    (y_knockback_duration y) (y_is_in_knockback y) (y_death_time y)
    (y_death_knockback_force y) (y_death_knockback_duration y)
    (y_is_death_knockback y) (y_cinematic_death y) (y_dir y) (y_flip y)
    (y_rect_centerx y) (y_rect_centery y) (y_world_x y)
    (y_attack_combo_count y) (y_attack_damage y) (y_attack_point y)
    (y_attack_radius y) (y_damage_dealt y) (y_damage_frame y)
    (y_next_action_time y) (y_dash_target_x y) (y_is_dashing y) (y_in_combo
    y) (y_ui_system y) v (y_ground_y y) (y_is_active y)
    (y_skill_attack_radius y).

Definition set_y_ground_y (y : Yori) (v : option Z) : Yori :=
  mkYori (y_state y) (y_frame y) (y_max_health y) (y_current_health y)
    (y_hurt_counter_time y) (y_block_time y) (y_counter_delay y)
    (y_block_duration y) (y_low_health_threshold y)
    (y_low_health_dialog_shown y) (y_should_trigger_low_health_dialog y)
    (y_can_counter_attack y) (y_counter_attack_chance y)
    (y_counter_attack_time y) (y_counter_attack_duration y)
    (y_counter_wait_duration y) (y_counter_wait_start_time y)
    (y_counter_attack_lunge y) (y_counter_start_x y) (y_skill_cooldown y)
    (y_skill_cooldown_duration y) (y_skill_time y) (y_skill_duration y)
    (y_skill_damage y) (y_should_use_skill y) (y_knockback_start_velocity y)
    (y_knockback_duration y) (y_is_in_knockback y) (y_death_time y)
    (y_death_knockback_force y) (y_death_knockback_duration y)
    (y_is_death_knockback y) (y_cinematic_death y) (y_dir y) (y_flip y)
    (y_rect_centerx y) (y_rect_centery y) (y_world_x y)
    (y_attack_combo_count y) (y_attack_damage y) (y_attack_point y)
    (y_attack_radius y) (y_damage_dealt y) (y_damage_frame y)
    (y_next_action_time y) (y_dash_target_x y) (y_is_dashing y) (y_in_combo
    y) (y_ui_system y) (y_rigid_body y) v (y_is_active y)
    (y_skill_attack_radius y).

Definition set_y_is_active (y : Yori) (v : bool) : Yori :=
  mkYori (y_state y) (y_frame y) (y_max_health y) (y_current_health y)
    (y_hurt_counter_time y) (y_block_time y) (y_counter_delay y)
    (y_block_duration y) (y_low_health_threshold y)
    (y_low_health_dialog_shown y) (y_should_trigger_low_health_dialog y)
    (y_can_counter_attack y) (y_counter_attack_chance y)
    (y_counter_attack_time y) (y_counter_attack_duration y)
    (y_counter_wait_duration y) (y_counter_wait_start_time y)
    (y_counter_attack_lunge y) (y_counter_start_x y) (y_skill_cooldown y)
    (y_skill_cooldown_duration y) (y_skill_time y) (y_skill_duration y)
    (y_skill_damage y) (y_should_use_skill y) (y_knockback_start_velocity y)
    (y_knockback_duration y) (y_is_in_knockback y) (y_death_time y)
    (y_death_knockback_force y) (y_death_knockback_duration y)
    (y_is_death_knockback y) (y_cinematic_death y) (y_dir y) (y_flip y)
    (y_rect_centerx y) (y_rect_centery y) (y_world_x y)
    (y_attack_combo_count y) (y_attack_damage y) (y_attack_point y)
    (y_attack_radius y) (y_damage_dealt y) (y_damage_frame y)
    (y_next_action_time y) (y_dash_target_x y) (y_is_dashing y) (y_in_combo
    y) (y_ui_system y) (y_rigid_body y) (y_ground_y y) v
    (y_skill_attack_radius y).

(** ** What one call observes of the outside world: the two clocks and the
    draws of the random generator. *)
Record Env := mkEnv {
  now : Q;          (* time.time(), seconds *)
  ticks : Z;        (* pygame.time.get_ticks(), milliseconds *)
  random01 : Q;     (* the next random.random() *)
  choice_right : bool  (* random.choice([-1, 1]) returns 1 *)
}.

(** [random.uniform(a, b)] is [a + (b - a) * random()]. *)
Definition uniform (env : Env) (a b : Q) : Q := a + (b - a) * random01 env.

Definition choice (env : Env) : Z := if choice_right env then 1%Z else (-1)%Z.

(** ** player.py, first part: what the enemies call on the player *)

(** [Player.reset_counter_state] *)
Definition Player_reset_counter_state (p : Player) : Player :=
  let p := set_p_countering p false in
  let p := set_p_counter_success p false in
  let p := set_p_counter_attacking p false in
  let p := set_p_counter_ready p false in
  let p := set_p_counter_damage_dealt p false in
  let p := set_p_state p P_idle in
  set_p_frame p 0.

(** [Player.take_damage(damage, ui_system)]: the player after the call,
    the output of the call, and the value it returns. *)
Definition Player_take_damage (p : Player) (damage : Z) (ui_system : bool)
  : Player * list event * py_value :=
  if p_is_dead p || pstate_eqb (p_state p) P_hurt
     || pstate_eqb (p_state p) P_death then (p, [], PyNone)
  else if pstate_eqb (p_state p) P_skill then
    (p, Print (Msg_player_invincible damage)
        :: (if ui_system
            then [DamageText (p_rect_centerx p) (p_rect_centery p - 150)
                    Text_Miss]
            else []), PyNone)
  else if p_blocking p then
    (p, Print (Msg_player_blocked damage)
        :: (if ui_system
            then [DamageText (p_rect_centerx p) (p_rect_centery p - 150)
                    Text_Blocked]
            else []), PyNone)
  else
    let p := set_p_current_health p (p_current_health p - damage) in
    let out :=
      Print (Msg_player_took damage (p_current_health p))
      :: (if ui_system
          then [DamageText (p_rect_centerx p) (p_rect_centery p - 150)
                  (Text_damage damage)]
          else []) in
    if (p_current_health p <=? 0)%Z then
      let p := set_p_current_health p 0 in
      let p := set_p_is_dead p true in
      let p := set_p_state p P_death in
      let p := set_p_frame p 0 in
      (p, out ++ [Print Msg_player_died], PyNone)
    else
      let p := Player_reset_counter_state p in
      let p := set_p_blocking p false in
      let p := set_p_block_animation_state p B_none in
      let p := set_p_dashing p false in
      let p := set_p_state p P_hurt in
      let p := set_p_frame p 0 in
      (p, out, PyNone).

(** ** enemy1.py *)

Definition WALK_SPEED : Z := 2.
Definition IDLE_MIN_SEC : Q := 2.
Definition IDLE_MAX_SEC : Q := 5.
Definition WALK_DIST : Z := 100.
Definition DETECT_RANGE : Z := 500.
Definition ATTACK_STOP_DIST : Z := 130.
Definition RECOVER_MIN_SEC : Q := 2.
Definition RECOVER_MAX_SEC : Q := 3.

(** Lengths of the frame lists that [load_frames] returns; the folders are
    assets, so the lengths are parameters ([animate] divides by them). *)
Record EnemyAnims := mkEnemyAnims {
  ea_idle : positive;
  ea_walk : positive;
  ea_attack : positive;
  ea_hurt : positive;
  ea_die : positive;
  ea_stun_frames : positive
}.

(** [Enemy.__init__(pos)]: the sprite rectangle has its [midbottom] at
    [pos]. *)
Definition Enemy_init (env : Env) (pos : Z * Z) : Enemy :=
  let dir := choice env in
  let centerx := fst pos in
  let centery := (snd pos - 300)%Z in
  let rb := RigidBody.init (IZR centerx) (IZR centery) 40%R 1.5%R in
  let rb := RigidBody.mk (RigidBody.collider rb) (RigidBody.mass rb)
              0%R 0%R 0%R 0%R 0.8%R 0.85%R 0.98%R 0.05%R
              false None true in
  {| e_state := E_idle; e_frame := 0;
     e_max_health := 100; e_current_health := 100;
     e_dir := dir; e_flip := (dir <? 0)%Z;
     e_rect_centerx := centerx; e_rect_centery := centery;
     e_next_idle := now env + uniform env IDLE_MIN_SEC IDLE_MAX_SEC;
     e_patrol_dist := 0; e_patrol_tgt := 0;
     e_stun_timer := 0; e_recover_end := 0;
     e_attack_damage := 50;
     e_attack_point := (centerx, centery);
     e_attack_radius := 80;
     e_damage_dealt := false; e_damage_frame := 0.7;
     e_stunned := false; e_stun_end_time := 0;
     e_ui_system := false;
     e_rigid_body := rb;
     e_ground_y := Some (snd pos);
     e_killed := false |}.

(** [Enemy.update_attack_point] *)
Definition Enemy_update_attack_point (e : Enemy) : Enemy :=
  if estate_eqb (e_state e) E_attack then
    let offset_x := if (e_dir e =? 1)%Z then 120%Z else (-120)%Z in
    let offset_y := (-10)%Z in
    set_e_attack_point e
      ((e_rect_centerx e + offset_x)%Z, (e_rect_centery e + offset_y)%Z)
  else set_e_attack_point e (e_rect_centerx e, e_rect_centery e).

(** [Enemy.attack_player(ui_system)]; the target is the player object that
    main.py assigned, and the call may change it. *)
Definition Enemy_attack_player (e : Enemy) (target : option Player)
    (ui_system : bool) : option Player * list event :=
  match target with
  | Some p =>
      let player_center := (p_rect_centerx p, p_rect_centery p) in
      if within_radius (e_attack_point e) player_center
           (inject_Z (e_attack_radius e)) then
        let '(p, out, _) :=
          Player_take_damage p (e_attack_damage e) ui_system in
        (Some p,
         Print (Msg_enemy_attacks (e_attack_damage e))
         :: Print (Msg_enemy_attack_hits (e_attack_damage e)) :: out)
      else
        (Some p,
         [Print (Msg_enemy_attacks (e_attack_damage e));
          Print Msg_enemy_attack_missed])
  | None => (None, [])
  end.

(** [Enemy.take_damage(damage, ui_system)] *)
Definition Enemy_take_damage (e : Enemy) (damage : Z) (ui_system : bool)
  : Enemy * list event * py_value :=
  match e_state e with
  | E_hurt | E_die | E_stun => (e, [], PyNone)
  | _ =>
      let e := set_e_current_health e (e_current_health e - damage) in
      let out :=
        Print (Msg_enemy_took damage (e_current_health e))
        :: (if ui_system
            then [DamageText (e_rect_centerx e) (e_rect_centery e - 150)
                    (Text_damage damage)]
            else []) in
      if (e_current_health e <=? 0)%Z then
        let e := set_e_state e E_die in
        (set_e_frame e 0, out, PyNone)
      else
        let e := set_e_state e E_hurt in
        (set_e_frame e 0, out, PyNone)
  end.

(** [Enemy.stun] *)
Definition Enemy_stun (env : Env) (e : Enemy) : Enemy :=
  match e_state e with
  | E_die => e
  | _ =>
      let e := set_e_stunned e true in
      let e := set_e_state e E_stun in
      let e := set_e_frame e 0 in
      let e := set_e_stun_end_time e (now env + 1) in
      let e := set_e_rigid_body e
                 (RigidBody.set_velocity_x (e_rigid_body e) 0%R) in
      set_e_damage_dealt e true
  end.

(** [Enemy.animate(seq, speed)] *)
Definition Enemy_animate (e : Enemy) (seq : positive) (speed : Q) : Enemy :=
  set_e_frame e (fmod (e_frame e + speed) seq).

Definition e_set_velocity_x (e : Enemy) (vx : R) : Enemy :=
  set_e_rigid_body e (RigidBody.set_velocity_x (e_rigid_body e) vx).

(** [Enemy.update], lines 187-210: physics, then the sprite follows the
    body. *)
Definition Enemy_update_physics (e : Enemy) : Enemy :=
  let rb := RigidBody.update_physics (e_rigid_body e) 1%R in
  let rb := match e_ground_y e with
            | Some g => RigidBody.check_ground_collision rb (Some (IZR g))
            | None => RigidBody.set_is_grounded rb false
            end in
  let e := set_e_rigid_body e rb in
  let new_center := RigidBody.get_position rb in
  let e := set_e_rect_centerx e (py_int (fst new_center)) in
  let e := set_e_rect_centery e (py_int (snd new_center - 30)%R) in
  Enemy_update_attack_point e.

(** [1 if self.target.rect.centerx > self.rect.centerx else -1] *)
Definition Enemy_side_of (e : Enemy) (p : Player) : Z :=
  if (e_rect_centerx e <? p_rect_centerx p)%Z then 1%Z else (-1)%Z.

Definition Enemy_face (e : Enemy) (p : Player) : Enemy :=
  let e := set_e_dir e (Enemy_side_of e p) in
  set_e_flip e (e_dir e <? 0)%Z.

(** [Enemy.update], lines 269-274: horizontal distance to the player, or a
    large number. *)
Definition Enemy_dist (e : Enemy) (target : option Player) : Z :=
  match target with
  | Some p => Z.abs (p_rect_centerx p - e_rect_centerx e)
  | None => 1000000%Z
  end.

(** [Enemy.update], lines 276-282: "1) Detection". *)
Definition Enemy_detect (e : Enemy) (target : option Player) : Enemy :=
  let dist := Enemy_dist e target in
  match e_state e, target with
  | (E_idle | E_walk), Some p =>
      if (dist <? DETECT_RANGE)%Z then
        let e := set_e_state e E_approach in
        let e := set_e_frame e 0 in
        Enemy_face e p
      else e
  | _, _ => e
  end.

(** [Enemy.update], lines 284-341: "2) State machine". *)
Definition Enemy_state_machine (env : Env) (e : Enemy)
    (target : option Player) (dist : Z) : Enemy :=
  match e_state e with
  | E_idle =>
      let e := e_set_velocity_x e
                 (RigidBody.velocity_x (e_rigid_body e) * 0.8)%R in
      if Qleb (e_next_idle e) (now env) then
        let e := set_e_state e E_walk in
        let e := set_e_frame e 0 in
        let e := set_e_patrol_dist e 0%Z in
        let e := set_e_patrol_tgt e WALK_DIST in
        let e := set_e_dir e (choice env) in
        set_e_flip e (e_dir e <? 0)%Z
      else e
  | E_walk =>
      let e := e_set_velocity_x e (IZR (e_dir e * WALK_SPEED)) in
      let e := set_e_patrol_dist e (e_patrol_dist e + Z.abs WALK_SPEED)%Z in
      if (e_patrol_tgt e <=? e_patrol_dist e)%Z then
        let e := set_e_state e E_idle in
        let e := set_e_frame e 0 in
        set_e_next_idle e (now env + uniform env IDLE_MIN_SEC IDLE_MAX_SEC)
      else e
  | E_approach =>
      if (ATTACK_STOP_DIST <? dist)%Z then
        e_set_velocity_x e (IZR (e_dir e * WALK_SPEED))
      else
        let e := e_set_velocity_x e 0%R in
        let e := match target with
                 | Some p => Enemy_face e p
                 | None => e
                 end in
        let e := set_e_state e E_attack in
        set_e_frame e 0
  | E_recover =>
      let e := e_set_velocity_x e (IZR (e_dir e * WALK_SPEED)) in
      if Qleb (e_recover_end e) (now env) then
        if (dist <? DETECT_RANGE)%Z then
          let e := set_e_state e E_approach in
          let e := set_e_frame e 0 in
          match target with
          | Some p => Enemy_face e p
          | None => e
          end
        else
          let e := set_e_state e E_idle in
          let e := set_e_frame e 0 in
          set_e_next_idle e
            (now env + uniform env IDLE_MIN_SEC IDLE_MAX_SEC)
      else e
  | _ => e
  end.

(** [Enemy.update], lines 343-347: "3) default animation". *)
Definition Enemy_default_animation (A : EnemyAnims) (e : Enemy) : Enemy :=
  match e_state e with
  | E_idle => Enemy_animate e (ea_idle A) 0.2
  | E_walk | E_approach | E_recover => Enemy_animate e (ea_walk A) 0.2
  | _ => e
  end.

(** [Enemy.update], lines 269-347, for the states that the earlier
    branches did not return from. *)
Definition Enemy_update_patrol (A : EnemyAnims) (env : Env) (e : Enemy)
    (target : option Player) : Enemy :=
  let dist := Enemy_dist e target in
  let e := Enemy_detect e target in
  let e := Enemy_state_machine env e target dist in
  Enemy_default_animation A e.

(** [Enemy.update]: one tick.  Returns the enemy, its target and the
    output of the tick. *)
Definition Enemy_update (A : EnemyAnims) (env : Env) (e : Enemy)
    (target : option Player) : Enemy * option Player * list event :=
  let e := Enemy_update_physics e in
  match e_state e with
  | E_hurt =>
      let e := Enemy_animate e (ea_hurt A) 0.3 in
      let e := if Qleb (len (ea_hurt A) - 1) (e_frame e) then
                 set_e_frame (set_e_state e E_idle) 0
               else e in
      (e, target, [])
  | E_stun =>
      let e := Enemy_animate e (ea_stun_frames A) 0.2 in
      let e := set_e_stun_timer e (e_stun_timer e - 1 / 60) in
      let e := if Qleb (e_stun_timer e) 0 then
                 let e := set_e_state e E_idle in
                 let e := set_e_frame e 0 in
                 set_e_damage_dealt e false
               else e in
      (e_set_velocity_x e 0%R, target, [])
  | E_die =>
      let e := Enemy_animate e (ea_die A) 0.3 in
      let e := if Qleb (len (ea_die A) - 1) (e_frame e) then
                 set_e_killed e true
               else e in
      (e, target, [])
  | E_attack =>
      let e := e_set_velocity_x e 0%R in
      let e := Enemy_animate e (ea_attack A) 0.3 in
      let '(e, target, out) :=
        if negb (e_damage_dealt e)
           && Qleb (len (ea_attack A) * e_damage_frame e) (e_frame e) then
          let '(target, out) := Enemy_attack_player e target (e_ui_system e) in
          (set_e_damage_dealt e true, target, out)
        else (e, target, []) in
      let e := if Qleb (len (ea_attack A) - 1) (e_frame e) then
                 let e := set_e_state e E_recover in
                 let e := set_e_frame e 0 in
                 let e := set_e_recover_end e
                            (now env
                             + uniform env RECOVER_MIN_SEC RECOVER_MAX_SEC) in
                 let e := set_e_dir e (- e_dir e)%Z in
                 set_e_damage_dealt e false
               else e in
      (e, target, out)
  | _ => (Enemy_update_patrol A env e target, target, [])
  end.

(** main.py, dynamic targeting (lines 841 and 851): only mooks with
    [current_health > 0] are candidates for the player's target. *)
Definition targetable (e : Enemy) : bool := (0 <? e_current_health e)%Z.

(** ** Yori.py *)

Definition Yori_DETECT_RANGE : Z := 1000.
Definition Yori_ATTACK_STOP_DIST : Z := 200.
Definition Yori_WALK_SPEED : Z := 7.
Definition Yori_DASH_SPEED : Z := 8.
Definition Yori_DASH_DISTANCE : Z := 250.
Definition Yori_ATTACK_DELAY : Q := 0.
Definition Yori_DASH_BACK_DELAY : Q := 1.5.

(** Lengths of the boss's frame lists; [load_frames] returns an empty list
    for a missing folder, and [animate] guards against it. *)
Record YoriAnims := mkYoriAnims {
  ya_idle : N;
  ya_walking : N;
  ya_attack1 : N;
  ya_attack2 : N;
  ya_attack3 : N;
  ya_dash : N;
  ya_hurt_counter : N;
  ya_block : N;
  ya_death : N;
  ya_counter_wait : N;
  ya_counter : N;
  ya_skill : N
}.

Definition lenN (n : N) : Q := inject_Z (Z.of_N n).

Definition y_set_velocity_x (y : Yori) (vx : R) : Yori :=
  set_y_rigid_body y (RigidBody.set_velocity_x (y_rigid_body y) vx).

(** [Yori.__init__(pos)] *)
Definition Yori_init (pos : Z * Z) : Yori :=
  let centerx := fst pos in
  let centery := (snd pos - 300)%Z in
  let rb := RigidBody.init (IZR centerx) (IZR centery) 50%R 2%R in
  let rb := RigidBody.mk (RigidBody.collider rb) (RigidBody.mass rb)
              0%R 0%R 0%R 0%R 0.8%R 0.9%R 0.98%R 0.02%R
              false None true in
  {| y_state := Y_idle; y_frame := 0;
     y_max_health := 500; y_current_health := 500;
     y_hurt_counter_time := 0; y_block_time := 0;
     y_counter_delay := 1.5; y_block_duration := 1;
     y_low_health_threshold := 0.55;
     y_low_health_dialog_shown := false;
     y_should_trigger_low_health_dialog := false;
     y_can_counter_attack := false;
     y_counter_attack_chance := 0.3;
     y_counter_attack_time := 0; y_counter_attack_duration := 2;
     y_counter_wait_duration := 3; y_counter_wait_start_time := 0;
     y_counter_attack_lunge := 200; y_counter_start_x := 0;
     y_skill_cooldown := 0; y_skill_cooldown_duration := 10;
     y_skill_time := 0; y_skill_duration := 3; y_skill_damage := 100;
     y_should_use_skill := false;
     y_knockback_start_velocity := 0; y_knockback_duration := 0.8;
     y_is_in_knockback := false;
     y_death_time := 0; y_death_knockback_force := 10;
     y_death_knockback_duration := 1.2; y_is_death_knockback := false;
     y_cinematic_death := false;
     y_dir := 1; y_flip := false;
     y_rect_centerx := centerx; y_rect_centery := centery;
     y_world_x := centerx;
     y_attack_combo_count := 0; y_attack_damage := 75;
     y_attack_point := (centerx, centery); y_attack_radius := 120;
     y_damage_dealt := false; y_damage_frame := 0.6;
     y_next_action_time := 0; y_dash_target_x := 0;
     y_is_dashing := false; y_in_combo := false;
     y_ui_system := false;
     y_rigid_body := rb;
     y_ground_y := Some (snd pos);
     y_is_active := false;
     y_skill_attack_radius := None |}.

(** [self.state.startswith('attack')] *)
Definition Yori_attacking (s : ystate) : bool :=
  match s with Y_attack1 | Y_attack2 | Y_attack3 => true | _ => false end.

(** [Yori.update_attack_point] *)
Definition Yori_update_attack_point (y : Yori) : Yori :=
  if Yori_attacking (y_state y) then
    let offset_x := if (y_dir y =? 1)%Z then 150%Z else (-150)%Z in
    let offset_y := (-20)%Z in
    set_y_attack_point y
      ((y_rect_centerx y + offset_x)%Z, (y_rect_centery y + offset_y)%Z)
  else set_y_attack_point y (y_rect_centerx y, y_rect_centery y).

(** [Yori.face_player], also written out in the [start_*] methods *)
Definition Yori_face_player (y : Yori) (target : option Player) : Yori :=
  match target with
  | Some p =>
      if (y_rect_centerx y <? p_rect_centerx p)%Z then
        set_y_flip (set_y_dir y 1) false
      else
        set_y_flip (set_y_dir y (-1)) true
  | None => y
  end.

(** [Yori.attack_player] *)
Definition Yori_attack_player (y : Yori) (target : option Player)
  : option Player * list event :=
  match target with
  | Some p =>
      let player_center := (p_rect_centerx p, p_rect_centery p) in
      if within_radius (y_attack_point y) player_center
           (inject_Z (y_attack_radius y)) then
        let '(p, out, _) :=
          Player_take_damage p (y_attack_damage y) (y_ui_system y) in
        (Some p, Print (Msg_yori_attack_hits (y_attack_damage y)) :: out)
      else (Some p, [Print Msg_yori_attack_missed])
  | None => (None, [])
  end.

(** [Yori.trigger_low_health_dialog] *)
Definition Yori_trigger_low_health_dialog (y : Yori) : Yori :=
  let y := set_y_low_health_dialog_shown y true in
  let y := set_y_can_counter_attack y true in
  set_y_should_trigger_low_health_dialog y true.

(** [Yori.start_counter_wait] *)
Definition Yori_start_counter_wait (env : Env) (y : Yori) : Yori :=
  match y_state y with
  | Y_die => y
  | _ =>
      let y := set_y_state y Y_counter_wait in
      let y := set_y_frame y 0 in
      let y := set_y_counter_wait_start_time y (now env) in
      let y := set_y_damage_dealt y true in
      y_set_velocity_x y 0%R
  end.

(** [Yori.start_counter_attack] *)
Definition Yori_start_counter_attack (env : Env) (y : Yori)
    (target : option Player) : Yori :=
  match y_state y with
  | Y_die => y
  | _ =>
      let y := set_y_state y Y_counter in
      let y := set_y_frame y 0 in
      let y := set_y_counter_attack_time y (now env) in
      let y := set_y_counter_start_x y (y_rect_centerx y) in
      let y := set_y_next_action_time y
                 (now env + y_counter_attack_duration y) in
      let y := set_y_damage_dealt y false in
      let y := y_set_velocity_x y 0%R in
      Yori_face_player y target
  end.

(** [Yori.start_skill_attack] *)
Definition Yori_start_skill_attack (env : Env) (y : Yori)
    (target : option Player) : Yori :=
  if negb (ystate_eqb (y_state y) Y_die) && Qleb (y_skill_cooldown y) 0 then
    let y := set_y_state y Y_skill in
    let y := set_y_frame y 0 in
    let y := set_y_skill_time y (now env) in
    let y := set_y_next_action_time y (now env + y_skill_duration y) in
    let y := set_y_damage_dealt y false in
    let y := set_y_skill_cooldown y (y_skill_cooldown_duration y) in
    let y := y_set_velocity_x y 0%R in
    Yori_face_player y target
  else y.


(** [Yori.start_dash_back] *)
Definition Yori_start_dash_back (y : Yori) (target : option Player) : Yori :=
  match target with
  | Some p =>
      let y :=
        if (y_rect_centerx y <? p_rect_centerx p)%Z then
          let y := set_y_dash_target_x y
                     (y_rect_centerx y - Yori_DASH_DISTANCE)%Z in
          set_y_dir y (-1)%Z
        else
          let y := set_y_dash_target_x y
                     (y_rect_centerx y + Yori_DASH_DISTANCE)%Z in
          set_y_dir y 1%Z in
      let y := set_y_state y Y_dash in
      let y := set_y_frame y 0 in
      let y := set_y_is_dashing y true in
      set_y_flip y (y_dir y <? 0)%Z
  | None => y
  end.

(** [Yori.start_dash_to_player] *)
Definition Yori_start_dash_to_player (y : Yori) (target : option Player)
  : Yori :=
  match target with
  | Some p =>
      let y :=
        if (y_rect_centerx y <? p_rect_centerx p)%Z then
          let y := set_y_dash_target_x y (p_rect_centerx p - 100)%Z in
          set_y_dir y 1%Z
        else
          let y := set_y_dash_target_x y (p_rect_centerx p + 100)%Z in
          set_y_dir y (-1)%Z in
      let y := set_y_state y Y_dash in
      let y := set_y_frame y 0 in
      let y := set_y_is_dashing y true in
      set_y_flip y (y_dir y <? 0)%Z
  | None => y
  end.

(** [Yori.ease_in_out] *)
Definition ease_in_out (t : Q) : Q := t * t * (3 - 2 * t).

(** [Yori.animate(seq, speed)] *)
Definition Yori_animate (y : Yori) (seq : N) (speed : Q) : Yori :=
  match seq with
  | N0 => y
  | Npos n => set_y_frame y (fmod (y_frame y + speed) n)
  end.

(** [Yori.alive] *)
Definition Yori_alive (y : Yori) : bool := (0 <? y_current_health y)%Z.

(** [self.current_health / self.max_health] *)
Definition Yori_health_percentage (y : Yori) : Q :=
  inject_Z (y_current_health y) / inject_Z (y_max_health y).

(** [Yori.take_damage(damage, ui_system)].  The draw [random01 env] is
    looked at only when the first two conditions of the counter hold. *)
Definition Yori_take_damage (env : Env) (y : Yori) (target : option Player)
    (damage : Z) (ui_system : bool) : Yori * list event * py_value :=
  match y_state y with
  | Y_counter_wait =>
      (Yori_start_counter_attack env y target, [Print Msg_yori_parries],
       PyNone)
  | Y_die => (y, [], PyNone)
  | _ =>
      let health_percentage := Yori_health_percentage y in
      if Qltb health_percentage (y_low_health_threshold y)
         && Yori_attacking (y_state y)
         && Qltb (random01 env) (y_counter_attack_chance y) then
        (Yori_start_counter_attack env y target, [Print Msg_yori_counters],
         PyNone)
      else
        let y := set_y_current_health y (y_current_health y - damage) in
        let out :=
          Print (Msg_yori_took damage (y_current_health y))
          :: (if ui_system
              then [DamageText (y_rect_centerx y) (y_rect_centery y - 200)
                      (Text_damage damage)]
              else []) in
        let y :=
          if Qleb (y_low_health_threshold y) health_percentage
             && Qltb (Yori_health_percentage y) (y_low_health_threshold y)
             && negb (y_low_health_dialog_shown y)
          then Yori_trigger_low_health_dialog y else y in
        if (y_current_health y <=? 0)%Z then
          let y := set_y_current_health y 0 in
          let y := set_y_state y Y_die in
          let y := set_y_frame y 0 in
          let y := set_y_death_time y (now env) in
          let y := match target with
                   | Some p =>
                       let y := set_y_flip y
                                  (p_rect_centerx p <? y_rect_centerx y)%Z in
                       set_y_cinematic_death y true
                   | None => y
                   end in
          let y := set_y_is_death_knockback y true in
          let y := set_y_knockback_start_velocity y
                     (y_death_knockback_force y) in
          let knockback_dir :=
            match target with
            | Some p =>
                if (y_rect_centerx y <? p_rect_centerx p)%Z
                then (-1)%Z else 1%Z
            | None => (- y_dir y)%Z
            end in
          (y_set_velocity_x y
             (Q2R (inject_Z knockback_dir * y_death_knockback_force y)),
           out, PyNone)
        else (y, out, PyNone)
  end.

(** [Yori.stun] *)
Definition Yori_stun (env : Env) (y : Yori) : Yori :=
  match y_state y with
  | Y_die => y
  | _ =>
      let y := set_y_in_combo y false in
      let y := set_y_state y Y_hurt_counter in
      let y := set_y_frame y 0 in
      let y := set_y_hurt_counter_time y (now env) in
      let y := set_y_next_action_time y
                 (now env + y_counter_delay y + 2) in
      let y := set_y_damage_dealt y true in
      y_set_velocity_x y 0%R
  end.

(** [Yori.update], lines 486-488: the cooldown of the skill runs down. *)
Definition Yori_tick_skill_cooldown (y : Yori) : Yori :=
  if Qltb 0 (y_skill_cooldown y)
  then set_y_skill_cooldown y (y_skill_cooldown y - 1 / 60)
  else y.

(** [Yori.update], lines 490-493: the skill that main.py asked for. *)
Definition Yori_use_queued_skill (env : Env) (y : Yori)
    (target : option Player) : Yori :=
  if y_should_use_skill y && Qleb (y_skill_cooldown y) 0
  then Yori_start_skill_attack env (set_y_should_use_skill y false) target
  else y.

(** [Yori.update], lines 504-510: a grounded boss is put back on its
    sprite rectangle, whose bottom is set to the ground. *)
Definition Yori_keep_on_ground (y : Yori) (g : Z) : Yori :=
  if RigidBody.is_grounded (y_rigid_body y) then
    let y := set_y_rect_centery y (g - 300)%Z in
    let y := set_y_rigid_body y
               (RigidBody.set_position (y_rigid_body y)
                  (IZR (y_rect_centerx y)) (IZR (y_rect_centery y))) in
    set_y_rigid_body y (RigidBody.set_velocity_y (y_rigid_body y) 0%R)
  else y.

(** [Yori.update], lines 498-518 *)
Definition Yori_resolve_ground (y : Yori) : Yori :=
  match y_ground_y y with
  | Some g =>
      Yori_keep_on_ground
        (set_y_rigid_body y
           (RigidBody.check_ground_collision (y_rigid_body y)
              (Some (IZR g))))
        g
  | None =>
      set_y_rigid_body y (RigidBody.set_is_grounded (y_rigid_body y) false)
  end.

(** [Yori.update], lines 529-538: the sprite follows the body. *)
Definition Yori_sync_sprite (y : Yori) : Yori :=
  let new_center := RigidBody.get_position (y_rigid_body y) in
  let y := set_y_rect_centerx y (py_int (fst new_center)) in
  let y := set_y_rect_centery y (py_int (snd new_center)) in
  let y := set_y_world_x y (y_rect_centerx y) in
  Yori_update_attack_point y.

(** [Yori.update], lines 486-538: what every tick does before the state
    machine. *)
Definition Yori_update_physics (env : Env) (y : Yori)
    (target : option Player) : Yori :=
  let y := Yori_tick_skill_cooldown y in
  let y := Yori_use_queued_skill env y target in
  let y := set_y_rigid_body y
             (RigidBody.update_physics (y_rigid_body y) 1%R) in
  let y := Yori_resolve_ground y in
  Yori_sync_sprite y.

(** [abs(self.target.rect.centerx - self.rect.centerx)], or [1e6] *)
Definition Yori_dist (y : Yori) (target : option Player) : Z :=
  match target with
  | Some p => Z.abs (p_rect_centerx p - y_rect_centerx y)
  | None => 1000000%Z
  end.

(** Start of the three-attack combo (written out in four branches). *)
Definition Yori_start_combo (y : Yori) : Yori :=
  let y := set_y_attack_combo_count y 0%Z in
  let y := set_y_in_combo y true in
  let y := set_y_state y Y_attack1 in
  let y := set_y_frame y 0 in
  set_y_damage_dealt y false.

Definition Yori_start_walking (y : Yori) : Yori :=
  set_y_frame (set_y_state y Y_walking) 0.

(** The ['idle'] branch *)
Definition Yori_update_idle (A : YoriAnims) (env : Env) (y : Yori)
    (target : option Player) (dist : Z) : Yori :=
  let y := Yori_face_player y target in
  let y := Yori_animate y (ya_idle A) 0.15 in
  if Qleb (y_next_action_time y) (now env) then
    let health_percentage := Yori_health_percentage y in
    if Qltb health_percentage (y_low_health_threshold y)
       && Qleb (y_skill_cooldown y) 0
       && (dist <=? Yori_ATTACK_STOP_DIST)%Z then
      Yori_start_skill_attack env y target
    else if (dist <=? Yori_ATTACK_STOP_DIST)%Z then Yori_start_combo y
    else Yori_start_walking y
  else y.

(** The ['walking'] branch *)
Definition Yori_update_walking (A : YoriAnims) (env : Env) (y : Yori)
    (target : option Player) (dist : Z) : Yori :=
  let y := Yori_face_player y target in
  let y := Yori_animate y (ya_walking A) 0.8 in
  let y := y_set_velocity_x y (IZR (y_dir y * Yori_WALK_SPEED)) in
  let health_percentage := Yori_health_percentage y in
  if Qltb health_percentage (y_low_health_threshold y)
     && Qleb (y_skill_cooldown y) 0
     && (dist <=? Yori_ATTACK_STOP_DIST)%Z then
    Yori_start_skill_attack env (y_set_velocity_x y 0%R) target
  else if (dist <=? Yori_ATTACK_STOP_DIST)%Z then
    Yori_start_combo (y_set_velocity_x y 0%R)
  else y.

(** [is_player_behind] *)
Definition Yori_player_behind (y : Yori) (p : Player) : bool :=
  ((y_rect_centerx y <? p_rect_centerx p)%Z && y_flip y)
  || ((p_rect_centerx p <? y_rect_centerx y)%Z && negb (y_flip y)).

(** The three attack branches share their text; [k] is the number of
    the attack, [seq] its frame list.  Attack 1 has no pause before it;
    attacks 1 and 2 chain into the next attack, attack 3 into the dash
    back. *)
Definition Yori_update_attack (k : Z) (seq : N) (A : YoriAnims) (env : Env)
    (y : Yori) (target : option Player) (dist : Z)
  : Yori * option Player * list event :=
  let y := y_set_velocity_x y 0%R in
  if match target with Some p => is_int (p_state p) | None => false end then
    (Yori_start_counter_wait env y, target, [])
  else if (Yori_ATTACK_STOP_DIST <? dist)%Z then
    let y := set_y_in_combo y false in
    let y := set_y_state y Y_idle in
    let y := set_y_frame y 0 in
    (set_y_next_action_time y (now env + 0.5), target, [])
  else if negb (k =? 1)%Z && Qltb (now env) (y_next_action_time y) then
    (Yori_animate y (ya_idle A) 0.1, target, [])
  else
    let y := Yori_animate y seq 0.4 in
    let '(y, target, out) :=
      if negb (y_damage_dealt y)
         && Qleb (lenN seq * y_damage_frame y) (y_frame y) then
        let '(target, out) := Yori_attack_player y target in
        (set_y_damage_dealt y true, target, out)
      else (y, target, []) in
    let y :=
      if Qleb (lenN seq - 1) (y_frame y) then
        match target with
        | Some p =>
            if Yori_player_behind y p then
              let y := Yori_start_dash_to_player y target in
              let y := set_y_frame y 0 in
              let y := set_y_damage_dealt y false in
              set_y_in_combo y false
            else if (k =? 3)%Z then
              let y := set_y_in_combo y false in
              Yori_start_dash_back y target
            else
              let y := set_y_attack_combo_count y k in
              let y := set_y_state y
                         (if (k =? 1)%Z then Y_attack2 else Y_attack3) in
              let y := set_y_frame y 0 in
              let y := set_y_damage_dealt y false in
              set_y_next_action_time y (now env + Yori_ATTACK_DELAY)
        | None => y
        end
      else y in
    (y, target, out).

(** The ['dash'] branch *)
Definition Yori_update_dash (A : YoriAnims) (env : Env) (y : Yori)
    (dist : Z) : Yori :=
  let y := Yori_animate y (ya_dash A) 0.3 in
  if y_is_dashing y then
    let current_x := y_rect_centerx y in
    let distance_to_target := Z.abs (y_dash_target_x y - current_x) in
    if (10 <? distance_to_target)%Z then
      let dash_direction :=
        if (current_x <? y_dash_target_x y)%Z then 1%Z else (-1)%Z in
      y_set_velocity_x y (IZR (dash_direction * Yori_DASH_SPEED))
    else
      let y := y_set_velocity_x y 0%R in
      let y := set_y_is_dashing y false in
      let y := set_y_next_action_time y (now env) in
      if (dist <=? Yori_ATTACK_STOP_DIST)%Z then Yori_start_combo y
      else Yori_start_walking y
  else y.

(** The ['counter_wait'] branch *)
Definition Yori_update_counter_wait (A : YoriAnims) (env : Env) (y : Yori)
  : Yori :=
  let y := y_set_velocity_x y 0%R in
  let y :=
    if Qltb (y_frame y) (lenN (ya_counter_wait A) - 1) then
      let y := set_y_frame y (y_frame y + 0.25) in
      if Qleb (lenN (ya_counter_wait A)) (y_frame y)
      then set_y_frame y (lenN (ya_counter_wait A) - 1) else y
    else y in
  if Qleb (y_counter_wait_start_time y + y_counter_wait_duration y) (now env)
  then
    let y := set_y_state y Y_idle in
    let y := set_y_frame y 0 in
    set_y_next_action_time y (now env + 0.5)
  else y.

(** The ['hurt_counter'] branch *)
Definition Yori_update_hurt_counter (A : YoriAnims) (env : Env) (y : Yori)
  : Yori :=
  let y := y_set_velocity_x y 0%R in
  let y := Yori_animate y (ya_hurt_counter A) 0.15 in
  if Qleb (y_hurt_counter_time y + y_counter_delay y) (now env)
     && Qleb (y_next_action_time y) (now env) then
    let y := set_y_state y Y_idle in
    let y := set_y_frame y 0 in
    set_y_next_action_time y (now env + 0.5)
  else y.

(** The ['block'] branch: the knockback eases out linearly over
    [knockback_duration]; the block pose ends at [block_duration]. *)
Definition Yori_update_block (A : YoriAnims) (env : Env) (y : Yori)
    (dist : Z) : Yori :=
  let y :=
    if y_is_in_knockback y then
      let knockback_progress :=
        (now env - y_block_time y) / y_knockback_duration y in
      if Qleb 1 knockback_progress then
        let y := set_y_is_in_knockback y false in
        y_set_velocity_x y 0%R
      else
        let remaining_force :=
          y_knockback_start_velocity y * (1 - knockback_progress) in
        y_set_velocity_x y (Q2R (- inject_Z (y_dir y) * remaining_force))
    else y in
  let y := Yori_animate y (ya_block A) 0.12 in
  if Qleb (y_block_time y + y_block_duration y) (now env) then
    let y := set_y_is_in_knockback y false in
    let y := y_set_velocity_x y 0%R in
    if (dist <=? Yori_ATTACK_STOP_DIST)%Z then
      let y := Yori_start_combo y in
      set_y_next_action_time y (now env)
    else
      let y := Yori_start_walking y in
      set_y_next_action_time y (now env)
  else y.

(** The knockback that the boss's counter attack hands to the player:
    velocity 50 away from the boss, for 1000 ms, in a block pose. *)
Definition Yori_knock_player (env : Env) (y : Yori) (p : Player) : Player :=
  let knock_dir :=
    if (y_rect_centerx y <? p_rect_centerx p)%Z then 1%Z else (-1)%Z in
  let p := set_p_rigid_body p
             (RigidBody.set_velocity_x (p_rigid_body p)
                (IZR (knock_dir * 50))) in
  let p := set_p_knockback_end_time p (Some (ticks env + 1000)%Z) in
  if (0 <? p_current_health p)%Z then
    let p := set_p_blocking p true in
    let p := set_p_block_animation_state p B_entering in
    let p := set_p_state p P_block in
    let p := set_p_frame p 0 in
    set_p_auto_unblock_time p (Some (now env + 0.5))
  else p.

(** The ['counter'] branch *)
Definition Yori_update_counter (A : YoriAnims) (env : Env) (y : Yori)
    (target : option Player) (dist : Z)
  : Yori * option Player * list event :=
  let y := y_set_velocity_x y 0%R in
  let y := if Qltb (y_frame y) (lenN (ya_counter A) - 1)
           then set_y_frame y (y_frame y + 0.35) else y in
  let y := if Qleb (lenN (ya_counter A)) (y_frame y)
           then set_y_frame y (lenN (ya_counter A) - 1) else y in
  let frame_idx := Qtrunc (y_frame y) in
  let y :=
    if (3 <=? frame_idx)%Z then
      let t := (y_frame y - 3)
               / inject_Z (Z.max 1 (Z.of_N (ya_counter A) - 4)) in
      let t := Qmax 0 (Qmin 1 t) in
      let eased := ease_in_out t in
      let offset := eased * inject_Z (y_counter_attack_lunge y)
                    * inject_Z (y_dir y) in
      let new_x := inject_Z (y_counter_start_x y) + offset in
      let dx := new_x - inject_Z (y_rect_centerx y) in
      let y := set_y_rect_centerx y (Qtrunc new_x) in
      let rb := RigidBody.get_position (y_rigid_body y) in
      set_y_rigid_body y
        (RigidBody.set_position (y_rigid_body y)
           (fst rb + Q2R dx)%R (snd rb))
    else y in
  let '(y, target, out) :=
    if negb (y_damage_dealt y)
       && Qleb (lenN (ya_counter A) * 0.6) (y_frame y) then
      let '(target, out) := Yori_attack_player y target in
      let y := set_y_damage_dealt y true in
      (y, option_map (Yori_knock_player env y) target, out)
    else (y, target, []) in
  let y :=
    if Qleb (lenN (ya_counter A) - 1) (y_frame y) then
      if (dist <=? Yori_ATTACK_STOP_DIST)%Z then
        let y := set_y_state y Y_idle in
        set_y_next_action_time y (now env + 0.2)
      else Yori_start_walking y
    else y in
  (y, target, out).

(** The ['skill'] branch *)
Definition Yori_update_skill (A : YoriAnims) (env : Env) (y : Yori)
    (target : option Player) (dist : Z)
  : Yori * option Player * list event :=
  let y := y_set_velocity_x y 0%R in
  let y := if Qltb (y_frame y) (lenN (ya_skill A) - 1)
           then set_y_frame y (y_frame y + 0.25) else y in
  let y := if Qleb (lenN (ya_skill A)) (y_frame y)
           then set_y_frame y (lenN (ya_skill A) - 1) else y in
  let '(y, target, out) :=
    if negb (y_damage_dealt y)
       && Qleb (lenN (ya_skill A) * 0.7) (y_frame y) then
      let original_damage := y_attack_damage y in
      let original_radius := y_attack_radius y in
      let y := set_y_attack_damage y (y_skill_damage y) in
      let y := set_y_attack_radius y
                 (match y_skill_attack_radius y with
                  | Some r => r
                  | None => 250%Z
                  end) in
      let '(target, out) := Yori_attack_player y target in
      let y := set_y_attack_damage y original_damage in
      let y := set_y_attack_radius y original_radius in
      (set_y_damage_dealt y true, target, out)
    else (y, target, []) in
  let y :=
    if Qleb (y_skill_time y + y_skill_duration y) (now env) then
      if (dist <=? Yori_ATTACK_STOP_DIST)%Z then
        let y := set_y_state y Y_idle in
        set_y_next_action_time y (now env + 0.5)
      else Yori_start_walking y
    else y in
  (y, target, out).

(** The ['die'] branch; the second reading of the clock is taken to be
    [now] as well. *)
Definition Yori_update_die (A : YoriAnims) (env : Env) (y : Yori) : Yori :=
  let y :=
    if y_is_death_knockback y then
      let death_progress :=
        (now env - y_death_time y) / y_death_knockback_duration y in
      if Qleb 1 death_progress then
        let y := set_y_is_death_knockback y false in
        y_set_velocity_x y 0%R
      else
        let remaining_force :=
          y_knockback_start_velocity y * (1 - death_progress) in
        let knockback_dir :=
          if RigidBody.Rltb 0 (RigidBody.velocity_x (y_rigid_body y))
          then 1%Z else (-1)%Z in
        y_set_velocity_x y (Q2R (inject_Z knockback_dir * remaining_force))
    else y in
  match ya_death A with
  | N0 => Yori_animate y (ya_hurt_counter A) 0.1
  | Npos _ =>
      let time_since_death := now env - y_death_time y in
      let cinematic_duration : Q := 1 in
      if Qltb time_since_death cinematic_duration then
        let progress_ratio := time_since_death / cinematic_duration in
        set_y_frame y (progress_ratio * (lenN (ya_death A) - 1))
      else set_y_frame y (lenN (ya_death A) - 1)
  end.

(** [Yori.update]: one tick. *)
Definition Yori_update (A : YoriAnims) (env : Env) (y : Yori)
    (target : option Player) : Yori * option Player * list event :=
  let is_active := y_is_active y in
  let y := Yori_update_physics env y target in
  if negb (Yori_alive y) && negb (ystate_eqb (y_state y) Y_die) then
    (y, target, [])
  else if negb is_active then
    let y := set_y_state y Y_idle in
    (Yori_animate y (ya_idle A) 0.15, target, [])
  else
    let dist := Yori_dist y target in
    match y_state y with
    | Y_idle => (Yori_update_idle A env y target dist, target, [])
    | Y_walking => (Yori_update_walking A env y target dist, target, [])
    | Y_attack1 => Yori_update_attack 1 (ya_attack1 A) A env y target dist
    | Y_attack2 => Yori_update_attack 2 (ya_attack2 A) A env y target dist
    | Y_attack3 => Yori_update_attack 3 (ya_attack3 A) A env y target dist
    | Y_dash => (Yori_update_dash A env y dist, target, [])
    | Y_counter_wait => (Yori_update_counter_wait A env y, target, [])
    | Y_hurt_counter => (Yori_update_hurt_counter A env y, target, [])
    | Y_block => (Yori_update_block A env y dist, target, [])
    | Y_counter => Yori_update_counter A env y target dist
    | Y_skill => Yori_update_skill A env y target dist
    | Y_die => (Yori_update_die A env y, target, [])
    end.

(** ** player.py, second part *)

Definition MOVE_SPEED : Z := 7.



(** [Player.__init__(pos)] *)
Definition Player_init (pos : Z * Z) : Player :=
  let centerx := fst pos in
  let centery := (snd pos - 300)%Z in
  {| p_state := P_idle; p_frame := 0;
     p_dir := 0; p_flip := false; p_facing := 1;
     p_rect_centerx := centerx; p_rect_centery := centery;
     p_world_x := (centerx - 300)%Z;
     p_is_dead := false; p_dashing := false;
     p_blocking := false; p_block_animation_state := B_none;
     p_countering := false; p_counter_success := false;
     p_counter_attacking := false; p_counter_attack_damage := 75;
     p_counter_ready := false; p_last_counter_time := 0;
     p_counter_damage_dealt := false;
     p_atk_covered := 0;
     p_attack_point := ((centerx + 50)%Z, centery);
     p_attack_radius := 50;
     p_last_attack_time := 0; p_attack_cooldown := 400;
     p_target := None; p_all_enemies := None;
     p_max_health := 1000; p_current_health := 1000;
     p_rigid_body := RigidBody.init (IZR centerx) (IZR centery) 30%R 1%R;
     p_knockback_end_time := None; p_auto_unblock_time := None;
     p_ui_system := false |}.

(** The objects of a running game that the combat code reaches: the
    player, the mooks and the boss.  The mooks' and the boss's [target] is
    the player. *)
Record World := mkWorld {
  w_player : Player;
  w_enemies : list Enemy;
  w_yori : Yori
}.

Inductive target_obj := Obj_enemy (e : Enemy) | Obj_yori (y : Yori).

Definition lookup (w : World) (r : target_ref) : option target_obj :=
  match r with
  | Ref_enemy i => option_map Obj_enemy (nth_error (w_enemies w) i)
  | Ref_yori => Some (Obj_yori (w_yori w))
  end.

Definition set_w_player (w : World) (p : Player) : World :=
  mkWorld p (w_enemies w) (w_yori w).

Fixpoint list_set {X : Type} (l : list X) (i : nat) (x : X) : list X :=
  match l, i with
  | [], _ => []
  | _ :: l, O => x :: l
  | a :: l, S i => a :: list_set l i x
  end.

Definition store (w : World) (r : target_ref) (o : target_obj) : World :=
  match r, o with
  | Ref_enemy i, Obj_enemy e =>
      mkWorld (w_player w) (list_set (w_enemies w) i e) (w_yori w)
  | Ref_yori, Obj_yori y => mkWorld (w_player w) (w_enemies w) y
  | _, _ => w
  end.

(** The target the player holds, if any. *)
Definition Player_target (w : World) : option target_obj :=
  match p_target (w_player w) with
  | Some r => lookup w r
  | None => None
  end.

(** [enemy.rect.center] *)
Definition rect_center (o : target_obj) : Z * Z :=
  match o with
  | Obj_enemy e => (e_rect_centerx e, e_rect_centery e)
  | Obj_yori y => (y_rect_centerx y, y_rect_centery y)
  end.

(** [Player.update_attack_point] *)
Definition Player_update_attack_point (p : Player) : Player :=
  if is_int (p_state p) || pstate_eqb (p_state p) P_counter_attack then
    let offset_x := if (p_facing p =? 1)%Z then 200%Z else (-200)%Z in
    let offset_y := (-50)%Z in
    set_p_attack_point p
      ((p_rect_centerx p + offset_x)%Z, (p_rect_centery p + offset_y)%Z)
  else set_p_attack_point p (p_rect_centerx p, p_rect_centery p).

(** [Player.check_attack_hit(enemy)] *)
Definition Player_check_attack_hit (p : Player) (enemy : target_obj) : bool :=
  let enemy_direction :=
    if (p_rect_centerx p <? fst (rect_center enemy))%Z
    then 1%Z else (-1)%Z in
  within_radius (p_attack_point p) (rect_center enemy)
    (inject_Z (p_attack_radius p) + inject_Z SPRITE_WIDTH / 2)
  && (enemy_direction =? p_facing p)%Z.

(** [Player.check_counter_timing] *)
Definition Player_check_counter_timing (EA : EnemyAnims) (YA : YoriAnims)
    (w : World) : bool :=
  match Player_target w with
  | None => false
  | Some (Obj_yori y) =>
      match
        match y_state y with
        | Y_attack1 => Some (ya_attack1 YA)
        | Y_attack2 => Some (ya_attack2 YA)
        | Y_attack3 => Some (ya_attack3 YA)
        | _ => None
        end
      with
      | None => false
      | Some attack_frames =>
          let counter_frame_start := lenN attack_frames * 0.3 in
          let counter_frame_end := lenN attack_frames * 0.7 in
          Qleb counter_frame_start (y_frame y)
          && Qleb (y_frame y) counter_frame_end
          && negb (y_damage_dealt y)
      end
  | Some (Obj_enemy e) =>
      match e_state e with
      | E_attack =>
          let counter_frame_start := len (ea_attack EA) * 0.3 in
          let counter_frame_end := len (ea_attack EA) * 0.7 in
          let in_counter_window :=
            Qltb counter_frame_start (e_frame e)
            && Qltb (e_frame e) counter_frame_end in
          let damage_not_dealt := negb (e_damage_dealt e) in
          in_counter_window && damage_not_dealt
      | _ => false
      end
  end.

(** [1 if self.target.rect.centerx > self.rect.centerx else -1], and the
    flip that goes with it *)
Definition Player_face_target (p : Player) (target : option target_obj)
  : Player :=
  match target with
  | Some o =>
      let p := set_p_facing p
                 (if (p_rect_centerx p <? fst (rect_center o))%Z
                  then 1%Z else (-1)%Z) in
      set_p_flip p (p_facing p =? -1)%Z
  | None => p
  end.

(** [Player.perform_counter]: both the mook and the boss have a [stun]
    method, so the first branch is taken for either. *)
Definition Player_perform_counter (env : Env) (w : World) : World :=
  let p := w_player w in
  let p := set_p_countering p true in
  let p := set_p_counter_success p true in
  let p := set_p_counter_ready p true in
  let p := set_p_state p P_counter in
  let p := set_p_frame p 0 in
  let p := set_p_dir p 0%Z in
  let p := set_p_blocking p false in
  let p := set_p_block_animation_state p B_none in
  let p := Player_face_target p (Player_target w) in
  let w := set_w_player w p in
  match p_target p, Player_target w with
  | Some r, Some (Obj_enemy e) =>
      let e := set_e_damage_dealt e true in
      let e := set_e_stun_end_time e (now env + 2) in
      store w r (Obj_enemy (Enemy_stun env e))
  | Some r, Some (Obj_yori y) =>
      let y := set_y_damage_dealt y true in
      store w r (Obj_yori (Yori_stun env y))
  | _, _ => w
  end.

(** [Player.counter_failed] *)
Definition Player_counter_failed (w : World) : World * list event :=
  let p := w_player w in
  let out := if p_ui_system p
             then [DamageText (p_rect_centerx p) (p_rect_centery p - 100)
                     Text_MISS]
             else [] in
  let p := set_p_blocking p false in
  let p := set_p_block_animation_state p B_none in
  let p := set_p_countering p true in
  let p := set_p_counter_success p false in
  let p := set_p_state p P_counter in
  let p := set_p_frame p 0 in
  let p := set_p_dir p 0%Z in
  let p := Player_face_target p (Player_target w) in
  (set_w_player w p, out).

(** [Player.handle_event], left shift while blocking (lines 587-604): the
    counter attempt.  [None] when the key press is not a counter attempt
    (the dash branch is not modelled). *)
Definition Player_counter_attempt (EA : EnemyAnims) (YA : YoriAnims)
    (env : Env) (w : World) : option (World * list event) :=
  let p := w_player w in
  if p_is_dead p || pstate_eqb (p_state p) P_hurt
     || pstate_eqb (p_state p) P_death then Some (w, [])
  else if p_blocking p && negb (p_countering p) then
    if (ticks env - p_last_counter_time p <? 500)%Z then Some (w, [])
    else
      let w := set_w_player w (set_p_last_counter_time p (ticks env)) in
      let counter_possible := Player_check_counter_timing EA YA w in
      if match p_target (w_player w) with Some _ => true | None => false end
         && counter_possible
      then Some (Player_perform_counter env w, [])
      else Some (Player_counter_failed w)
  else None.

(** [Player.start_counter_attack] *)
Definition Player_start_counter_attack (w : World) : Player :=
  let p := w_player w in
  let p := set_p_counter_attacking p true in
  let p := set_p_countering p false in
  let p := set_p_state p P_counter_attack in
  let p := set_p_frame p 0 in
  let p := set_p_counter_damage_dealt p false in
  let p := Player_face_target p (Player_target w) in
  Player_update_attack_point p.

(** [self.attack_delays.get(self.state, 0)] *)
Definition attack_delays (s : pstate) : Z :=
  match s with
  | P_attack 1 => 1000
  | P_attack 2 => 5000
  | P_attack 3 => 1000
  | _ => 0
  end.

(** [{1: 20, 2: 40, 3: 60}.get(self.state, 0)] *)
Definition attack_damage (s : pstate) : Z :=
  match s with
  | P_attack 1 => 20
  | P_attack 2 => 40
  | P_attack 3 => 60
  | _ => 0
  end.

(** [enemy.take_damage(damage, ui_system)] on a mook or on the boss, whose
    target is the player. *)
Definition target_take_damage (env : Env) (p : Player) (o : target_obj)
    (damage : Z) (ui_system : bool) : target_obj * list event :=
  match o with
  | Obj_enemy e =>
      let '(e, out, _) := Enemy_take_damage e damage ui_system in
      (Obj_enemy e, out)
  | Obj_yori y =>
      let '(y, out, _) := Yori_take_damage env y (Some p) damage ui_system in
      (Obj_yori y, out)
  end.

(** The loop of [click] over [self.all_enemies]. *)
Fixpoint Player_hit_all (env : Env) (damage : Z) (refs : list target_ref)
    (w : World) : World * Z * list event :=
  match refs with
  | [] => (w, 0%Z, [])
  | r :: refs =>
      let p := w_player w in
      let '(w, hit, out) :=
        match lookup w r with
        | Some enemy =>
            if Player_check_attack_hit p enemy then
              let '(enemy, out) :=
                target_take_damage env p enemy damage (p_ui_system p) in
              (store w r enemy, 1%Z, out)
            else (w, 0%Z, [])
        | None => (w, 0%Z, [])
        end in
      let '(w, hit_count, out') := Player_hit_all env damage refs w in
      (w, (hit + hit_count)%Z, out ++ out')
  end.

(** [Player.click] *)
Definition Player_click (env : Env) (w : World) : World * list event :=
  let p := w_player w in
  if p_counter_ready p then
    let p := Player_start_counter_attack w in
    (set_w_player w (set_p_counter_ready p false), [])
  else if p_is_dead p || pstate_eqb (p_state p) P_hurt
          || pstate_eqb (p_state p) P_death
          || p_blocking p || p_countering p || p_counter_attacking p
          || pstate_eqb (p_state p) P_counter
          || pstate_eqb (p_state p) P_counter_attack then (w, [])
  else if pstate_eqb (p_state p) P_jump || pstate_eqb (p_state p) P_jump2
  then (w, [])
  else if (ticks env - p_last_attack_time p <? p_attack_cooldown p)%Z
  then (w, [])
  else
    let p :=
      match p_state p with
      | P_attack n =>
          if (ticks env - p_last_attack_time p <=? attack_delays (p_state p))%Z
          then
            if (n <? 3)%Z then set_p_state p (P_attack (n + 1))
            else set_p_state p (P_attack 1)
          else set_p_state p (P_attack 1)
      | _ => set_p_state p (P_attack 1)
      end in
    let p := set_p_last_attack_time p (ticks env) in
    let damage := attack_damage (p_state p) in
    let w := set_w_player w p in
    let '(w, out) :=
      match p_all_enemies p with
      | Some (r :: refs) =>
          let '(w, hit_count, out) :=
            Player_hit_all env damage (r :: refs) w in
          (w, out ++ (if (0 <? hit_count)%Z
                      then [Print (Msg_player_hit_enemies hit_count damage)]
                      else []))
      | _ =>
          match p_target p, Player_target w with
          | Some r, Some enemy =>
              if Player_check_attack_hit p enemy then
                let '(enemy, out) :=
                  target_take_damage env p enemy damage (p_ui_system p) in
                (store w r enemy, out ++ [Print (Msg_player_hit_target damage)])
              else (w, [])
          | _, _ => (w, [])
          end
      end in
    let p := w_player w in
    let p := set_p_frame p 0 in
    let p := set_p_atk_covered p 0 in
    (set_w_player w p, out).








(** ** What a call that can fail evaluates to *)

Inductive py_error := IndexError | ZeroDivisionError.

Inductive py_result (X : Type) :=
| Ok (x : X)
| Raise (e : py_error).

Arguments Ok {X} x.
Arguments Raise {X} e.

(** ** ui_system.py *)

Definition rgb : Type := Z * Z * Z.

(** class DamageText, without its font.  [y] starts as the integer handed
    in and is a float after the first [update]. *)
Record DamageText_obj := mkDamageText {
  dt_x : Z;
  dt_y : Q;
  dt_start_y : Z;
  dt_damage : ui_text;
  dt_color : rgb;
  dt_start_time : Q;
  dt_duration : Q
}.

(** [DamageText.__init__(x, y, damage, color)] *)
Definition DamageText_init (env : Env) (x y : Z) (damage : ui_text)
    (color : rgb) : DamageText_obj :=
  {| dt_x := x; dt_y := inject_Z y; dt_start_y := y;
     dt_damage := damage; dt_color := color;
     dt_start_time := now env; dt_duration := 1 |}.

(** [DamageText.update()]: the text after the call and the value
    returned.  The division raises for a duration of 0 that has not
    passed yet. *)
Definition DamageText_update (env : Env) (d : DamageText_obj)
  : py_result (DamageText_obj * bool) :=
  let elapsed := now env - dt_start_time d in
  if Qleb (dt_duration d) elapsed then Ok (d, false)
  else if Qeq_bool (dt_duration d) 0 then Raise ZeroDivisionError
  else
    let progress := elapsed / dt_duration d in
    Ok (mkDamageText (dt_x d) (inject_Z (dt_start_y d) - progress * 80)
          (dt_start_y d) (dt_damage d) (dt_color d) (dt_start_time d)
          (dt_duration d),
        true).

(** [DamageText.draw]: the alpha of the text and where its main surface is
    put. *)
Definition DamageText_alpha (env : Env) (d : DamageText_obj) : py_result Z :=
  let elapsed := now env - dt_start_time d in
  if Qeq_bool (dt_duration d) 0 then Raise ZeroDivisionError
  else
    let progress := elapsed / dt_duration d in
    Ok (Qtrunc (255 * (1 - progress))).

Definition DamageText_screen_pos (d : DamageText_obj) (cam_x cam_y : Z)
  : Q * Q :=
  (inject_Z (dt_x d) - inject_Z cam_x, dt_y d - inject_Z cam_y).

(** class UISystem: the damage texts and the memory of the player's health
    that the flash of the health bar needs. *)
Record UISystem := mkUISystem {
  damage_texts : list DamageText_obj;
  prev_player_health : option Z;
  damage_prev_percent : Q;
  damage_flash_end : Q
}.

Definition UISystem_init : UISystem :=
  {| damage_texts := []; prev_player_health := None;
     damage_prev_percent := 1; damage_flash_end := 0 |}.

(** [UISystem.add_damage_text(x, y, damage, color)] *)
Definition UISystem_add_damage_text (env : Env) (ui : UISystem) (x y : Z)
    (damage : ui_text) (color : rgb) : UISystem :=
  mkUISystem (damage_texts ui ++ [DamageText_init env x y damage color])
    (prev_player_health ui) (damage_prev_percent ui) (damage_flash_end ui).

(** [[dt for dt in self.damage_texts if dt.update()]] *)
Fixpoint update_texts (env : Env) (l : list DamageText_obj)
  : py_result (list DamageText_obj) :=
  match l with
  | [] => Ok []
  | d :: l =>
      match DamageText_update env d with
      | Ok (d, keep) =>
          match update_texts env l with
          | Ok l => Ok (if keep then d :: l else l)
          | Raise err => Raise err
          end
      | Raise err => Raise err
      end
  end.

(** [UISystem.update()] *)
Definition UISystem_update (env : Env) (ui : UISystem) : py_result UISystem :=
  match update_texts env (damage_texts ui) with
  | Ok l =>
      Ok (mkUISystem l (prev_player_health ui) (damage_prev_percent ui)
            (damage_flash_end ui))
  | Raise err => Raise err
  end.

(** A [pygame.draw.rect(screen, color, rect)] of [draw_player_health_ui]. *)
Record drawn_rect := mkDrawn {
  dr_color : rgb;
  dr_rect : Rect;
  dr_border : Z   (* the width argument, 0 for a filled rectangle *)
}.

(** [max(0, current_health / max_health) if max_health else 0] *)
Definition health_percent (current_health max_health : Z) : Q :=
  if (max_health =? 0)%Z then 0
  else Qmax 0 (inject_Z current_health / inject_Z max_health).

(** [UISystem.draw_player_health_ui(screen, player, x, y)]: the state
    after the call and the rectangles drawn, in order.  [icon_w] is the
    width of the player's icon, 0 when there is none. *)
Definition UISystem_draw_player_health_ui (env : Env) (ui : UISystem)
    (current_health max_health : Z) (icon_w x y : Z)
  : py_result (UISystem * list drawn_rect) :=
  let now_t := now env in
  let prev := match prev_player_health ui with
              | Some h => h
              | None => current_health
              end in
  let damaged := (current_health <? prev)%Z in
  if damaged && (max_health =? 0)%Z then Raise ZeroDivisionError
  else
    let prev_percent :=
      if damaged then Qmax 0 (inject_Z prev / inject_Z max_health)
      else damage_prev_percent ui in
    let flash_end :=
      if damaged then now_t + 1 else damage_flash_end ui in
    let ui := mkUISystem (damage_texts ui) (Some current_health)
                prev_percent flash_end in
    let icon_pad := if (icon_w =? 0)%Z then 0%Z else 8%Z in
    let bar_width := 260%Z in
    let bar_height := 24%Z in
    let bar_x := (x + icon_w + icon_pad)%Z in
    let bar_y := (y + 8)%Z in
    let bg_rect := mkRect bar_x bar_y bar_width bar_height in
    let hp := health_percent current_health max_health in
    let red :=
      if Qltb 0 hp then
        [mkDrawn (180, 0, 0)%Z
           (mkRect bar_x bar_y (Qtrunc (inject_Z bar_width * hp)) bar_height)
           0]
      else [] in
    let flash :=
      if Qltb now_t flash_end && Qltb hp prev_percent then
        let flash_start_px := Qtrunc (inject_Z bar_width * hp) in
        let flash_end_px := Qtrunc (inject_Z bar_width * prev_percent) in
        [mkDrawn (255, 200, 0)%Z
           (mkRect (bar_x + flash_start_px) bar_y
              (flash_end_px - flash_start_px) bar_height) 0]
      else [] in
    let missing_start_px := Qtrunc (inject_Z bar_width * hp) in
    let missing :=
      if (missing_start_px <? bar_width)%Z then
        [mkDrawn (80, 0, 0)%Z
           (mkRect (bar_x + missing_start_px) bar_y
              (bar_width - missing_start_px) bar_height) 0]
      else [] in
    Ok (ui,
        [mkDrawn (40, 0, 0)%Z bg_rect 0;
         mkDrawn (255, 255, 255)%Z bg_rect 2]
        ++ red ++ flash ++ missing).

(** ** dialog_system.py *)

(** The [image] of a dialog entry: a path, a surface of some size, or
    nothing. *)
Inductive image_arg :=
| Img_path (path : string)
| Img_surface (w h : Z)
| Img_none.

Record dialog_arg := mkDialogArg {
  da_image : image_arg;
  da_text : option string
}.

(** An entry of [self.dialogs]: the size of the scaled portrait, if there
    is one, and the text. *)
Record dialog_entry := mkDialogEntry {
  de_image : option (Z * Z);
  de_text : string
}.

Record DialogSystem := mkDialogSystem {
  ds_active : bool;
  ds_dialogs : list dialog_entry;
  ds_index : Z;
  ds_screen_w : Z;
  ds_screen_h : Z
}.

(** [DialogSystem.__init__(screen_size)] *)
Definition DialogSystem_init (screen_size : Z * Z) : DialogSystem :=
  {| ds_active := false; ds_dialogs := []; ds_index := 0;
     ds_screen_w := fst screen_size; ds_screen_h := snd screen_size |}.

(** The body of the loop of [start]; [image_files] gives the size of the
    image file at a path, if the file exists. *)
Definition scale_portrait (screen_h : Z) (image_files : string -> option (Z * Z))
    (d : dialog_arg) : py_result dialog_entry :=
  let img_surf :=
    match da_image d with
    | Img_path path => image_files path
    | Img_surface w h => Some (w, h)
    | Img_none => None
    end in
  let text := match da_text d with Some t => t | None => EmptyString end in
  match img_surf with
  | Some (w, h) =>
      let scale_h := Qtrunc (inject_Z screen_h * 0.7) in
      if (h =? 0)%Z then Raise ZeroDivisionError
      else
        let scale_factor := inject_Z scale_h / inject_Z h in
        let scale_w := Qtrunc (inject_Z w * scale_factor) in
        Ok (mkDialogEntry (Some (scale_w, scale_h)) text)
  | None => Ok (mkDialogEntry None text)
  end.

Fixpoint start_loop (screen_h : Z) (image_files : string -> option (Z * Z))
    (dialogs : list dialog_arg) (acc : list dialog_entry)
  : py_result (list dialog_entry) :=
  match dialogs with
  | [] => Ok acc
  | d :: dialogs =>
      match scale_portrait screen_h image_files d with
      | Ok e => start_loop screen_h image_files dialogs (acc ++ [e])
      | Raise err => Raise err
      end
  end.

(** [DialogSystem.start(dialogs)]; a portrait of height 0 cannot be
    scaled, and the call raises. *)
Definition DialogSystem_start (image_files : string -> option (Z * Z))
    (ds : DialogSystem) (dialogs : list dialog_arg)
  : py_result DialogSystem :=
  match start_loop (ds_screen_h ds) image_files dialogs [] with
  | Ok entries =>
      Ok (mkDialogSystem true entries 0 (ds_screen_w ds) (ds_screen_h ds))
  | Raise err => Raise err
  end.

(** [DialogSystem.next()] *)
Definition DialogSystem_next (ds : DialogSystem) : DialogSystem :=
  let index := (ds_index ds + 1)%Z in
  mkDialogSystem
    (if (Z.of_nat (List.length (ds_dialogs ds)) <=? index)%Z
     then false else ds_active ds)
    (ds_dialogs ds) index (ds_screen_w ds) (ds_screen_h ds).

(** The events that [handle_event] looks at. *)
Inductive ui_event :=
| MouseButtonDown (button : Z)
| KeyDown_return
| KeyDown_space
| Other_event.

(** [DialogSystem.handle_event(e)] *)
Definition DialogSystem_handle_event (ds : DialogSystem) (e : ui_event)
  : DialogSystem :=
  if negb (ds_active ds) then ds
  else
    match e with
    | MouseButtonDown 1 => DialogSystem_next ds
    | KeyDown_return | KeyDown_space => DialogSystem_next ds
    | _ => ds
    end.

(** [self.dialogs[self.index]], the entry that [draw] shows while the
    dialog is active. *)
Definition DialogSystem_current (ds : DialogSystem)
  : py_result (option dialog_entry) :=
  if negb (ds_active ds) then Ok None
  else
    let n := Z.of_nat (List.length (ds_dialogs ds)) in
    let i := if (ds_index ds <? 0)%Z then (ds_index ds + n)%Z
             else ds_index ds in
    if ((0 <=? i) && (i <? n))%Z then
      match nth_error (ds_dialogs ds) (Z.to_nat i) with
      | Some e => Ok (Some e)
      | None => Raise IndexError
      end
    else Raise IndexError.

(** ** level_manager.py *)

(** class AnimatedBackground: the frames are surfaces loaded on demand;
    what the animation looks at is how many there are. *)
Record AnimatedBackground := mkAnimatedBackground {
  ab_frames : nat;               (* len(self.frames) *)
  ab_current_frame : Z;
  ab_animation_timer : Q;
  ab_animation_speed : Q;
  ab_transition_progress : Q
}.

(** [AnimatedBackground.update(dt)] *)
Definition AnimatedBackground_update (ab : AnimatedBackground) (dt : Q)
  : py_result AnimatedBackground :=
  let timer := ab_animation_timer ab + dt in
  let progress :=
    if Qltb 0 (ab_animation_speed ab)
    then Qmin 1 (timer / ab_animation_speed ab)
    else ab_transition_progress ab in
  if Qleb (ab_animation_speed ab) timer then
    match ab_frames ab with
    | O => Raise ZeroDivisionError
    | S _ =>
        Ok (mkAnimatedBackground (ab_frames ab)
              ((ab_current_frame ab + 1) mod Z.of_nat (ab_frames ab))%Z
              0 (ab_animation_speed ab) 0)
    end
  else
    Ok (mkAnimatedBackground (ab_frames ab) (ab_current_frame ab)
          timer (ab_animation_speed ab) progress).

(** class Tile: the id and whether an image was loaded. *)
Record Tile := mkTile {
  tile_id : Z;
  tile_image : bool;
  tile_solid : bool
}.

(** class Level.  [tiles] is the dict from tile ids to tiles, in insertion
    order. *)
Record Level := mkLevel {
  map_data : list (list Z);
  tiles : list (Z * Tile);
  animated_background : option AnimatedBackground;
  background_speed : Q;
  tile_size : Z
}.

(** [self.tiles[tid]], [None] when [tid not in self.tiles] *)
Fixpoint tiles_get (tiles : list (Z * Tile)) (tid : Z) : option Tile :=
  match tiles with
  | [] => None
  | (k, t) :: tiles => if (k =? tid)%Z then Some t else tiles_get tiles tid
  end.

(** [tid != -1 and tid in self.tiles] *)
Definition is_tile (lvl : Level) (tid : Z) : bool :=
  negb (tid =? -1)%Z
  && match tiles_get (tiles lvl) tid with Some _ => true | None => false end.

(** The inner loop of [get_solid_tile_rects], over the cells of a row
    from column [col_idx] on. *)
Fixpoint solid_rects_row (lvl : Level) (row_idx col_idx : Z) (row : list Z)
  : list Rect :=
  match row with
  | [] => []
  | tid :: row =>
      let rest := solid_rects_row lvl row_idx (col_idx + 1) row in
      if negb (tid =? -1)%Z then
        match tiles_get (tiles lvl) tid with
        | Some tile =>
            if tile_image tile then
              let ts := tile_size lvl in
              mkRect (col_idx * ts) (row_idx * ts) ts ts :: rest
            else rest
        | None => rest
        end
      else rest
  end.

Fixpoint solid_rects_rows (lvl : Level) (row_idx : Z) (rows : list (list Z))
  : list Rect :=
  match rows with
  | [] => []
  | row :: rows =>
      solid_rects_row lvl row_idx 0 row
      ++ solid_rects_rows lvl (row_idx + 1) rows
  end.

(** [Level.get_solid_tile_rects()] *)
Definition Level_get_solid_tile_rects (lvl : Level) : list Rect :=
  solid_rects_rows lvl 0 (map_data lvl).

(** The loop of [get_ground_y_at]: the rows [r - 1], [r - 2], ..., 0 of
    column [col], where [rows] are the rows below [r] in reverse. *)
Fixpoint ground_scan (lvl : Level) (col : nat) (rows_rev : list (list Z))
    (r : Z) : py_result (option Z) :=
  match rows_rev with
  | [] => Ok None
  | row :: rows_rev =>
      match nth_error row col with
      | None => Raise IndexError
      | Some tid =>
          if is_tile lvl tid then Ok (Some ((r - 1) * tile_size lvl)%Z)
          else ground_scan lvl col rows_rev (r - 1)
      end
  end.

(** [Level.get_ground_y_at(x_pixel)] for an integer [x_pixel] *)
Definition Level_get_ground_y_at (lvl : Level) (x_pixel : Z)
  : py_result (option Z) :=
  if (tile_size lvl =? 0)%Z then Raise ZeroDivisionError
  else
    let col := (x_pixel / tile_size lvl)%Z in
    let cols := match map_data lvl with
                | row :: _ => Z.of_nat (List.length row)
                | [] => 0%Z
                end in
    if ((col <? 0) || (cols <=? col))%Z then Ok None
    else
      ground_scan lvl (Z.to_nat col) (rev (map_data lvl))
        (Z.of_nat (List.length (map_data lvl))).

(** [Level.update(dt)] *)
Definition Level_update (lvl : Level) (dt : Q) : py_result Level :=
  match animated_background lvl with
  | Some ab =>
      match AnimatedBackground_update ab dt with
      | Ok ab =>
          Ok (mkLevel (map_data lvl) (tiles lvl) (Some ab)
                (background_speed lvl) (tile_size lvl))
      | Raise err => Raise err
      end
  | None => Ok lvl
  end.

(** class LevelManager.  [levels] is the dict from names to levels, in
    insertion order. *)
Record LevelManager := mkLevelManager {
  levels : list (string * Level);
  current_level : option Level;
  current_level_name : option string
}.

(** [self.levels[name]], [None] when [name not in self.levels] *)
Fixpoint levels_get (levels : list (string * Level)) (name : string)
  : option Level :=
  match levels with
  | [] => None
  | (k, lvl) :: levels =>
      if String.eqb k name then Some lvl else levels_get levels name
  end.

(** [LevelManager.get_available_levels()] *)
Definition LevelManager_get_available_levels (lm : LevelManager)
  : list string :=
  map fst (levels lm).

(** [LevelManager.set_current_level(level_name)]: the manager after the
    call and the value returned. *)
Definition LevelManager_set_current_level (lm : LevelManager)
    (level_name : string) : LevelManager * bool :=
  match levels_get (levels lm) level_name with
  | Some lvl => (mkLevelManager (levels lm) (Some lvl) (Some level_name), true)
  | None => (lm, false)
  end.

(** [sorted] on strings: insertion into the ascending order of
    [String.leb], which compares character codes as Python does. *)
Fixpoint sorted_insert (x : string) (l : list string) : list string :=
  match l with
  | [] => [x]
  | y :: l' => if String.leb x y then x :: l else y :: sorted_insert x l'
  end.

Fixpoint sorted (l : list string) : list string :=
  match l with
  | [] => []
  | x :: l => sorted_insert x (sorted l)
  end.

(** [names.index(name)]: the first position of [name], if any *)
Fixpoint index (names : list string) (name : string) : option Z :=
  match names with
  | [] => None
  | x :: names =>
      if String.eqb x name then Some 0%Z
      else option_map Z.succ (index names name)
  end.

(** The step that [next_level] and [previous_level] share: [step] is 1
    or -1. *)
Definition LevelManager_step (lm : LevelManager) (step : Z)
  : LevelManager * bool :=
  let names := sorted (LevelManager_get_available_levels lm) in
  match current_level_name lm with
  | Some name =>
      match index names name with
      | Some idx =>
          let i := ((idx + step) mod Z.of_nat (List.length names))%Z in
          match nth_error names (Z.to_nat i) with
          | Some nxt => LevelManager_set_current_level lm nxt
          | None => (lm, false)
          end
      | None => (lm, false)
      end
  | None => (lm, false)
  end.

(** [LevelManager.next_level()] *)
Definition LevelManager_next_level (lm : LevelManager)
  : LevelManager * bool :=
  LevelManager_step lm 1.

(** [LevelManager.previous_level()] *)
Definition LevelManager_previous_level (lm : LevelManager)
  : LevelManager * bool :=
  LevelManager_step lm (-1).

(** ** main.py *)

(** Lines 83-90: the pixel width of each level, [W] for a level without a
    map; [tile_size] is that of the first level. *)
Definition level_pixel_width (tile_size W : Z) (lvl : Level) : Z :=
  match map_data lvl with
  | row :: _ =>
      if (0 <? Z.of_nat (List.length row))%Z
      then (Z.of_nat (List.length row) * tile_size)%Z
      else W
  | [] => W
  end.

Definition level_pixel_widths (W : Z) (levels_list : list Level) : list Z :=
  match levels_list with
  | [] => []
  | lvl0 :: _ => map (level_pixel_width (tile_size lvl0) W) levels_list
  end.

(** Lines 92-96: the running sum [acc] gives each level its start. *)
Fixpoint level_start_x_from (acc : Z) (widths : list Z) : list Z :=
  match widths with
  | [] => []
  | w :: widths => acc :: level_start_x_from (acc + w) widths
  end.

Definition level_start_x (widths : list Z) : list Z :=
  level_start_x_from 0 widths.

(** [sum(level_pixel_widths)] *)
Definition total_world_width (widths : list Z) : Z :=
  fold_left Z.add widths 0%Z.

(** Lines 429-435 (and 466-473 for the boss): the first level whose span
    holds [centerx], found by the loop over [range(num_levels)] from [i]
    on; [None] when the loop ends without a [break]. *)
Fixpoint level_index_from (i : Z) (starts widths : list Z) (centerx : Z)
  : option Z :=
  match starts, widths with
  | s :: starts, w :: widths =>
      if ((s <=? centerx) && (centerx <? s + w))%Z then Some i
      else level_index_from (i + 1) starts widths centerx
  | _, _ => None
  end.

Definition level_index_at (starts widths : list Z) (current_level_idx : Z)
    (centerx : Z) : Z :=
  match level_index_from 0 starts widths centerx with
  | Some i => i
  | None => current_level_idx
  end.


(** [find_closest_enemy(player, enemies)].  The enemies come with their
    positions in main.py's list, which stand for the objects; the
    distances are compared by their squares. *)
Fixpoint find_closest_loop (player_center : Z * Z)
    (enemies : list (nat * Enemy)) (closest_enemy : option nat)
    (closest_distance : option Z) : option nat :=
  match enemies with
  | [] => closest_enemy
  | (i, enemy) :: enemies =>
      let distance :=
        dist2 (e_rect_centerx enemy, e_rect_centery enemy) player_center in
      if match closest_distance with
         | None => true                 (* float('inf') *)
         | Some d => (distance <? d)%Z
         end
      then find_closest_loop player_center enemies (Some i) (Some distance)
      else find_closest_loop player_center enemies closest_enemy
             closest_distance
  end.

Definition find_closest_enemy (p : Player) (enemies : list (nat * Enemy))
  : option nat :=
  match enemies with
  | [] => None
  | _ =>
      find_closest_loop (p_rect_centerx p, p_rect_centery p) enemies
        None None
  end.

(** The mooks of main.py's list with their positions in it. *)
Definition indexed (enemies : list Enemy) : list (nat * Enemy) :=
  combine (seq 0 (List.length enemies)) enemies.

Definition attacking_alive (ie : nat * Enemy) : bool :=
  estate_eqb (e_state (snd ie)) E_attack && targetable (snd ie).

(** Lines 839-858: dynamic targeting, as far as the player's target goes
    (the debug line of the first branch is left out). *)
Definition dynamic_targeting (current_level_idx : Z) (w : World) : World :=
  let p := w_player w in
  let enemies := indexed (w_enemies w) in
  let attacking_enemies := filter attacking_alive enemies in
  let p :=
    match attacking_enemies with
    | _ :: _ =>
        match find_closest_enemy p attacking_enemies with
        | Some i => set_p_target p (Some (Ref_enemy i))
        | None => p
        end
    | [] =>
        match find_closest_enemy p
                (filter (fun ie => targetable (snd ie)) enemies) with
        | Some i => set_p_target p (Some (Ref_enemy i))
        | None => p
        end
    end in
  let p := if (current_level_idx =? 5)%Z && Yori_alive (w_yori w)
           then set_p_target p (Some Ref_yori) else p in
  set_w_player w p.

(** [max(0, min(cam, total - screen))], the clamp of every branch of the
    camera *)
Definition clamp_camera (cam total screen : Z) : Z :=
  Z.max 0 (Z.min cam (total - screen)).

(** The class [Enemy] has no attribute [health] (its health is
    [current_health]), so [hasattr(enemy, 'health')] is false. *)
Definition Enemy_hasattr_health : bool := false.

(** The loop that collects [current_enemies]. *)
Fixpoint current_enemies_loop (idx : nat) (starts widths : list Z)
    (enemies : list Enemy) : py_result (list Enemy) :=
  match enemies with
  | [] => Ok []
  | enemy :: enemies =>
      match nth_error starts idx with
      | None => Raise IndexError
      | Some s =>
          let in_level :=
            if (s <=? e_rect_centerx enemy)%Z then
              match nth_error widths idx with
              | None => Raise IndexError
              | Some w =>
                  Ok ((e_rect_centerx enemy <? s + w)%Z
                      && Enemy_hasattr_health
                      && targetable enemy)
              end
            else Ok false in
          match in_level with
          | Raise err => Raise err
          | Ok keep =>
              match current_enemies_loop idx starts widths enemies with
              | Ok l => Ok (if keep then enemy :: l else l)
              | Raise err => Raise err
              end
          end
      end
  end.

(** [calculate_dynamic_camera(player, enemies, screen_width,
    screen_height, total_world_width, bg_height, footer_margin)], with
    the globals it reads: the level index, the level spans and the boss. *)
Definition calculate_dynamic_camera (env : Env) (current_level_idx : Z)
    (starts widths : list Z) (w : World)
    (screen_width screen_height total_world_width bg_height
       footer_margin : Z) : py_result (Z * Z) :=
  let p := w_player w in
  let y := w_yori w in
  let clamp cam_x cam_y :=
    (clamp_camera cam_x total_world_width screen_width,
     clamp_camera cam_y bg_height screen_height) in
  let player_cam :=
    clamp (p_world_x p - screen_width / 2)%Z
      (p_rect_centery p + 300 - (screen_height - footer_margin))%Z in
  if (current_level_idx =? 0)%Z then Ok player_cam
  else if ystate_eqb (y_state y) Y_die
          && Qltb (now env - y_death_time y) 5 then
    Ok (clamp (y_rect_centerx y - screen_width / 2)%Z
          (y_rect_centery y - 100 - screen_height / 2)%Z)
  else
    let rest :=
      if (current_level_idx =? 5)%Z && Yori_alive y then
        let mid_x := ((p_rect_centerx p + y_rect_centerx y) / 2)%Z in
        let mid_y := ((p_rect_centery p + y_rect_centery y) / 2)%Z in
        clamp (mid_x - screen_width / 2)%Z (mid_y - screen_height / 2)%Z
      else player_cam in
    if ((current_level_idx =? 2) || (current_level_idx =? 3)
        || (current_level_idx =? 4))%Z then
      match current_enemies_loop (Z.to_nat current_level_idx) starts widths
              (w_enemies w) with
      | Raise err => Raise err
      | Ok (enemy :: _) =>
          let mid_x := ((p_rect_centerx p + e_rect_centerx enemy) / 2)%Z in
          let mid_y := ((p_rect_centery p + e_rect_centery enemy) / 2)%Z in
          Ok (clamp (mid_x - screen_width / 2)%Z
                (mid_y - screen_height / 2)%Z)
      | Ok [] => Ok rest
      end
    else Ok rest.
(** * Properties *)

Ltac split_ifs :=
  repeat match goal with
         | |- context [if ?c then _ else _] => destruct c eqn:?
         | |- context [match ?t with Some _ => _ | None => _ end] =>
             destruct t eqn:?
         end.

Ltac fin :=
  try solve [ auto | discriminate | lia
            | intros; auto | intros; discriminate | intros; lia
            | intros ? [?|?]; auto; discriminate
            | intros ? [?|?]; congruence ].

(** ** Cursor arithmetic *)

Section CursorFacts.

Local Open Scope Q_scope.

Lemma len_pos (n : positive) : 0 < len n.
Proof. unfold len, Qlt; cbn; lia. Qed.

Lemma fmod_eq (x : Q) (n : positive) :
  fmod x n == x - len n * inject_Z (Qfloor (x / len n)).
Proof.
  unfold fmod, len. rewrite inject_Z_mult. reflexivity.
Qed.

Lemma fmod_bounds (x : Q) (n : positive) : 0 <= fmod x n /\ fmod x n < len n.
Proof.
  rewrite fmod_eq.
  pose proof (len_pos n) as Hn.
  pose proof (Qfloor_le (x / len n)) as Hlo.
  pose proof (Qlt_floor (x / len n)) as Hhi.
  rewrite inject_Z_plus in Hhi.
  assert (Hx : x == len n * (x / len n)).
  { field. intro H. rewrite H in Hn. discriminate. }
  set (q := x / len n) in *. set (f := inject_Z (Qfloor q)) in *.
  change (inject_Z 1) with 1 in Hhi. clearbody f. clearbody q.
  generalize dependent (len n). intros l Hl Hx.
  split.
  - rewrite Hx. nra.
  - rewrite Hx at 1. nra.
Qed.


End CursorFacts.

Section ComparisonFacts.

Local Open Scope Q_scope.

Lemma Qleb_le (x y : Q) : Qleb x y = true <-> x <= y.
Proof. apply Qle_bool_iff. Qed.

Lemma Qleb_gt (x y : Q) : Qleb x y = false <-> y < x.
Proof.
  unfold Qleb. split; intros H.
  - apply Qnot_le_lt. intros Hle. apply Qle_bool_iff in Hle. congruence.
  - destruct (Qle_bool x y) eqn:E; [|reflexivity].
    apply Qle_bool_iff in E. exfalso. apply (Qlt_not_le _ _ H E).
Qed.

Lemma Qltb_lt (x y : Q) : Qltb x y = true <-> x < y.
Proof.
  unfold Qltb. rewrite negb_true_iff. apply (Qleb_gt y x).
Qed.

Lemma Qltb_ge (x y : Q) : Qltb x y = false <-> y <= x.
Proof.
  unfold Qltb. rewrite negb_false_iff. apply (Qleb_le y x).
Qed.

End ComparisonFacts.


Section DistanceFacts.

Lemma dist2_nonneg (a b : Z * Z) : (0 <= dist2 a b)%Z.
Proof.
  unfold dist2.
  pose proof (Z.square_nonneg (fst a - fst b)).
  pose proof (Z.square_nonneg (snd a - snd b)). lia.
Qed.

(** The squared test of [within_radius] is the test on the square root
    that the source writes. *)
Lemma within_radius_sqrt (a b : Z * Z) (r : Q) :
  within_radius a b r = true <-> (sqrt (IZR (dist2 a b)) <= Q2R r)%R.
Proof.
  unfold within_radius, Qleb.
  rewrite andb_true_iff, !Qle_bool_iff.
  pose proof (dist2_nonneg a b) as Hd. apply IZR_le in Hd.
  assert (Hq : Q2R (inject_Z (dist2 a b)) = IZR (dist2 a b)).
  { unfold Q2R, inject_Z. simpl. lra. }
  split.
  - intros [Hr Hle]. apply Qle_Rle in Hr, Hle.
    rewrite Q2R_mult, Hq in Hle. rewrite RMicromega.Q2R_0 in Hr.
    rewrite <- (sqrt_square (Q2R r)) by exact Hr.
    apply sqrt_le_1_alt. exact Hle.
  - intros H.
    pose proof (sqrt_pos (IZR (dist2 a b))) as Hs.
    assert (Hr : (0 <= Q2R r)%R) by lra.
    split.
    + apply Rle_Qle. rewrite RMicromega.Q2R_0. exact Hr.
    + apply Rle_Qle. rewrite Q2R_mult, Hq.
      rewrite <- (sqrt_sqrt (IZR (dist2 a b))) by exact Hd.
      nra.
Qed.

End DistanceFacts.
(** ** Rigid body *)

Section RigidBodyFacts.

Import RigidBody.
Local Open Scope R_scope.

Lemma Rleb_true x y : Rleb x y = true <-> x <= y.
Proof. unfold Rleb; destruct (Rle_dec x y); split; intros; try easy. Qed.

Lemma Rleb_false x y : Rleb x y = false <-> y < x.
Proof.
  unfold Rleb; destruct (Rle_dec x y); split; intros; try easy; lra.
Qed.

Lemma Rltb_true x y : Rltb x y = true <-> x < y.
Proof. unfold Rltb; destruct (Rlt_dec x y); split; intros; try easy. Qed.

Lemma Rltb_false x y : Rltb x y = false <-> y <= x.
Proof.
  unfold Rltb; destruct (Rlt_dec x y); split; intros; try easy; lra.
Qed.

(** A body used in the examples: radius 30, resting values of
    [RigidBody.__init__]. *)
Definition body (cx cy vx vy : R) : t :=
  set_velocity (init cx cy 30 1) vx vy.

(** C3.  Ground resolution: without a ground the body is not grounded,
    whatever it was before; with the bottom edge at or below the ground
    and the body not moving up, the bottom edge is put exactly on the
    ground, the vertical velocity is zeroed and the body is grounded;
    while the body moves up nothing is changed. *)
Theorem check_ground_collision_resolves (rb : t) (G : R) :
  is_grounded (check_ground_collision rb None) = false
  /\ (G <= center_y (collider rb) + radius (collider rb) ->
      0 <= velocity_y rb ->
      let rb' := check_ground_collision rb (Some G) in
      center_y (collider rb') + radius (collider rb') = G
      /\ velocity_y rb' = 0
      /\ is_grounded rb' = true
      /\ ground_y rb' = Some G
      /\ center_x (collider rb') = center_x (collider rb)
      /\ velocity_x rb' = velocity_x rb)
  /\ (G <= center_y (collider rb) + radius (collider rb) ->
      velocity_y rb < 0 ->
      check_ground_collision rb (Some G) = rb).
Proof.
  split; [reflexivity|split].
  - intros Hb Hv. unfold check_ground_collision.
    apply Rleb_true in Hb. apply Rleb_true in Hv. rewrite Hb, Hv.
    cbn. repeat split; ring.
  - intros Hb Hv. unfold check_ground_collision.
    apply Rleb_true in Hb. rewrite Hb.
    assert (Hn : Rleb 0 (velocity_y rb) = false) by now apply Rleb_false.
    now rewrite Hn.
Qed.

Lemma check_ground_collision_resolves_witness :
  (let rb' := check_ground_collision (body 0 71 0 5) (Some 100) in
   center_y (collider rb') + radius (collider rb') = 100
   /\ velocity_y rb' = 0 /\ is_grounded rb' = true
   /\ ground_y rb' = Some 100
   /\ center_x (collider rb') = center_x (collider (body 0 71 0 5))
   /\ velocity_x rb' = velocity_x (body 0 71 0 5))
  /\ check_ground_collision (body 0 71 0 (-5)) (Some 100)
     = body 0 71 0 (-5).
Proof.
  split.
  - apply (proj1 (proj2 (check_ground_collision_resolves
                           (body 0 71 0 5) 100))); cbn; lra.
  - apply (proj2 (proj2 (check_ground_collision_resolves
                           (body 0 71 0 (-5)) 100))); cbn; lra.
Defined.

(** The collision normal of [resolve_tile_collision]. *)
Definition normal_x (rb : t) (tile : Rect) : R :=
  (center_x (collider rb) - closest_x (collider rb) tile)
  / closest_distance (collider rb) tile.

Definition normal_y (rb : t) (tile : Rect) : R :=
  (center_y (collider rb) - closest_y (collider rb) tile)
  / closest_distance (collider rb) tile.

Lemma normal_unit (rb : t) (tile : Rect) :
  0 < closest_distance (collider rb) tile ->
  normal_x rb tile * normal_x rb tile + normal_y rb tile * normal_y rb tile
  = 1.
Proof.
  unfold normal_x, normal_y, closest_distance. intros Hd.
  set (dx := center_x (collider rb) - closest_x (collider rb) tile) in *.
  set (dy := center_y (collider rb) - closest_y (collider rb) tile) in *.
  assert (Hs : sqrt (dx * dx + dy * dy) * sqrt (dx * dx + dy * dy)
               = dx * dx + dy * dy) by (apply sqrt_sqrt; nra).
  set (d := sqrt (dx * dx + dy * dy)) in *.
  assert (Hne : d <> 0) by lra.
  replace (dx / d * (dx / d) + dy / d * (dy / d))
    with ((dx * dx + dy * dy) / (d * d)) by (field; exact Hne).
  rewrite <- Hs. field. exact Hne.
Qed.

(** C7.  A tile whose closest point is at distance [d] from the centre,
    [0 < d < radius]: the centre moves by [radius - d] along the unit
    normal, the velocity loses [2 * (v . n) * n * bounce], and a normal
    with [ny < -0.7] grounds the body on the tile's top and keeps the
    vertical velocity from pointing down. *)
Theorem resolve_tile_collision_pushes_out (rb : t) (tile : Rect) :
  let c := collider rb in
  let d := closest_distance c tile in
  let nx := normal_x rb tile in
  let ny := normal_y rb tile in
  let dot := velocity_x rb * nx + velocity_y rb * ny in
  let vy1 := velocity_y rb - 2 * dot * ny * bounce rb in
  let rb' := resolve_tile_collision rb tile in
  0 < d -> d < radius c ->
  center_x (collider rb') = center_x c + nx * (radius c - d)
  /\ center_y (collider rb') = center_y c + ny * (radius c - d)
  /\ radius (collider rb') = radius c
  /\ nx * nx + ny * ny = 1
  /\ velocity_x rb' = velocity_x rb - 2 * dot * nx * bounce rb
  /\ (ny < - 0.7 ->
      is_grounded rb' = true
      /\ ground_y rb' = Some (IZR (top tile))
      /\ velocity_y rb' = Rmin vy1 0)
  /\ (- 0.7 <= ny ->
      is_grounded rb' = is_grounded rb
      /\ ground_y rb' = ground_y rb
      /\ velocity_y rb' = vy1).
Proof.
  intros c d nx ny dot vy1 rb' H0 Hr.
  assert (Hn : nx * nx + ny * ny = 1) by (apply normal_unit; exact H0).
  assert (E1 : Rltb d (radius c) = true) by now apply Rltb_true.
  assert (E2 : Rltb 0 d = true) by now apply Rltb_true.
  subst rb'. unfold resolve_tile_collision.
  fold (closest_distance (collider rb) tile). fold c. fold d.
  rewrite E1, E2. cbn [andb]. cbv zeta.
  change ((center_x c - closest_x c tile) / d) with nx.
  change ((center_y c - closest_y c tile) / d) with ny.
  destruct (Rltb ny (- 0.7)) eqn:Eg.
  - apply Rltb_true in Eg.
    match goal with
    | |- context [Rltb 0 ?v] =>
        change v with vy1; destruct (Rltb 0 vy1) eqn:Ev
    end.
    + apply Rltb_true in Ev.
      repeat apply conj; try reflexivity; try exact Hn; intros Hny;
        try lra; repeat apply conj; try reflexivity.
      cbn. unfold Rmin. destruct (Rle_dec vy1 0); lra.
    + apply Rltb_false in Ev.
      repeat apply conj; try reflexivity; try exact Hn; intros Hny;
        try lra; repeat apply conj; try reflexivity.
      cbn. fold c. unfold Rmin. destruct (Rle_dec vy1 0); [|lra].
      subst vy1 dot. lra.
  - apply Rltb_false in Eg.
    repeat apply conj; try reflexivity; try exact Hn; intros Hny;
      try lra; repeat apply conj; reflexivity.
Qed.

(** A tile below and to the right of a body at the origin: the closest
    point is its corner (3, 4), at distance 5. *)
Definition corner_tile : Rect := mkRect 3 4 10 10.

Lemma corner_tile_distance :
  closest_x (collider (body 0 0 1 2)) corner_tile = 3
  /\ closest_y (collider (body 0 0 1 2)) corner_tile = 4
  /\ closest_distance (collider (body 0 0 1 2)) corner_tile = 5.
Proof.
  assert (Hx : closest_x (collider (body 0 0 1 2)) corner_tile = 3).
  { unfold closest_x; cbn.
    rewrite Rmin_left, Rmax_left by (rewrite ?Rmin_left; lra). reflexivity. }
  assert (Hy : closest_y (collider (body 0 0 1 2)) corner_tile = 4).
  { unfold closest_y; cbn.
    rewrite Rmin_left, Rmax_left by (rewrite ?Rmin_left; lra). reflexivity. }
  repeat split; auto.
  unfold closest_distance. rewrite Hx, Hy. cbn.
  replace ((0 - 3) * (0 - 3) + (0 - 4) * (0 - 4)) with (5 * 5) by ring.
  apply sqrt_square; lra.
Qed.

Lemma resolve_tile_collision_pushes_out_witness :
  let rb := body 0 0 1 2 in
  let rb' := resolve_tile_collision rb corner_tile in
  center_x (collider rb')
  = 0 + normal_x rb corner_tile * (30 - closest_distance (collider rb) corner_tile)
  /\ velocity_x rb'
     = 1 - 2 * (1 * normal_x rb corner_tile + 2 * normal_y rb corner_tile)
           * normal_x rb corner_tile * 0.1.
Proof.
  intros rb rb'.
  destruct corner_tile_distance as (_ & _ & Hd).
  destruct (resolve_tile_collision_pushes_out rb corner_tile)
    as (H1 & _ & _ & _ & H5 & _).
  - fold rb in Hd. rewrite Hd. lra.
  - fold rb in Hd. rewrite Hd. cbn. lra.
  - split; [exact H1|exact H5].
Defined.

Lemma closest_inside (c : CircleCollider) (tile : Rect) :
  IZR (left tile) <= center_x c <= IZR (right tile) ->
  IZR (top tile) <= center_y c <= IZR (bottom tile) ->
  closest_x c tile = center_x c /\ closest_y c tile = center_y c.
Proof.
  intros Hx Hy. unfold closest_x, closest_y.
  rewrite !Rmin_left, !Rmax_right by lra. split; reflexivity.
Qed.

Lemma resolve_tile_collision_distance_0 (rb : t) (tile : Rect) :
  closest_distance (collider rb) tile = 0 ->
  resolve_tile_collision rb tile = rb.
Proof.
  intros Hd. unfold resolve_tile_collision.
  fold (closest_distance (collider rb) tile). rewrite Hd.
  assert (E : Rltb 0 0 = false) by (apply Rltb_false; lra).
  rewrite E. now rewrite andb_false_r.
Qed.

(** C10.  A centre inside or on the tile is its own closest point, the
    distance is 0, and the resolution changes no attribute of the body. *)
Theorem resolve_tile_collision_center_inside (rb : t) (tile : Rect) :
  IZR (left tile) <= center_x (collider rb) <= IZR (right tile) ->
  IZR (top tile) <= center_y (collider rb) <= IZR (bottom tile) ->
  closest_x (collider rb) tile = center_x (collider rb)
  /\ closest_y (collider rb) tile = center_y (collider rb)
  /\ closest_distance (collider rb) tile = 0
  /\ resolve_tile_collision rb tile = rb
  /\ check_tile_collision rb [tile] = rb.
Proof.
  intros Hx Hy. destruct (closest_inside _ _ Hx Hy) as (Ex & Ey).
  assert (Hd : closest_distance (collider rb) tile = 0).
  { unfold closest_distance. rewrite Ex, Ey.
    replace (_ + _) with 0 by ring. apply sqrt_0. }
  repeat split; auto using resolve_tile_collision_distance_0.
  unfold check_tile_collision.
  destruct (can_collide rb); cbn; [|reflexivity].
  rewrite resolve_tile_collision_distance_0 by exact Hd.
  now destruct (collides_with_rect _ _).
Qed.

Lemma resolve_tile_collision_center_inside_witness :
  resolve_tile_collision (body 5 5 1 2) (mkRect 0 0 10 10) = body 5 5 1 2.
Proof.
  apply (resolve_tile_collision_center_inside
           (body 5 5 1 2) (mkRect 0 0 10 10)); cbn; lra.
Defined.

End RigidBodyFacts.


(** ** The mook *)

(** The physics prefix of [Enemy.update] moves the body and the sprite and
    leaves the combat attributes alone. *)
Lemma Enemy_update_physics_keeps (e : Enemy) :
  let e1 := Enemy_update_physics e in
  e_state e1 = e_state e /\ e_frame e1 = e_frame e
  /\ e_damage_dealt e1 = e_damage_dealt e
  /\ e_damage_frame e1 = e_damage_frame e
  /\ e_current_health e1 = e_current_health e
  /\ e_attack_damage e1 = e_attack_damage e
  /\ e_ui_system e1 = e_ui_system e.
Proof.
  unfold Enemy_update_physics, Enemy_update_attack_point.
  match goal with
  | |- context [estate_eqb ?a ?b] => destruct (estate_eqb a b)
  end; repeat split; reflexivity.
Qed.

(** How often a tick's output announces an attack of the mook, that is,
    how often [attack_player] ran with a target. *)
Definition is_enemy_attack (ev : event) : bool :=
  match ev with Print (Msg_enemy_attacks _) => true | _ => false end.

Definition enemy_attacks (out : list event) : nat :=
  List.length (filter is_enemy_attack out).

Lemma enemy_attacks_app (a b : list event) :
  enemy_attacks (a ++ b) = (enemy_attacks a + enemy_attacks b)%nat.
Proof. unfold enemy_attacks. now rewrite filter_app, length_app. Qed.

Lemma Player_take_damage_no_enemy_attack (p : Player) (d : Z) (ui : bool) :
  enemy_attacks (snd (fst (Player_take_damage p d ui))) = 0%nat.
Proof.
  unfold Player_take_damage.
  destruct (p_is_dead p || pstate_eqb (p_state p) P_hurt
            || pstate_eqb (p_state p) P_death); [reflexivity|].
  destruct (pstate_eqb (p_state p) P_skill); [now destruct ui|].
  destruct (p_blocking p); [now destruct ui|].
  cbn.
  destruct (p_current_health p - d <=? 0)%Z; cbn; now destruct ui.
Qed.

Lemma Enemy_attack_player_attacks (e : Enemy) (t : option Player) (ui : bool) :
  enemy_attacks (snd (Enemy_attack_player e t ui))
  = match t with Some _ => 1%nat | None => 0%nat end.
Proof.
  unfold Enemy_attack_player. destruct t as [p|]; [|reflexivity].
  destruct (within_radius _ _ _); [|reflexivity].
  pose proof (Player_take_damage_no_enemy_attack p (e_attack_damage e) ui) as H.
  destruct (Player_take_damage p (e_attack_damage e) ui) as [[p' out] v].
  cbn in *. unfold enemy_attacks in *. cbn. now rewrite H.
Qed.

(** The cursor of the attack animation after this tick's advance, and the
    test that lets the attack branch call [attack_player]. *)
Definition Enemy_attack_cursor (A : EnemyAnims) (e : Enemy) : Q :=
  fmod (e_frame e + 0.3) (ea_attack A).

Definition Enemy_attack_due (A : EnemyAnims) (e : Enemy) : bool :=
  negb (e_damage_dealt e)
  && Qleb (len (ea_attack A) * e_damage_frame e) (Enemy_attack_cursor A e).

Definition Enemy_attack_over (A : EnemyAnims) (e : Enemy) : bool :=
  Qleb (len (ea_attack A) - 1) (Enemy_attack_cursor A e).

(** One tick of the attack branch, spelled out: [attack_player] runs
    exactly when the latch is unset and the advanced cursor has reached
    [len * damage_frame]; the animation's end resets cursor and latch. *)
Definition Enemy_attack_tick_spec (A : EnemyAnims) (env : Env) (e : Enemy)
    (target : option Player) : Prop :=
  let '(e', target', out) := Enemy_update A env e target in
  (Enemy_attack_due A e = true ->
     (target', out)
     = Enemy_attack_player
         (Enemy_animate (e_set_velocity_x (Enemy_update_physics e) 0%R)
            (ea_attack A) 0.3)
         target (e_ui_system e))
  /\ (Enemy_attack_due A e = false -> target' = target /\ out = [])
  /\ (Enemy_attack_over A e = true ->
        e_state e' = E_recover /\ e_frame e' = 0
        /\ e_damage_dealt e' = false)
  /\ (Enemy_attack_over A e = false ->
        e_state e' = E_attack /\ e_frame e' = Enemy_attack_cursor A e
        /\ e_damage_dealt e' = (e_damage_dealt e || Enemy_attack_due A e)).

Lemma Enemy_update_attack_tick (A : EnemyAnims) (env : Env) (e : Enemy)
    (target : option Player) :
  e_state e = E_attack -> Enemy_attack_tick_spec A env e target.
Proof.
  intros Hs.
  destruct (Enemy_update_physics_keeps e)
    as (Hst & Hfr & Hdd & Hdf & _ & _ & Hui).
  unfold Enemy_attack_tick_spec, Enemy_update, Enemy_attack_due,
    Enemy_attack_over, Enemy_attack_cursor.
  set (e1 := Enemy_update_physics e) in *. clearbody e1.
  destruct e1; cbn in Hst, Hfr, Hdd, Hdf, Hui; subst.
  cbn [e_state]. rewrite Hs.
  cbn -[fmod len Qleb Enemy_attack_player].
  set (over := Qleb (len (ea_attack A) - 1)
                 (fmod (e_frame e + 0.3) (ea_attack A))).
  set (due := Qleb (len (ea_attack A) * e_damage_frame e)
                (fmod (e_frame e + 0.3) (ea_attack A))).
  destruct (e_damage_dealt e) eqn:Hd; [|destruct due];
    cbn -[fmod len Qleb Enemy_attack_player];
    rewrite ?Hfr, ?Hdd, ?Hdf, ?Hui; fold over.
  - destruct over; cbn; repeat split; intros; congruence.
  - match goal with
    | |- context [Enemy_attack_player ?a ?b ?c] =>
        destruct (Enemy_attack_player a b c) as [t' out] eqn:Hap
    end.
    cbn -[fmod len Qleb]; rewrite ?Hfr; fold over.
    destruct over; cbn; repeat split; intros; congruence.
  - destruct over; cbn; repeat split; intros; congruence.
Qed.

(** An attack-state instance of the mook: consecutive ticks, one [Env]
    each, for as long as the mook is in its attack state. *)
Fixpoint Enemy_attack_instance (A : EnemyAnims) (envs : list Env) (e : Enemy)
    (target : option Player) : Enemy * option Player * list event :=
  match envs with
  | [] => (e, target, [])
  | env :: envs =>
      match e_state e with
      | E_attack =>
          let '(e, target, out) := Enemy_update A env e target in
          let '(e, target, out') := Enemy_attack_instance A envs e target in
          (e, target, out ++ out')
      | _ => (e, target, [])
      end
  end.

Lemma Enemy_update_attack_count (A : EnemyAnims) (env : Env) (e : Enemy)
    (target : option Player) :
  e_state e = E_attack ->
  let '(e', _, out) := Enemy_update A env e target in
  (enemy_attacks out <= 1)%nat
  /\ (e_damage_dealt e = true -> enemy_attacks out = 0%nat)
  /\ (e_state e' = E_attack ->
      e_damage_dealt e = true \/ enemy_attacks out = 1%nat ->
      e_damage_dealt e' = true).
Proof.
  intros Hs. pose proof (Enemy_update_attack_tick A env e target Hs) as H.
  unfold Enemy_attack_tick_spec in H.
  destruct (Enemy_update A env e target) as [[e' t'] out].
  destruct H as (Hdue & Hnot & Hover & Hstay).
  destruct (Enemy_attack_due A e) eqn:Ed.
  - specialize (Hdue eq_refl).
    assert (Hout : enemy_attacks out
                   = match target with Some _ => 1%nat | None => 0%nat end).
    { rewrite <- (Enemy_attack_player_attacks
                    (Enemy_animate (e_set_velocity_x (Enemy_update_physics e) 0%R)
                       (ea_attack A) 0.3) target (e_ui_system e)).
      now rewrite <- Hdue. }
    assert (Hd : e_damage_dealt e = false).
    { unfold Enemy_attack_due in Ed. now destruct (e_damage_dealt e). }
    repeat split.
    + rewrite Hout. destruct target; lia.
    + congruence.
    + intros He' _. destruct (Enemy_attack_over A e) eqn:Eo.
      * destruct (Hover eq_refl) as (Hr & _). congruence.
      * destruct (Hstay eq_refl) as (_ & _ & ->). now rewrite Hd.
  - destruct (Hnot eq_refl) as (_ & ->). repeat split.
    + cbn. lia.
    + intros He' [Hd|Hc]; [|discriminate Hc].
      destruct (Enemy_attack_over A e) eqn:Eo.
      * destruct (Hover eq_refl) as (Hr & _). congruence.
      * destruct (Hstay eq_refl) as (_ & _ & ->). now rewrite Hd.
Qed.

(** Once the latch is set, an attack-state instance announces no attack. *)
Lemma Enemy_attack_instance_latched (A : EnemyAnims) (envs : list Env) :
  forall (e : Enemy) (target : option Player),
    e_damage_dealt e = true ->
    enemy_attacks (snd (Enemy_attack_instance A envs e target)) = 0%nat.
Proof.
  induction envs as [|env envs IH]; intros e target Hd; [reflexivity|].
  cbn [Enemy_attack_instance].
  destruct (e_state e) eqn:Hs; try reflexivity.
  pose proof (Enemy_update_attack_count A env e target Hs) as H.
  destruct (Enemy_update A env e target) as [[e1 t1] out1].
  destruct H as (_ & H0 & Hkeep).
  specialize (IH e1 t1).
  destruct (Enemy_attack_instance A envs e1 t1) as [[e2 t2] out2] eqn:Hrun.
  cbn [snd] in *. rewrite enemy_attacks_app, (H0 Hd).
  destruct envs as [|env' envs'].
  - cbn in Hrun. now inversion Hrun.
  - destruct (e_state e1) eqn:Hs1;
      try (cbn in Hrun; rewrite Hs1 in Hrun; now inversion Hrun).
    apply IH, Hkeep; auto.
Qed.

(** The latch invariant of the mook: an attack-state instance announces at
    most one attack, however many ticks it lasts. *)
Lemma Enemy_attack_instance_once (A : EnemyAnims) (envs : list Env) :
  forall (e : Enemy) (target : option Player),
    (enemy_attacks (snd (Enemy_attack_instance A envs e target)) <= 1)%nat.
Proof.
  induction envs as [|env envs IH]; intros e target; [cbn; lia|].
  cbn [Enemy_attack_instance].
  destruct (e_state e) eqn:Hs; try (cbn; lia).
  pose proof (Enemy_update_attack_count A env e target Hs) as H.
  destruct (Enemy_update A env e target) as [[e1 t1] out1].
  destruct H as (Hle & _ & Hkeep).
  pose proof (IH e1 t1) as IH1.
  pose proof (Enemy_attack_instance_latched A envs e1 t1) as Hl.
  destruct (Enemy_attack_instance A envs e1 t1) as [[e2 t2] out2] eqn:Hrun.
  cbn [snd] in *. rewrite enemy_attacks_app.
  destruct (enemy_attacks out1) as [|[|k]] eqn:Ho; [lia| |lia].
  destruct envs as [|env' envs'].
  - cbn in Hrun. inversion Hrun. cbn. lia.
  - destruct (e_state e1) eqn:Hs1;
      try (cbn in Hrun; rewrite Hs1 in Hrun; inversion Hrun; cbn; lia).
    rewrite Hl; [lia|]. apply Hkeep; auto.
Qed.

Definition Enemy_speed (s : estate) : Q :=
  match s with
  | E_attack | E_hurt | E_die => 0.3
  | _ => 0.2
  end.

Definition Enemy_seq (A : EnemyAnims) (s : estate) : positive :=
  match s with
  | E_idle => ea_idle A
  | E_walk | E_approach | E_recover => ea_walk A
  | E_attack => ea_attack A
  | E_hurt => ea_hurt A
  | E_stun => ea_stun_frames A
  | E_die => ea_die A
  end.

Definition is_patrol (s : estate) : bool :=
  match s with
  | E_idle | E_walk | E_approach | E_recover => true
  | _ => false
  end.

Lemma Enemy_detect_cursor (e : Enemy) (target : option Player) :
  let e' := Enemy_detect e target in
  (e' = e)
  \/ (e_state e' = E_approach /\ e_frame e' = 0
      /\ (e_state e = E_idle \/ e_state e = E_walk)).
Proof.
  unfold Enemy_detect.
  destruct (e_state e) eqn:Hs, target; auto;
    destruct (_ <? _)%Z; auto; right; cbn; auto.
Qed.

Lemma Enemy_state_machine_cursor (env : Env) (e : Enemy)
    (target : option Player) (dist : Z) :
  let e' := Enemy_state_machine env e target dist in
  (e_state e' = e_state e /\ e_frame e' = e_frame e)
  \/ (e_state e' <> e_state e /\ e_frame e' = 0
      /\ (e_state e' = E_approach -> e_state e = E_recover)
      /\ (e_state e = E_approach -> e_state e' = E_attack)).
Proof.
  unfold Enemy_state_machine.
  destruct (e_state e) eqn:Hs; auto; cbn -[Qleb Z.ltb Z.leb];
    split_ifs; cbn; rewrite ?Hs; auto; right; repeat split;
    try discriminate; intros; try discriminate.
Qed.

Lemma Enemy_default_animation_cursor (A : EnemyAnims) (e : Enemy) :
  let e' := Enemy_default_animation A e in
  e_state e' = e_state e
  /\ e_frame e' = if is_patrol (e_state e)
                  then fmod (e_frame e + 0.2) (Enemy_seq A (e_state e))
                  else e_frame e.
Proof.
  unfold Enemy_default_animation. destruct (e_state e) eqn:Hs; cbn -[fmod];
    rewrite ?Hs; auto.
Qed.

(** The cursor over one tick of [Enemy.update]: without a transition it
    advances by the speed of the state, modulo the length of the
    animation; a transition leaves it at 0, or at 0 advanced once by the
    default animation of the new state. *)
Lemma Enemy_update_cursor (A : EnemyAnims) (env : Env) (e : Enemy)
    (target : option Player) :
  let e' := fst (fst (Enemy_update A env e target)) in
  (e_state e' = e_state e ->
     e_frame e' = fmod (e_frame e + Enemy_speed (e_state e))
                    (Enemy_seq A (e_state e)))
  /\ (e_state e' <> e_state e ->
        e_frame e' = 0
        \/ e_frame e' = fmod (0 + 0.2) (Enemy_seq A (e_state e'))).
Proof.
  destruct (e_state e) eqn:Hs0.
  4: { pose proof (Enemy_update_attack_tick A env e target Hs0) as H.
       unfold Enemy_attack_tick_spec in H.
       destruct (Enemy_update A env e target) as [[e' t'] out]. cbn [fst].
       destruct H as (_ & _ & Ho & Hn).
       destruct (Enemy_attack_over A e).
       - destruct (Ho eq_refl) as (H1 & H2 & _). rewrite H1, H2.
         split; [discriminate|now left].
       - destruct (Hn eq_refl) as (H1 & H2 & _). rewrite H1, H2.
         split; [reflexivity|congruence]. }
  all: destruct (Enemy_update_physics_keeps e) as (Hst & Hfr & _);
    unfold Enemy_update;
    set (e1 := Enemy_update_physics e) in *; clearbody e1;
    rewrite <- Hfr; rewrite Hs0 in Hst; clear Hfr Hs0 e; rewrite Hst.
  5-7: destruct e1; cbn in Hst; subst; cbn -[fmod Qleb len];
    split_ifs; cbn -[fmod Qleb len];
    split; intros H; try reflexivity; try congruence; auto.
  all: unfold Enemy_update_patrol; cbn [fst];
    destruct (Enemy_detect_cursor e1 target) as [Hd|(Hd1 & Hd2 & Hd3)];
    [rewrite Hd|];
    match goal with
    | |- context [Enemy_state_machine ?v ?x ?t ?d] =>
        destruct (Enemy_state_machine_cursor v x t d)
          as [(Hm1 & Hm2)|(Hm1 & Hm2 & Hm3 & Hm4)];
        destruct (Enemy_default_animation_cursor A
                    (Enemy_state_machine v x t d)) as (Ha1 & Ha2);
        set (e2 := Enemy_state_machine v x t d) in *
    end;
    rewrite Ha1, Ha2; clear Ha1 Ha2.
  all: rewrite ?Hst in *; split; intros H.
  all: try congruence.
  all: try (rewrite H, Hm2; reflexivity).
  all: try (destruct Hd3; congruence).
  all: try (specialize (Hm4 Hd1); congruence).
  all: try (rewrite Hm2; destruct (e_state e2); cbn; auto; fail).
  all: try (rewrite Hm2, Hd2, Hm1, Hd1; cbn; auto; fail).
Qed.




(** [take_damage] subtracts the damage and does not clamp the result. *)
Lemma Enemy_take_damage_health (e : Enemy) (damage : Z) (ui : bool) :
  e_state e <> E_hurt -> e_state e <> E_die -> e_state e <> E_stun ->
  let e' := fst (fst (Enemy_take_damage e damage ui)) in
  e_current_health e' = (e_current_health e - damage)%Z
  /\ e_state e' = (if (e_current_health e - damage <=? 0)%Z
                   then E_die else E_hurt).
Proof.
  intros H1 H2 H3. unfold Enemy_take_damage.
  destruct (e_state e); try congruence; cbn;
    destruct (_ <=? 0)%Z; cbn; auto.
Qed.

Lemma Enemy_take_damage_dead (e : Enemy) (damage : Z) (ui : bool) :
  e_state e = E_die -> Enemy_take_damage e damage ui = (e, [], PyNone).
Proof. intros H. unfold Enemy_take_damage. now rewrite H. Qed.

(** Ticks of a mook that has no target. *)
Fixpoint Enemy_ticks (A : EnemyAnims) (env : Env) (n : nat) (e : Enemy)
  : Enemy :=
  match n with
  | O => e
  | S n => Enemy_ticks A env n (fst (fst (Enemy_update A env e None)))
  end.

Definition anims4 : EnemyAnims := mkEnemyAnims 4 4 4 4 4 4.
Definition env0 : Env := mkEnv 0 0 0 true.

(** The mook of the scenario, and the three hits with the hurt animation
    played out (ten ticks for four frames) between them. *)
Definition mook100 : Enemy := Enemy_init env0 (426, 670)%Z.

Definition mook_after_three_hits : Enemy :=
  let e := fst (fst (Enemy_take_damage mook100 20 false)) in
  let e := Enemy_ticks anims4 env0 10 e in
  let e := fst (fst (Enemy_take_damage e 40 false)) in
  let e := Enemy_ticks anims4 env0 10 e in
  fst (fst (Enemy_take_damage e 60 false)).


(** ** The boss *)

Definition is_yori_attack (ev : event) : bool :=
  match ev with
  | Print (Msg_yori_attack_hits _) | Print Msg_yori_attack_missed => true
  | _ => false
  end.

(** How often a tick's output reports an attack of the boss, hit or
    missed, that is, how often [attack_player] ran with a target. *)
Definition yori_attacks (out : list event) : nat :=
  List.length (filter is_yori_attack out).

Lemma yori_attacks_app (a b : list event) :
  yori_attacks (a ++ b) = (yori_attacks a + yori_attacks b)%nat.
Proof. unfold yori_attacks. now rewrite filter_app, length_app. Qed.

Lemma Player_take_damage_no_yori_attack (p : Player) (d : Z) (ui : bool) :
  yori_attacks (snd (fst (Player_take_damage p d ui))) = 0%nat.
Proof.
  unfold Player_take_damage.
  destruct (p_is_dead p || pstate_eqb (p_state p) P_hurt
            || pstate_eqb (p_state p) P_death); [reflexivity|].
  destruct (pstate_eqb (p_state p) P_skill); [now destruct ui|].
  destruct (p_blocking p); [now destruct ui|].
  cbn.
  destruct (p_current_health p - d <=? 0)%Z; cbn; now destruct ui.
Qed.

Lemma Yori_attack_player_attacks (y : Yori) (t : option Player) :
  yori_attacks (snd (Yori_attack_player y t))
  = match t with Some _ => 1%nat | None => 0%nat end.
Proof.
  unfold Yori_attack_player. destruct t as [p|]; [|reflexivity].
  destruct (within_radius _ _ _); [|reflexivity].
  pose proof (Player_take_damage_no_yori_attack p (y_attack_damage y)
                (y_ui_system y)) as H.
  destruct (Player_take_damage p (y_attack_damage y) (y_ui_system y))
    as [[p' out] v].
  cbn in *. unfold yori_attacks in *. cbn. now rewrite H.
Qed.

(** The attack state with number [k]. *)
Definition Yori_attack_state (k : Z) : ystate :=
  match k with
  | 1%Z => Y_attack1
  | 2%Z => Y_attack2
  | _ => Y_attack3
  end.

(** The cursor after the advance of an attack tick, and the test that
    lets the attack branch call [attack_player]. *)
Definition Yori_attack_cursor (seq : N) (y : Yori) : Q :=
  y_frame (Yori_animate y seq 0.4).

Definition Yori_attack_due (seq : N) (y : Yori) : bool :=
  negb (y_damage_dealt y)
  && Qleb (lenN seq * y_damage_frame y) (Yori_attack_cursor seq y).

Lemma Yori_update_attack_count (k : Z) (seq : N) (A : YoriAnims) (env : Env)
    (y : Yori) (target : option Player) (dist : Z) :
  (k = 1 \/ k = 2 \/ k = 3)%Z ->
  y_state y = Yori_attack_state k ->
  let '(y', _, out) := Yori_update_attack k seq A env y target dist in
  (yori_attacks out <= 1)%nat
  /\ (y_damage_dealt y = true -> yori_attacks out = 0%nat)
  /\ y_should_use_skill y' = y_should_use_skill y
  /\ y_is_active y' = y_is_active y
  /\ (y_state y' = Yori_attack_state k ->
      y_damage_dealt y = true \/ yori_attacks out = 1%nat ->
      y_damage_dealt y' = true).
Proof.
  intros Hk Hs. unfold Yori_update_attack.
  destruct (match target with
            | Some p => is_int (p_state p) | None => false end).
  { destruct y; cbn in Hs; subst; destruct Hk as [->|[->| ->]]; cbn;
      repeat apply conj; fin. }
  destruct (Yori_ATTACK_STOP_DIST <? dist)%Z.
  { destruct y; cbn in Hs; subst; destruct Hk as [->|[->| ->]]; cbn;
      repeat apply conj; fin. }
  match goal with |- context [if ?c then _ else _] => destruct c end.
  { destruct y, (ya_idle A); cbn in Hs; subst;
      destruct Hk as [->|[->| ->]]; cbn;
      repeat apply conj; fin. }
  set (y1 := Yori_animate (y_set_velocity_x y 0%R) seq 0.4).
  assert (H1 : y_damage_dealt y1 = y_damage_dealt y
               /\ y_state y1 = y_state y
               /\ y_should_use_skill y1 = y_should_use_skill y
               /\ y_is_active y1 = y_is_active y).
  { subst y1. unfold Yori_animate. destruct seq; repeat split. }
  destruct H1 as (Hd1 & Hs1 & Hu1 & Ha1). clearbody y1.
  rewrite <- Hd1, <- Hu1, <- Ha1. rewrite <- Hs1 in Hs.
  clear Hd1 Hs1 Hu1 Ha1 y.
  destruct (negb (y_damage_dealt y1)
            && Qleb (lenN seq * y_damage_frame y1) (y_frame y1)) eqn:Hdue.
  - pose proof (Yori_attack_player_attacks y1 target) as Hc.
    destruct (Yori_attack_player y1 target) as [t' out]. cbn [snd] in Hc.
    assert (Hd : y_damage_dealt y1 = false)
      by (destruct (y_damage_dealt y1); [discriminate|reflexivity]).
    assert (Hle : (yori_attacks out <= 1)%nat) by (destruct target; lia).
    clear Hc Hdue.
    destruct y1; cbn in Hs, Hd; subst;
      destruct Hk as [->|[->| ->]]; cbn -[Qleb lenN];
      repeat (progress (split_ifs; cbn -[Qleb lenN]));
      repeat apply conj; fin.
  - destruct y1; cbn in Hs; subst;
      destruct Hk as [->|[->| ->]]; cbn -[Qleb lenN] in *;
      repeat (progress (split_ifs; cbn -[Qleb lenN]));
      repeat apply conj; fin.
Qed.

(** The attributes that the physics prefix of [Yori.update] leaves
    alone. *)
Definition Yori_same (y y1 : Yori) : Prop :=
  y_state y1 = y_state y /\ y_frame y1 = y_frame y
  /\ y_damage_dealt y1 = y_damage_dealt y
  /\ y_damage_frame y1 = y_damage_frame y
  /\ y_should_use_skill y1 = y_should_use_skill y
  /\ y_is_active y1 = y_is_active y
  /\ y_current_health y1 = y_current_health y
  /\ y_is_in_knockback y1 = y_is_in_knockback y
  /\ y_block_time y1 = y_block_time y
  /\ y_block_duration y1 = y_block_duration y
  /\ y_knockback_duration y1 = y_knockback_duration y
  /\ y_knockback_start_velocity y1 = y_knockback_start_velocity y
  /\ y_dir y1 = y_dir y.

Lemma Yori_same_refl (y : Yori) : Yori_same y y.
Proof. repeat split. Qed.

Lemma Yori_same_trans (a b c : Yori) :
  Yori_same a b -> Yori_same b c -> Yori_same a c.
Proof.
  unfold Yori_same. intros H1 H2.
  repeat match goal with H : _ /\ _ |- _ => destruct H end.
  repeat split; etransitivity; eassumption.
Qed.

Lemma Yori_update_physics_same (env : Env) (y : Yori)
    (target : option Player) :
  y_should_use_skill y = false ->
  Yori_same y (Yori_update_physics env y target).
Proof.
  intros H. unfold Yori_update_physics.
  assert (H1 : Yori_same y (Yori_tick_skill_cooldown y)).
  { unfold Yori_tick_skill_cooldown.
    destruct (Qltb 0 (y_skill_cooldown y)); repeat split. }
  set (y1 := Yori_tick_skill_cooldown y) in *. clearbody y1.
  assert (H2 : Yori_use_queued_skill env y1 target = y1).
  { unfold Yori_use_queued_skill.
    destruct H1 as (_ & _ & _ & _ & -> & _). now rewrite H. }
  cbv zeta. rewrite H2.
  eapply Yori_same_trans; [exact H1|]. clear H H1 H2 y.
  set (y2 := set_y_rigid_body y1 _).
  assert (H2 : Yori_same y1 y2) by (repeat split).
  eapply Yori_same_trans; [exact H2|]. clearbody y2. clear H2 y1.
  assert (H3 : Yori_same y2 (Yori_resolve_ground y2)).
  { unfold Yori_resolve_ground. destruct (y_ground_y y2); [|repeat split].
    set (y3 := set_y_rigid_body y2 _).
    assert (H3 : Yori_same y2 y3) by (repeat split).
    eapply Yori_same_trans; [exact H3|]. clearbody y3.
    unfold Yori_keep_on_ground.
    destruct (RigidBody.is_grounded (y_rigid_body y3)); repeat split. }
  eapply Yori_same_trans; [exact H3|].
  set (y4 := Yori_resolve_ground y2). clearbody y4.
  unfold Yori_sync_sprite, Yori_update_attack_point.
  match goal with
  | |- context [if ?c then _ else _] => destruct c
  end; repeat split.
Qed.

(** One tick of [Yori.update] that starts in attack [k]. *)
Lemma Yori_update_attack_tick (k : Z) (A : YoriAnims) (env : Env)
    (y : Yori) (target : option Player) :
  (k = 1 \/ k = 2 \/ k = 3)%Z ->
  y_state y = Yori_attack_state k ->
  y_should_use_skill y = false ->
  let '(y', _, out) := Yori_update A env y target in
  (yori_attacks out <= 1)%nat
  /\ (y_damage_dealt y = true -> yori_attacks out = 0%nat)
  /\ y_should_use_skill y' = false
  /\ (y_state y' = Yori_attack_state k ->
      y_damage_dealt y = true \/ yori_attacks out = 1%nat ->
      y_damage_dealt y' = true).
Proof.
  intros Hk Hs Hu.
  pose proof (Yori_update_physics_same env y target Hu)
    as (Hs1 & _ & Hd1 & _ & Hu1 & Ha1 & _).
  unfold Yori_update. cbv zeta.
  set (y1 := Yori_update_physics env y target) in *. clearbody y1.
  rewrite Hu in Hu1. rewrite <- Hd1, <- Ha1. rewrite <- Hs1 in Hs.
  clear Hs1 Hd1 Ha1 Hu y.
  destruct (negb (Yori_alive y1) && negb (ystate_eqb (y_state y1) Y_die)).
  { cbn. repeat apply conj; fin. }
  destruct (negb (y_is_active y1)).
  { unfold Yori_animate. destruct (ya_idle A); cbn;
      repeat apply conj; fin;
      destruct Hk as [->|[->| ->]]; discriminate. }
  pose proof (Yori_update_attack_count k
                (match k with
                 | 1%Z => ya_attack1 A | 2%Z => ya_attack2 A
                 | _ => ya_attack3 A end)
                A env y1 target (Yori_dist y1 target) Hk Hs) as H.
  rewrite Hs.
  destruct Hk as [->|[->| ->]]; cbn [Yori_attack_state] in *;
    match goal with
    | |- context [Yori_update_attack ?a ?b ?c ?d ?e ?f ?g] =>
        destruct (Yori_update_attack a b c d e f g) as [[y' t'] out]
    end;
    destruct H as (H1 & H2 & H3 & _ & H5);
    repeat apply conj; auto; congruence.
Qed.

(** An attack-state instance of the boss: consecutive ticks for as long
    as the boss is in the attack state [s]. *)
Fixpoint Yori_attack_instance (s : ystate) (A : YoriAnims)
    (envs : list Env) (y : Yori) (target : option Player)
  : Yori * option Player * list event :=
  match envs with
  | [] => (y, target, [])
  | env :: envs =>
      if ystate_eqb (y_state y) s then
        let '(y, target, out) := Yori_update A env y target in
        let '(y, target, out') := Yori_attack_instance s A envs y target in
        (y, target, out ++ out')
      else (y, target, [])
  end.

Lemma ystate_eqb_eq (a b : ystate) : ystate_eqb a b = true <-> a = b.
Proof. destruct a, b; cbn; split; intros; congruence. Qed.

Lemma Yori_attack_instance_latched (k : Z) (A : YoriAnims)
    (envs : list Env) :
  (k = 1 \/ k = 2 \/ k = 3)%Z ->
  forall (y : Yori) (target : option Player),
    y_should_use_skill y = false ->
    y_damage_dealt y = true ->
    yori_attacks
      (snd (Yori_attack_instance (Yori_attack_state k) A envs y target))
    = 0%nat.
Proof.
  intros Hk.
  induction envs as [|env envs IH]; intros y target Hu Hd; [reflexivity|].
  cbn [Yori_attack_instance].
  destruct (ystate_eqb (y_state y) (Yori_attack_state k)) eqn:Hs;
    [|reflexivity].
  apply ystate_eqb_eq in Hs.
  pose proof (Yori_update_attack_tick k A env y target Hk Hs Hu) as H.
  destruct (Yori_update A env y target) as [[y1 t1] out1].
  destruct H as (_ & H0 & Hu1 & Hkeep).
  specialize (IH y1 t1 Hu1).
  destruct (Yori_attack_instance (Yori_attack_state k) A envs y1 t1)
    as [[y2 t2] out2] eqn:Hrun.
  cbn [snd] in *. rewrite yori_attacks_app, (H0 Hd).
  destruct envs as [|env' envs'].
  - cbn in Hrun. now inversion Hrun.
  - cbn [Yori_attack_instance] in Hrun.
    destruct (ystate_eqb (y_state y1) (Yori_attack_state k)) eqn:Hs1.
    + apply ystate_eqb_eq in Hs1. apply IH, Hkeep; auto.
    + now inversion Hrun.
Qed.

(** The latch invariant of the boss: an attack-state instance reports at
    most one attack. *)
Lemma Yori_attack_instance_once (k : Z) (A : YoriAnims) (envs : list Env) :
  (k = 1 \/ k = 2 \/ k = 3)%Z ->
  forall (y : Yori) (target : option Player),
    y_should_use_skill y = false ->
    (yori_attacks
       (snd (Yori_attack_instance (Yori_attack_state k) A envs y target))
     <= 1)%nat.
Proof.
  intros Hk.
  induction envs as [|env envs IH]; intros y target Hu; [cbn; lia|].
  cbn [Yori_attack_instance].
  destruct (ystate_eqb (y_state y) (Yori_attack_state k)) eqn:Hs;
    [|cbn; lia].
  apply ystate_eqb_eq in Hs.
  pose proof (Yori_update_attack_tick k A env y target Hk Hs Hu) as H.
  destruct (Yori_update A env y target) as [[y1 t1] out1].
  destruct H as (Hle & _ & Hu1 & Hkeep).
  pose proof (IH y1 t1 Hu1) as IH1.
  pose proof (Yori_attack_instance_latched k A envs Hk y1 t1 Hu1) as Hl.
  destruct (Yori_attack_instance (Yori_attack_state k) A envs y1 t1)
    as [[y2 t2] out2] eqn:Hrun.
  cbn [snd] in *. rewrite yori_attacks_app.
  destruct (yori_attacks out1) as [|[|n]] eqn:Ho; [lia| |lia].
  destruct envs as [|env' envs'].
  - cbn in Hrun. inversion Hrun. cbn. lia.
  - cbn [Yori_attack_instance] in Hrun.
    destruct (ystate_eqb (y_state y1) (Yori_attack_state k)) eqn:Hs1.
    + apply ystate_eqb_eq in Hs1. rewrite Hl; [lia|]. apply Hkeep; auto.
    + inversion Hrun. cbn. lia.
Qed.

(** When the attack branch reaches its animation (the player is not
    attacking, is in range, and the pause before attacks 2 and 3 is
    over), [attack_player] runs exactly when the latch is unset and the
    advanced cursor has reached [len * damage_frame]. *)
Definition Yori_attack_fires_spec (k : Z) (seq : N) (A : YoriAnims)
    (env : Env) (y : Yori) (target : option Player) (dist : Z) : Prop :=
  let '(_, target', out) := Yori_update_attack k seq A env y target dist in
  (Yori_attack_due seq y = true ->
     (target', out)
     = Yori_attack_player (Yori_animate (y_set_velocity_x y 0%R) seq 0.4)
         target)
  /\ (Yori_attack_due seq y = false -> target' = target /\ out = []).

Lemma Yori_update_attack_fires (k : Z) (seq : N) (A : YoriAnims) (env : Env)
    (y : Yori) (target : option Player) (dist : Z) :
  match target with Some p => is_int (p_state p) | None => false end = false ->
  (Yori_ATTACK_STOP_DIST <? dist)%Z = false ->
  negb (k =? 1)%Z && Qltb (now env) (y_next_action_time y) = false ->
  Yori_attack_fires_spec k seq A env y target dist.
Proof.
  intros H1 H2 H3. unfold Yori_attack_fires_spec, Yori_update_attack,
    Yori_attack_due, Yori_attack_cursor.
  rewrite H1, H2.
  replace (y_next_action_time (y_set_velocity_x y 0%R))
    with (y_next_action_time y) by reflexivity.
  rewrite H3.
  set (y1 := Yori_animate (y_set_velocity_x y 0%R) seq 0.4).
  assert (E : y_damage_dealt y1 = y_damage_dealt y
              /\ y_damage_frame y1 = y_damage_frame y
              /\ y_frame y1 = y_frame (Yori_animate y seq 0.4)).
  { subst y1. unfold Yori_animate. destruct seq; repeat split. }
  destruct E as (E1 & E2 & E3). rewrite <- E1, <- E2, <- E3. clearbody y1.
  destruct (negb (y_damage_dealt y1)
            && Qleb (lenN seq * y_damage_frame y1) (y_frame y1)).
  - destruct (Yori_attack_player y1 target) as [t' out].
    split; [reflexivity|discriminate].
  - split; [discriminate|]. intros _. split; reflexivity.
Qed.

(** The boss of the scenarios: active, in its first attack, at a given
    health. *)
Definition boss (health : Z) : Yori :=
  let y := Yori_init (900, 670)%Z in
  let y := set_y_current_health y health in
  set_y_state y Y_attack1.

Definition always_hit : Env := mkEnv 0 0 0 true.

(** At 60% of its health the boss is above its threshold of 55%: the
    draw is not looked at, the hit costs health and the attack goes on. *)
Lemma boss_at_60_percent_loses_health :
  (Yori_health_percentage (boss 300) == 0.6)%Q
  /\ (random01 always_hit < y_counter_attack_chance (boss 300))%Q
  /\ y_state (boss 300) = Y_attack1
  /\ (let '(y', out, _) :=
        Yori_take_damage always_hit (boss 300) None 20 false in
      y_state y' = Y_attack1
      /\ y_state y' <> Y_counter
      /\ y_current_health y' = 280%Z
      /\ out = [Print (Msg_yori_took 20 280)]).
Proof.
  vm_compute. repeat apply conj; try reflexivity. discriminate.
Qed.

(** C6, amended.  Below the threshold (55% of the health for the boss as
    constructed), in one of the three attack states and with a draw below
    the counter chance, [take_damage] starts the counter attack and
    leaves the health as it was: the damage is dropped. *)
Theorem Yori_take_damage_counters_below_threshold (env : Env) (y : Yori)
    (target : option Player) (damage : Z) (ui_system : bool) :
  Yori_attacking (y_state y) = true ->
  (Yori_health_percentage y < y_low_health_threshold y)%Q ->
  (random01 env < y_counter_attack_chance y)%Q ->
  let '(y', out, _) := Yori_take_damage env y target damage ui_system in
  y_state y' = Y_counter
  /\ y_current_health y' = y_current_health y
  /\ y_frame y' = 0
  /\ y_damage_dealt y' = false
  /\ out = [Print Msg_yori_counters].
Proof.
  intros Ha Hh Hr. unfold Yori_take_damage.
  apply Qltb_lt in Hh. apply Qltb_lt in Hr.
  destruct (y_state y) eqn:Hs; try discriminate Ha;
    rewrite Hh, Hr; cbn [andb Yori_attacking];
    unfold Yori_start_counter_attack, Yori_face_player; rewrite Hs;
    destruct target as [p|];
    try destruct (y_rect_centerx _ <? p_rect_centerx p)%Z;
    repeat apply conj; reflexivity.
Qed.

Lemma Yori_take_damage_counters_below_threshold_witness :
  let '(y', out, _) := Yori_take_damage always_hit (boss 250) None 20 false in
  y_state y' = Y_counter
  /\ y_current_health y' = y_current_health (boss 250)
  /\ y_frame y' = 0
  /\ y_damage_dealt y' = false
  /\ out = [Print Msg_yori_counters].
Proof.
  apply (Yori_take_damage_counters_below_threshold
           always_hit (boss 250) None 20 false); reflexivity.
Defined.




(** ** The player *)

Section CounterWindow.

Variables (EA : EnemyAnims) (YA : YoriAnims).

Local Open Scope Q_scope.

(** Against a mook the window is open at both ends. *)
Lemma check_counter_timing_mook (w : World) (e : Enemy) :
  Player_target w = Some (Obj_enemy e) ->
  Player_check_counter_timing EA YA w = true
  <-> e_state e = E_attack
      /\ len (ea_attack EA) * 0.3 < e_frame e
      /\ e_frame e < len (ea_attack EA) * 0.7
      /\ e_damage_dealt e = false.
Proof.
  intros Ht. unfold Player_check_counter_timing. rewrite Ht.
  destruct (e_state e); try (split; [discriminate|intros (H & _); discriminate]).
  rewrite !andb_true_iff, negb_true_iff, !Qltb_lt. tauto.
Qed.

(** The frame list of the boss's attack state. *)
Definition Yori_attack_frames (s : ystate) : option N :=
  match s with
  | Y_attack1 => Some (ya_attack1 YA)
  | Y_attack2 => Some (ya_attack2 YA)
  | Y_attack3 => Some (ya_attack3 YA)
  | _ => None
  end.

(** Against the boss the window is closed at both ends. *)
Lemma check_counter_timing_boss (w : World) (y : Yori) :
  Player_target w = Some (Obj_yori y) ->
  Player_check_counter_timing EA YA w = true
  <-> exists n, Yori_attack_frames (y_state y) = Some n
      /\ lenN n * 0.3 <= y_frame y
      /\ y_frame y <= lenN n * 0.7
      /\ y_damage_dealt y = false.
Proof.
  intros Ht. unfold Player_check_counter_timing, Yori_attack_frames.
  rewrite Ht.
  destruct (y_state y);
    try (split; [discriminate|intros (n & H & _); discriminate]).
  all: rewrite !andb_true_iff, negb_true_iff, !Qleb_le; split;
    [ intros ((H1 & H2) & H3); eexists; repeat split; eauto
    | intros (n & Hn & H1 & H2 & H3); inversion Hn; subst; tauto ].
Qed.

Lemma store_player (w : World) (r : target_ref) (o : target_obj) :
  w_player (store w r o) = w_player w.
Proof. destruct r, o; reflexivity. Qed.

Lemma Player_face_target_keeps (p : Player) (t : option target_obj) :
  p_counter_success (Player_face_target p t) = p_counter_success p
  /\ p_state (Player_face_target p t) = p_state p
  /\ p_target (Player_face_target p t) = p_target p.
Proof. unfold Player_face_target. destruct t; repeat split. Qed.

Lemma Player_perform_counter_player (env : Env) (w : World) :
  p_counter_success (w_player (Player_perform_counter env w)) = true
  /\ p_state (w_player (Player_perform_counter env w)) = P_counter.
Proof.
  unfold Player_perform_counter. cbv zeta.
  match goal with
  | |- context [Player_face_target ?p ?t] =>
      destruct (Player_face_target_keeps p t) as (H1 & H2 & _);
      set (p2 := Player_face_target p t) in *
  end.
  change (p_counter_success p2 = true) in H1.
  change (p_state p2 = P_counter) in H2.
  destruct (p_target p2);
    [destruct (Player_target (set_w_player w p2)) as [[e|y]|]|];
    rewrite ?store_player; split; assumption.
Qed.

(** A counter attempt that is not held back by the 500 ms between
    attempts succeeds exactly when [check_counter_timing] says so. *)
Lemma Player_counter_attempt_succeeds (env : Env) (w : World)
    (r : target_ref) :
  p_is_dead (w_player w) = false ->
  p_state (w_player w) <> P_hurt -> p_state (w_player w) <> P_death ->
  p_blocking (w_player w) = true -> p_countering (w_player w) = false ->
  (500 <= ticks env - p_last_counter_time (w_player w))%Z ->
  p_target (w_player w) = Some r ->
  exists w' out,
    Player_counter_attempt EA YA env w = Some (w', out)
    /\ p_counter_success (w_player w') = Player_check_counter_timing EA YA w
    /\ p_state (w_player w') = P_counter.
Proof.
  intros Hd Hh Hde Hb Hc Ht Hr. unfold Player_counter_attempt.
  rewrite Hd, Hb, Hc.
  assert (E1 : pstate_eqb (p_state (w_player w)) P_hurt = false)
    by (destruct (p_state (w_player w)); try reflexivity; congruence).
  assert (E2 : pstate_eqb (p_state (w_player w)) P_death = false)
    by (destruct (p_state (w_player w)); try reflexivity; congruence).
  rewrite E1, E2. cbn [orb andb negb].
  apply Z.ltb_ge in Ht. rewrite Ht.
  set (w1 := set_w_player w _).
  assert (Hr1 : p_target (w_player w1) = Some r) by exact Hr.
  assert (Hw1 : Player_check_counter_timing EA YA w1
                = Player_check_counter_timing EA YA w) by reflexivity.
  rewrite Hr1, Hw1. cbn [andb].
  destruct (Player_check_counter_timing EA YA w).
  - eexists _, _. split; [reflexivity|].
    apply Player_perform_counter_player.
  - eexists _, _. split; [reflexivity|]. unfold Player_counter_failed.
    cbn [fst w_player set_w_player]. unfold Player_face_target.
    destruct (Player_target w1); split; reflexivity.
Qed.

End CounterWindow.

(** The player holding a block, with the boss or the first mook as its
    target. *)
Definition blocking_player (r : target_ref) : Player :=
  let p := Player_init (640, 670)%Z in
  let p := set_p_target p (Some r) in
  let p := set_p_blocking p true in
  let p := set_p_block_animation_state p B_holding in
  set_p_state p P_block.

Definition anims10 : YoriAnims :=
  mkYoriAnims 10 10 10 10 10 10 10 10 10 10 10 10.

Definition mook_anims10 : EnemyAnims := mkEnemyAnims 10 10 10 10 10 10.

(** The boss in its first attack, the cursor on frame [f] of 10. *)
Definition boss_attacking (f : Q) : Yori :=
  set_y_frame (set_y_state (Yori_init (900, 670)%Z) Y_attack1) f.

(** A mook in its attack, the cursor on frame [f] of 10. *)
Definition mook_attacking (f : Q) : Enemy :=
  set_e_frame
    (set_e_state (Enemy_init (mkEnv 0 0 0 true) (900, 670)%Z) E_attack) f.

Definition facing_boss (f : Q) : World :=
  mkWorld (blocking_player Ref_yori) [] (boss_attacking f).

Definition facing_mook (f : Q) : World :=
  mkWorld (blocking_player (Ref_enemy 0)) [mook_attacking f]
    (Yori_init (2000, 670)%Z).

Definition attempt_at_1s : Env := mkEnv 1 1000 0 true.

Definition counter_succeeds (w : World) : bool :=
  match Player_counter_attempt mook_anims10 anims10 attempt_at_1s w with
  | Some (w', _) => p_counter_success (w_player w')
  | None => false
  end.

(** C1.  Inside the window the counter succeeds against mook and boss,
    outside it fails against both; on the edges 0.3 * N and 0.7 * N it
    fails against the mook and succeeds against the boss. *)
Theorem boss_counter_succeeds_on_window_edge :
  (counter_succeeds (facing_mook 2.9) = false
   /\ counter_succeeds (facing_mook 3.1) = true
   /\ counter_succeeds (facing_mook 7.1) = false
   /\ counter_succeeds (facing_boss 2.9) = false
   /\ counter_succeeds (facing_boss 3.1) = true
   /\ counter_succeeds (facing_boss 7.1) = false)
  /\ (counter_succeeds (facing_mook 3) = false
      /\ counter_succeeds (facing_mook 7) = false)
  /\ (Player_check_counter_timing mook_anims10 anims10 (facing_boss 3) = true
      /\ counter_succeeds (facing_boss 3) = true
      /\ counter_succeeds (facing_boss 7) = true).
Proof. vm_compute. repeat apply conj; reflexivity. Qed.

(** How often an output reports damage taken by a mook or by the boss. *)
Definition is_took (ev : event) : bool :=
  match ev with
  | Print (Msg_enemy_took _ _) | Print (Msg_yori_took _ _) => true
  | _ => false
  end.

Definition damage_reports (out : list event) : nat :=
  List.length (filter is_took out).

Lemma damage_reports_app (a b : list event) :
  damage_reports (a ++ b) = (damage_reports a + damage_reports b)%nat.
Proof. unfold damage_reports. now rewrite filter_app, length_app. Qed.

Lemma target_take_damage_reports (env : Env) (p : Player) (o : target_obj)
    (damage : Z) (ui : bool) :
  (damage_reports (snd (target_take_damage env p o damage ui)) <= 1)%nat.
Proof.
  destruct o as [e|y]; unfold target_take_damage.
  - unfold Enemy_take_damage.
    destruct (e_state e); cbn; try lia;
      destruct (_ <=? 0)%Z; destruct ui; cbn; lia.
  - unfold Yori_take_damage.
    destruct (y_state y); cbn -[Qltb Qleb]; try lia.
    all: repeat match goal with
           | |- context [if ?c then _ else _] => destruct c
           end; cbn; lia.
Qed.

(** One click reports damage at most once per member of [all_enemies]. *)
Lemma Player_hit_all_reports (env : Env) (damage : Z)
    (refs : list target_ref) :
  forall w,
    (damage_reports (snd (Player_hit_all env damage refs w))
     <= List.length refs)%nat.
Proof.
  induction refs as [|r refs IH]; intros w; [cbn; lia|].
  cbn [Player_hit_all List.length].
  destruct (lookup w r) as [enemy|].
  - destruct (Player_check_attack_hit (w_player w) enemy).
    + pose proof (target_take_damage_reports env (w_player w) enemy damage
                    (p_ui_system (w_player w))) as H.
      destruct (target_take_damage env (w_player w) enemy damage
                  (p_ui_system (w_player w))) as [enemy' out].
      specialize (IH (store w r enemy')).
      destruct (Player_hit_all env damage refs (store w r enemy'))
        as [[w' n] out'].
      cbn [snd] in *. rewrite damage_reports_app. lia.
    + specialize (IH w).
      destruct (Player_hit_all env damage refs w) as [[w' n] out'].
      cbn [snd app] in *. lia.
  - specialize (IH w).
    destruct (Player_hit_all env damage refs w) as [[w' n] out'].
    cbn [snd app] in *. lia.
Qed.

Definition click_targets (p : Player) : nat :=
  match p_all_enemies p with
  | Some (r :: refs) => List.length (r :: refs)
  | _ => 1%nat
  end.

(** [Player.click] reports damage at most once per enemy it can reach:
    once per member of [all_enemies], or once for the target. *)
Lemma Player_click_reports (env : Env) (w : World) :
  (damage_reports (snd (Player_click env w)) <= click_targets (w_player w))%nat.
Proof.
  assert (Hpos : (0 <= click_targets (w_player w))%nat) by lia.
  unfold Player_click.
  destruct (p_counter_ready (w_player w)); [cbn; lia|].
  match goal with |- context [if ?c then _ else _] => destruct c end;
    [cbn; lia|].
  match goal with |- context [if ?c then _ else _] => destruct c end;
    [cbn; lia|].
  match goal with |- context [if ?c then _ else _] => destruct c end;
    [cbn; lia|].
  cbv zeta.
  match goal with
  | |- context [set_p_last_attack_time ?x ?t] =>
      set (p1 := set_p_last_attack_time x t)
  end.
  assert (Hall : p_all_enemies p1 = p_all_enemies (w_player w)).
  { subst p1. destruct (p_state (w_player w)); try reflexivity.
    repeat match goal with
           | |- context [if ?c then _ else _] => destruct c
           end; reflexivity. }
  unfold click_targets. rewrite <- Hall. clearbody p1.
  destruct (p_all_enemies p1) as [[|r refs]|].
  - destruct (p_target p1); [|cbn; lia].
    destruct (Player_target (set_w_player w p1)); [|cbn; lia].
    destruct (Player_check_attack_hit p1 t0); [|cbn; lia].
    pose proof (target_take_damage_reports env p1 t0
                  (attack_damage (p_state p1)) (p_ui_system p1)) as H.
    destruct (target_take_damage env p1 t0 (attack_damage (p_state p1))
                (p_ui_system p1)) as [enemy out].
    cbn [snd] in *. rewrite damage_reports_app. cbn. lia.
  - pose proof (Player_hit_all_reports env (attack_damage (p_state p1))
                  (r :: refs) (set_w_player w p1)) as H.
    destruct (Player_hit_all env (attack_damage (p_state p1)) (r :: refs)
                (set_w_player w p1)) as [[w' n] out].
    cbn [snd] in *. rewrite damage_reports_app.
    destruct (0 <? n)%Z; cbn in *; lia.
  - destruct (p_target p1); [|cbn; lia].
    destruct (Player_target (set_w_player w p1)); [|cbn; lia].
    destruct (Player_check_attack_hit p1 t0); [|cbn; lia].
    pose proof (target_take_damage_reports env p1 t0
                  (attack_damage (p_state p1)) (p_ui_system p1)) as H.
    destruct (target_take_damage env p1 t0 (attack_damage (p_state p1))
                (p_ui_system p1)) as [enemy out].
    cbn [snd] in *. rewrite damage_reports_app. cbn. lia.
Qed.

(** The first click of a fight: the player at 640, a fresh mook at 700 in
    [all_enemies], 400 ms after the start. *)
Definition first_click : Env := mkEnv 0.4 400 0 true.

Definition before_first_click : World :=
  let p := Player_init (640, 670)%Z in
  let p := set_p_all_enemies p (Some [Ref_enemy 0; Ref_yori]) in
  mkWorld p [Enemy_init (mkEnv 0 0 0 true) (700, 670)%Z]
    (Yori_init (5000, 670)%Z).

Definition after_first_click : World :=
  fst (Player_click first_click before_first_click).

(** The click itself hits: the mook has lost 20 health while the player's
    cursor is at 0, below every positive fraction of every animation
    length; no tick and no latch is involved. *)
Lemma player_click_damages_at_frame_0 :
  p_state (w_player before_first_click) = P_idle
  /\ p_state (w_player after_first_click) = P_attack 1
  /\ p_frame (w_player after_first_click) = 0
  /\ option_map e_current_health (nth_error (w_enemies after_first_click) 0)
     = Some 80%Z
  /\ option_map e_state (nth_error (w_enemies after_first_click) 0)
     = Some E_hurt
  /\ (forall (N : positive) (fraction : Q),
        (0 < fraction)%Q ->
        ~ (len N * fraction <= p_frame (w_player after_first_click))%Q).
Proof.
  assert (H0 : p_frame (w_player after_first_click) = 0)
    by (vm_compute; reflexivity).
  repeat apply conj; try (vm_compute; reflexivity).
  intros N fraction Hf. rewrite H0. apply Qlt_not_le.
  apply Qmult_lt_0_compat; [apply len_pos|exact Hf].
Qed.












(** What [take_damage] did, as its side effects show it. *)
Inductive outcome := Applied | Blocked | Missed | Countered | Ignored.

Definition Player_outcome (p : Player) : outcome :=
  if p_is_dead p || pstate_eqb (p_state p) P_hurt
     || pstate_eqb (p_state p) P_death then Ignored
  else if pstate_eqb (p_state p) P_skill then Missed
  else if p_blocking p then Blocked
  else Applied.

Definition Enemy_outcome (e : Enemy) : outcome :=
  match e_state e with
  | E_hurt | E_die | E_stun => Ignored
  | _ => Applied
  end.

Definition Yori_outcome (env : Env) (y : Yori) : outcome :=
  match y_state y with
  | Y_counter_wait => Countered
  | Y_die => Ignored
  | _ =>
      if Qltb (Yori_health_percentage y) (y_low_health_threshold y)
         && Yori_attacking (y_state y)
         && Qltb (random01 env) (y_counter_attack_chance y)
      then Countered else Applied
  end.

(** The first console line of a call. *)
Definition first_line (out : list event) : option message :=
  match out with
  | Print m :: _ => Some m
  | _ => None
  end.

Definition Player_take_damage_spec (p : Player) (damage : Z) (ui : bool) : Prop :=
  let '(p', out, value) := Player_take_damage p damage ui in
  value = PyNone
  /\ match Player_outcome p with
     | Ignored => p' = p /\ out = []
     | Missed => p' = p /\ first_line out = Some (Msg_player_invincible damage)
     | Blocked => p' = p /\ first_line out = Some (Msg_player_blocked damage)
     | Applied =>
         first_line out
         = Some (Msg_player_took damage (p_current_health p - damage))
         /\ p_current_health p' = Z.max 0 (p_current_health p - damage)
         /\ p_state p' = (if (p_current_health p - damage <=? 0)%Z
                          then P_death else P_hurt)
     | Countered => False
     end.

Lemma Player_take_damage_outcome (p : Player) (damage : Z) (ui : bool) :
  Player_take_damage_spec p damage ui.
Proof.
  unfold Player_take_damage_spec.
  unfold Player_take_damage, Player_outcome.
  destruct (p_is_dead p || pstate_eqb (p_state p) P_hurt
            || pstate_eqb (p_state p) P_death); [repeat split|].
  destruct (pstate_eqb (p_state p) P_skill); [repeat split|].
  destruct (p_blocking p); [repeat split|].
  cbn -[Z.leb Z.max].
  destruct (p_current_health p - damage <=? 0)%Z eqn:E; cbn -[Z.max];
    repeat split.
  - apply Z.leb_le in E. lia.
  - apply Z.leb_gt in E. lia.
Qed.

Definition Enemy_take_damage_spec (e : Enemy) (damage : Z) (ui : bool) : Prop :=
  let '(e', out, value) := Enemy_take_damage e damage ui in
  value = PyNone
  /\ match Enemy_outcome e with
     | Applied =>
         first_line out
         = Some (Msg_enemy_took damage (e_current_health e - damage))
         /\ e_current_health e' = (e_current_health e - damage)%Z
         /\ e_state e' = (if (e_current_health e - damage <=? 0)%Z
                          then E_die else E_hurt)
     | _ => e' = e /\ out = []
     end.

Lemma Enemy_take_damage_outcome (e : Enemy) (damage : Z) (ui : bool) :
  Enemy_take_damage_spec e damage ui.
Proof.
  unfold Enemy_take_damage_spec.
  unfold Enemy_take_damage, Enemy_outcome.
  destruct (e_state e); cbn -[Z.leb]; try (repeat split; fail);
    destruct (e_current_health e - damage <=? 0)%Z; repeat split.
Qed.

Definition Yori_take_damage_spec (env : Env) (y : Yori)
    (target : option Player) (damage : Z) (ui : bool) : Prop :=
  let '(y', out, value) := Yori_take_damage env y target damage ui in
  value = PyNone
  /\ match Yori_outcome env y with
     | Countered =>
         y_state y' = Y_counter /\ y_current_health y' = y_current_health y
         /\ (first_line out = Some Msg_yori_parries
             \/ first_line out = Some Msg_yori_counters)
     | Applied =>
         first_line out
         = Some (Msg_yori_took damage (y_current_health y - damage))
         /\ y_current_health y' = Z.max 0 (y_current_health y - damage)
     | _ => y' = y /\ out = []
     end.

Lemma Yori_take_damage_outcome (env : Env) (y : Yori)
    (target : option Player) (damage : Z) (ui : bool) :
  Yori_take_damage_spec env y target damage ui.
Proof.
  unfold Yori_take_damage_spec.
  unfold Yori_take_damage, Yori_outcome.
  assert (Hc : forall y0, y_state y0 <> Y_die ->
             y_state (Yori_start_counter_attack env y0 target) = Y_counter
             /\ y_current_health (Yori_start_counter_attack env y0 target)
                = y_current_health y0).
  { intros y0 H0. unfold Yori_start_counter_attack, Yori_face_player.
    destruct (y_state y0); try congruence;
      destruct target as [p|];
      try destruct (y_rect_centerx _ <? p_rect_centerx p)%Z;
      split; reflexivity. }
  destruct (y_state y) eqn:Hs; try (repeat split; fail).
  all: try (destruct (Hc y ltac:(congruence)) as (H1 & H2);
            repeat split; auto; fail).
  all: match goal with
       | |- context [if ?c then _ else _] => destruct c
       end;
    try (destruct (Hc y ltac:(congruence)) as (H1 & H2);
         repeat split; auto; fail).
  all: clear Hc; destruct y; cbn in Hs; subst;
    cbn -[Z.leb Z.max Qltb Qleb Yori_health_percentage];
    repeat (progress (split_ifs;
                      cbn -[Z.leb Z.max Qltb Qleb Yori_health_percentage]));
    repeat split;
    repeat match goal with
           | H : (_ <=? _)%Z = true |- _ => apply Z.leb_le in H; cbn in H
           | H : (_ <=? _)%Z = false |- _ => apply Z.leb_gt in H; cbn in H
           end; try lia.
Qed.

(** ** Across the entities *)

(** C2, amended.  Mook and boss: an attack-state instance runs
    [attack_player] at most once, in the tick in which the latch is unset
    and the advanced cursor has reached [len * damage_frame] (0.7 for the
    mook, 0.6 for the boss), and sets the latch.  Player: a click reports
    damage at most once per enemy in reach. *)
Theorem damage_at_most_once_per_attack :
  (forall A envs e target,
     (enemy_attacks (snd (Enemy_attack_instance A envs e target)) <= 1)%nat)
  /\ (forall A env e target,
        e_state e = E_attack -> Enemy_attack_tick_spec A env e target)
  /\ (forall env pos, e_damage_frame (Enemy_init env pos) = 0.7)
  /\ (forall k A envs y target,
        (k = 1 \/ k = 2 \/ k = 3)%Z ->
        y_should_use_skill y = false ->
        (yori_attacks
           (snd (Yori_attack_instance (Yori_attack_state k) A envs y target))
         <= 1)%nat)
  /\ (forall k seq A env y target dist,
        match target with
        | Some p => is_int (p_state p) | None => false end = false ->
        (Yori_ATTACK_STOP_DIST <? dist)%Z = false ->
        negb (k =? 1)%Z && Qltb (now env) (y_next_action_time y) = false ->
        Yori_attack_fires_spec k seq A env y target dist)
  /\ (forall pos, y_damage_frame (Yori_init pos) = 0.6)
  /\ (forall env w,
        (damage_reports (snd (Player_click env w))
         <= click_targets (w_player w))%nat).
Proof.
  repeat apply conj.
  - intros; apply Enemy_attack_instance_once.
  - intros; now apply Enemy_update_attack_tick.
  - reflexivity.
  - intros; now apply Yori_attack_instance_once.
  - intros; now apply Yori_update_attack_fires.
  - reflexivity.
  - intros; apply Player_click_reports.
Qed.

Lemma damage_at_most_once_per_attack_witness :
  Enemy_attack_tick_spec mook_anims10 attempt_at_1s (mook_attacking 6.8) None
  /\ (yori_attacks
        (snd (Yori_attack_instance (Yori_attack_state 1) anims10
                [attempt_at_1s; attempt_at_1s] (boss_attacking 5.8) None))
      <= 1)%nat
  /\ Yori_attack_fires_spec 1 10 anims10 attempt_at_1s (boss_attacking 5.8)
       None 100.
Proof.
  refine (conj _ (conj _ _)).
  - apply (proj1 (proj2 damage_at_most_once_per_attack)
             mook_anims10 attempt_at_1s (mook_attacking 6.8) None).
    reflexivity.
  - apply (proj1 (proj2 (proj2 (proj2 damage_at_most_once_per_attack)))
             1%Z anims10 [attempt_at_1s; attempt_at_1s]
             (boss_attacking 5.8) None).
    + left; reflexivity.
    + reflexivity.
  - apply (proj1 (proj2 (proj2 (proj2 (proj2
             damage_at_most_once_per_attack))))
             1%Z 10%N anims10 attempt_at_1s (boss_attacking 5.8) None
             100%Z); reflexivity.
Defined.






(** A hit that lands and a hit that is blocked return the same value. *)
Lemma take_damage_returns_no_outcome :
  let p := Player_init (640, 670)%Z in
  let applied := Player_take_damage p 50 true in
  let blocked := Player_take_damage (set_p_blocking p true) 50 true in
  p_current_health (fst (fst applied)) = 950%Z
  /\ p_current_health (fst (fst blocked)) = 1000%Z
  /\ snd applied = PyNone
  /\ snd blocked = PyNone
  /\ snd applied = snd blocked.
Proof. vm_compute. repeat apply conj; reflexivity. Qed.

(** C9, amended.  [take_damage] returns [None] on every path of the
    three entities; whether the hit was applied, blocked, missed,
    countered or ignored shows in the state it leaves and in the first
    line it prints. *)
Theorem take_damage_outcome_in_side_effects :
  (forall p damage ui, Player_take_damage_spec p damage ui)
  /\ (forall e damage ui, Enemy_take_damage_spec e damage ui)
  /\ (forall env y target damage ui,
        Yori_take_damage_spec env y target damage ui).
Proof.
  repeat apply conj.
  - apply Player_take_damage_outcome.
  - apply Enemy_take_damage_outcome.
  - apply Yori_take_damage_outcome.
Qed.

(** ** More on the rigid body *)

Section RigidBodyMore.

Import RigidBody.
Local Open Scope R_scope.

(** [n] calls of [update_physics()] with the default [dt = 1.0]. *)
Fixpoint update_physics_n (n : nat) (rb : t) : t :=
  match n with
  | O => rb
  | S n => update_physics_n n (update_physics rb 1)
  end.

(** The velocity along the collision normal and across it. *)
Definition normal_speed (rb : t) (nx ny : R) : R :=
  velocity_x rb * nx + velocity_y rb * ny.

Definition tangent_speed (rb : t) (nx ny : R) : R :=
  velocity_y rb * nx - velocity_x rb * ny.

Definition speed2 (rb : t) : R :=
  velocity_x rb * velocity_x rb + velocity_y rb * velocity_y rb.








Lemma resolve_tile_collision_none (rb : t) (tile : Rect) :
  ~ (0 < closest_distance (collider rb) tile
     /\ closest_distance (collider rb) tile < radius (collider rb)) ->
  resolve_tile_collision rb tile = rb.
Proof.
  intros H. unfold resolve_tile_collision.
  fold (closest_distance (collider rb) tile).
  destruct (Rltb _ (radius _)) eqn:E1; [|reflexivity].
  destruct (Rltb 0 _) eqn:E2; [|reflexivity].
  apply Rltb_true in E1, E2. tauto.
Qed.

(** The velocities that a resolved penetration leaves. *)
Lemma resolve_tile_collision_velocity (rb : t) (tile : Rect) :
  let nx := normal_x rb tile in
  let ny := normal_y rb tile in
  let dot := velocity_x rb * nx + velocity_y rb * ny in
  let vy1 := velocity_y rb - 2 * dot * ny * bounce rb in
  let rb' := resolve_tile_collision rb tile in
  0 < closest_distance (collider rb) tile ->
  closest_distance (collider rb) tile < radius (collider rb) ->
  velocity_x rb' = velocity_x rb - 2 * dot * nx * bounce rb
  /\ (velocity_y rb' = vy1 \/ (ny < - 0.7 /\ 0 < vy1 /\ velocity_y rb' = 0))
  /\ (- 0.7 <= ny -> velocity_y rb' = vy1).
Proof.
  intros nx ny dot vy1 rb' H0 Hr.
  assert (E1 : Rltb (closest_distance (collider rb) tile)
                 (radius (collider rb)) = true) by now apply Rltb_true.
  assert (E2 : Rltb 0 (closest_distance (collider rb) tile) = true)
    by now apply Rltb_true.
  subst rb'. unfold resolve_tile_collision.
  fold (closest_distance (collider rb) tile).
  rewrite E1, E2. cbn [andb]. cbv zeta.
  fold (normal_x rb tile). fold (normal_y rb tile). fold nx. fold ny.
  destruct (Rltb ny (- 0.7)) eqn:Eg.
  - apply Rltb_true in Eg.
    match goal with
    | |- context [Rltb 0 ?v] =>
        change v with vy1; destruct (Rltb 0 vy1) eqn:Ev
    end.
    + apply Rltb_true in Ev. cbn.
      split; [reflexivity|split; [right; repeat split; lra | intros; lra]].
    + cbn. split; [reflexivity|split; [left; reflexivity | intros; lra]].
  - apply Rltb_false in Eg. cbn.
    split; [reflexivity|split; [left; reflexivity | intros; reflexivity]].
Qed.

(** A tile collision takes the share [2 * bounce] of the velocity along
    the collision normal and leaves the velocity across it, unless the tile
    is ground under the body. *)
Theorem resolve_tile_collision_reflects (rb : t) (tile : Rect) :
  let nx := normal_x rb tile in
  let ny := normal_y rb tile in
  let rb' := resolve_tile_collision rb tile in
  0 < closest_distance (collider rb) tile ->
  closest_distance (collider rb) tile < radius (collider rb) ->
  - 0.7 <= ny ->
  normal_speed rb' nx ny = (1 - 2 * bounce rb) * normal_speed rb nx ny
  /\ tangent_speed rb' nx ny = tangent_speed rb nx ny.
Proof.
  intros nx ny rb' H0 Hr Hny.
  destruct (resolve_tile_collision_velocity rb tile H0 Hr) as (Hx & _ & Hy).
  specialize (Hy Hny).
  pose proof (normal_unit rb tile H0) as Hn. fold nx ny in Hn.
  unfold normal_speed, tangent_speed. subst rb'. rewrite Hx, Hy.
  fold nx. fold ny.
  set (vx := velocity_x rb). set (vy := velocity_y rb). set (b := bounce rb).
  split.
  - replace ((vx - 2 * (vx * nx + vy * ny) * nx * b) * nx
             + (vy - 2 * (vx * nx + vy * ny) * ny * b) * ny)
      with ((vx * nx + vy * ny)
            - 2 * b * (vx * nx + vy * ny) * (nx * nx + ny * ny)) by ring.
    rewrite Hn. ring.
  - ring.
Qed.

(** A tile collision never speeds the body up, for a bounce factor
    between 0 and 1. *)
Theorem resolve_tile_collision_slows (rb : t) (tile : Rect) :
  0 <= bounce rb <= 1 ->
  speed2 (resolve_tile_collision rb tile) <= speed2 rb.
Proof.
  intros Hb.
  destruct (Rlt_dec 0 (closest_distance (collider rb) tile)) as [H0|H0];
    [destruct (Rlt_dec (closest_distance (collider rb) tile)
                 (radius (collider rb))) as [Hr|Hr]|];
    try (rewrite resolve_tile_collision_none by tauto; lra).
  destruct (resolve_tile_collision_velocity rb tile H0 Hr) as (Hx & Hy & _).
  pose proof (normal_unit rb tile H0) as Hn.
  unfold speed2. rewrite Hx.
  set (nx := normal_x rb tile) in *. set (ny := normal_y rb tile) in *.
  set (vx := velocity_x rb) in *. set (vy := velocity_y rb) in *.
  set (b := bounce rb) in *.
  set (dot := vx * nx + vy * ny) in *.
  assert (Hsum : (vx - 2 * dot * nx * b) * (vx - 2 * dot * nx * b)
                 + (vy - 2 * dot * ny * b) * (vy - 2 * dot * ny * b)
                 = vx * vx + vy * vy - 4 * b * (1 - b) * (dot * dot)).
  { replace ((vx - 2 * dot * nx * b) * (vx - 2 * dot * nx * b)
             + (vy - 2 * dot * ny * b) * (vy - 2 * dot * ny * b))
      with (vx * vx + vy * vy - 4 * b * dot * (vx * nx + vy * ny)
            + 4 * b * b * dot * dot * (nx * nx + ny * ny)) by ring.
    rewrite Hn. fold dot. ring. }
  assert (Hpos : 0 <= 4 * b * (1 - b) * (dot * dot)).
  { apply Rmult_le_pos; [nra | apply Rle_0_sqr]. }
  destruct Hy as [Hy | (_ & Hv & Hy)]; rewrite Hy.
  - lra.
  - assert (0 <= (vx - 2 * dot * nx * b) * (vx - 2 * dot * nx * b))
      by apply Rle_0_sqr.
    assert (0 <= (vy - 2 * dot * ny * b) * (vy - 2 * dot * ny * b))
      by apply Rle_0_sqr.
    nra.
Qed.

(** A tile to the right of a body at the origin: the closest point is
    (3, 0) on its left edge. *)
Definition side_tile : Rect := mkRect 3 (-5) 10 10.

Lemma side_tile_distance :
  closest_x (collider (body 0 0 1 2)) side_tile = 3
  /\ closest_y (collider (body 0 0 1 2)) side_tile = 0
  /\ closest_distance (collider (body 0 0 1 2)) side_tile = 3.
Proof.
  assert (Hx : closest_x (collider (body 0 0 1 2)) side_tile = 3).
  { unfold closest_x; cbn.
    rewrite Rmin_left, Rmax_left by (rewrite ?Rmin_left; lra). reflexivity. }
  assert (Hy : closest_y (collider (body 0 0 1 2)) side_tile = 0).
  { unfold closest_y; cbn.
    rewrite Rmin_left, Rmax_right by (rewrite ?Rmin_left; lra). reflexivity. }
  repeat split; auto.
  unfold closest_distance. rewrite Hx, Hy. cbn.
  replace ((0 - 3) * (0 - 3) + (0 - 0) * (0 - 0)) with (3 * 3) by ring.
  apply sqrt_square; lra.
Qed.

Lemma resolve_tile_collision_reflects_witness :
  let rb := body 0 0 1 2 in
  let nx := normal_x rb side_tile in
  let ny := normal_y rb side_tile in
  let rb' := resolve_tile_collision rb side_tile in
  normal_speed rb' nx ny = (1 - 2 * bounce rb) * normal_speed rb nx ny
  /\ tangent_speed rb' nx ny = tangent_speed rb nx ny.
Proof.
  destruct side_tile_distance as (_ & Hy & Hd).
  apply (resolve_tile_collision_reflects (body 0 0 1 2) side_tile).
  - rewrite Hd. lra.
  - rewrite Hd. cbn. lra.
  - unfold normal_y. rewrite Hy, Hd. cbn. lra.
Defined.

Lemma resolve_tile_collision_slows_witness :
  speed2 (resolve_tile_collision (body 0 0 1 2) corner_tile)
  <= speed2 (body 0 0 1 2).
Proof.
  apply (resolve_tile_collision_slows (body 0 0 1 2) corner_tile).
  cbn. lra.
Defined.

(** Checking the ground a second time with the same height changes
    nothing. *)
Theorem check_ground_collision_idempotent (rb : t) (ground : option R) :
  check_ground_collision (check_ground_collision rb ground) ground
  = check_ground_collision rb ground.
Proof.
  destruct ground as [g|]; [|reflexivity].
  destruct (Rleb g (center_y (collider rb) + radius (collider rb))) eqn:Eb;
    [destruct (Rleb 0 (velocity_y rb)) eqn:Ev|].
  - assert (E : check_ground_collision rb (Some g)
                = set_velocity_y
                    (set_position (set_ground rb true (Some g))
                       (center_x (collider rb)) (g - radius (collider rb)))
                    0)
      by (unfold check_ground_collision; now rewrite Eb, Ev).
    rewrite E. unfold check_ground_collision. cbn.
    assert (E1 : Rleb g (g - radius (collider rb) + radius (collider rb))
                 = true) by (apply Rleb_true; lra).
    assert (E2 : Rleb 0 0 = true) by (apply Rleb_true; lra).
    rewrite E1, E2. reflexivity.
  - assert (E : check_ground_collision rb (Some g) = rb)
      by (unfold check_ground_collision; now rewrite Eb, Ev).
    now rewrite !E.
  - assert (E : check_ground_collision rb (Some g)
                = set_ground rb false (Some g))
      by (unfold check_ground_collision; now rewrite Eb).
    rewrite E. unfold check_ground_collision. cbn. now rewrite Eb.
Qed.

Lemma update_physics_n_S (n : nat) (rb : t) :
  update_physics_n (S n) rb = update_physics (update_physics_n n rb) 1.
Proof.
  revert rb. induction n as [|n IH]; intros rb; [reflexivity|].
  change (update_physics_n (S (S n)) rb)
    with (update_physics_n (S n) (update_physics rb 1)).
  rewrite IH. reflexivity.
Qed.

(** A body on the ground that nothing pushes: every step multiplies the
    horizontal velocity by the friction, and the body has slid by the
    geometric sum of these velocities. *)
Theorem update_physics_friction (n : nat) (rb : t) :
  let rb' := update_physics_n n rb in
  is_grounded rb = true ->
  acceleration_x rb = 0 -> acceleration_y rb = 0 ->
  friction rb <> 1 ->
  velocity_x rb' = velocity_x rb * friction rb ^ n
  /\ velocity_y rb' = velocity_y rb
  /\ center_x (collider rb')
     = center_x (collider rb)
       + velocity_x rb * friction rb * (1 - friction rb ^ n)
         / (1 - friction rb)
  /\ center_y (collider rb') = center_y (collider rb) + INR n * velocity_y rb
  /\ is_grounded rb' = true.
Proof.
  intros rb' Hg Hax Hay Hf. subst rb'.
  assert (H : velocity_x (update_physics_n n rb)
              = velocity_x rb * friction rb ^ n
              /\ velocity_y (update_physics_n n rb) = velocity_y rb
              /\ center_x (collider (update_physics_n n rb))
                 = center_x (collider rb)
                   + velocity_x rb * friction rb * (1 - friction rb ^ n)
                     / (1 - friction rb)
              /\ center_y (collider (update_physics_n n rb))
                 = center_y (collider rb) + INR n * velocity_y rb
              /\ is_grounded (update_physics_n n rb) = true
              /\ acceleration_x (update_physics_n n rb) = 0
              /\ acceleration_y (update_physics_n n rb) = 0
              /\ friction (update_physics_n n rb) = friction rb).
  { induction n as [|n IH].
    - cbn. repeat split; try assumption; try ring. field. lra.
    - destruct IH as (Hvx & Hvy & Hcx & Hcy & Hg' & Hax' & Hay' & Hf').
      rewrite update_physics_n_S.
      set (r := update_physics_n n rb) in *.
      unfold update_physics. rewrite Hg'. cbn -[INR pow].
      rewrite Hvx, Hvy, Hcx, Hcy, Hax', Hay', Hf'.
      repeat split; try reflexivity; try exact Hg';
        rewrite ?S_INR; cbn [pow]; try ring.
      field. lra. }
  tauto.
Qed.

Lemma update_physics_friction_witness :
  let rb := set_ground (body 0 0 10 0) true (Some 30) in
  velocity_x (update_physics_n 2 rb) = velocity_x rb * friction rb ^ 2.
Proof.
  apply (update_physics_friction 2 (set_ground (body 0 0 10 0) true (Some 30)));
    cbn; try reflexivity; lra.
Defined.

(** A falling body that nothing pushes never falls faster than
    [gravity * air_resistance / (1 - air_resistance)]. *)
Theorem update_physics_terminal_velocity (n : nat) (rb : t) :
  let limit := gravity rb * air_resistance rb / (1 - air_resistance rb) in
  is_grounded rb = false ->
  acceleration_y rb = 0 ->
  0 <= gravity rb ->
  0 <= air_resistance rb < 1 ->
  0 <= velocity_y rb <= limit ->
  0 <= velocity_y (update_physics_n n rb) <= limit.
Proof.
  intros limit Hg Hay Hgr Ha Hv.
  assert (H : 0 <= velocity_y (update_physics_n n rb) <= limit
              /\ is_grounded (update_physics_n n rb) = false
              /\ acceleration_y (update_physics_n n rb) = 0
              /\ gravity (update_physics_n n rb) = gravity rb
              /\ air_resistance (update_physics_n n rb) = air_resistance rb).
  { induction n as [|n IH].
    - cbn. tauto.
    - destruct IH as (Hv' & Hg' & Hay' & Hgr' & Ha').
      rewrite update_physics_n_S.
      set (r := update_physics_n n rb) in *.
      unfold update_physics. rewrite Hg'. cbn.
      rewrite Hay', Hgr', Ha'.
      repeat split; try reflexivity; try exact Hg'.
      + apply Rmult_le_pos; lra.
      + set (g := gravity rb) in *. set (a := air_resistance rb) in *.
        set (v := velocity_y r) in *.
        assert (El : (limit + g) * a = limit).
        { unfold limit. field. lra. }
        rewrite <- El. apply Rmult_le_compat_r; lra. }
  tauto.
Qed.

Lemma update_physics_terminal_velocity_witness :
  0 <= velocity_y (update_physics_n 3 (body 0 0 0 0))
    <= 0.8 * 0.99 / (1 - 0.99).
Proof.
  apply (update_physics_terminal_velocity 3 (body 0 0 0 0));
    cbn; try reflexivity; lra.
Defined.

(** Two circles collide with each other or not at all. *)
Theorem collides_with_circle_symmetric (c other : CircleCollider) :
  collides_with_circle c other = collides_with_circle other c.
Proof.
  unfold collides_with_circle.
  replace ((center_x other - center_x c) * (center_x other - center_x c)
           + (center_y other - center_y c) * (center_y other - center_y c))
    with ((center_x c - center_x other) * (center_x c - center_x other)
          + (center_y c - center_y other) * (center_y c - center_y other))
    by ring.
  now rewrite (Rplus_comm (radius other)).
Qed.

(** An impulse is taken back by the opposite impulse; a body without mass
    takes none. *)
Theorem apply_impulse_undo (rb : t) (impulse_x impulse_y : R) :
  (mass rb <> 0 ->
   match apply_impulse rb impulse_x impulse_y with
   | Some rb' => apply_impulse rb' (- impulse_x) (- impulse_y) = Some rb
   | None => False
   end)
  /\ (mass rb = 0 -> apply_impulse rb impulse_x impulse_y = None).
Proof.
  unfold apply_impulse. split; intros Hm.
  - destruct (Req_dec_T (mass rb) 0) as [E|E]; [contradiction|].
    cbn. destruct (Req_dec_T (mass rb) 0) as [E'|_]; [contradiction|].
    destruct rb; cbn in *. unfold set_velocity; cbn.
    f_equal. f_equal; field; exact Hm.
  - destruct (Req_dec_T (mass rb) 0) as [_|E]; [reflexivity|contradiction].
Qed.

End RigidBodyMore.

(** ** More on the mook *)

Section EnemyMore.

Local Open Scope Q_scope.

(** Ticks of a mook at the clock readings [envs]: the target is handed
    from tick to tick and the output is collected. *)
Fixpoint Enemy_updates (A : EnemyAnims) (envs : list Env) (e : Enemy)
    (target : option Player) : Enemy * option Player * list event :=
  match envs with
  | [] => (e, target, [])
  | env :: envs =>
      let '(e1, target1, out1) := Enemy_update A env e target in
      let '(e2, target2, out2) := Enemy_updates A envs e1 target1 in
      (e2, target2, out1 ++ out2)
  end.

Lemma estate_eq_dec (a b : estate) : {a = b} + {a <> b}.
Proof. decide equality. Qed.

Lemma Qfloor_in_range (x : Q) (n : positive) :
  0 <= x -> x < len n -> (0 <= Qfloor x < Z.pos n)%Z.
Proof.
  intros H0 Hn. split.
  - change 0%Z with (Qfloor 0). now apply Qfloor_resp_le.
  - rewrite Zlt_Qlt. eapply Qle_lt_trans; [apply Qfloor_le|exact Hn].
Qed.

(** After every tick the cursor is a valid index into the animation of
    the state the mook is in: [seq[int(self.frame)]] finds a frame. *)
Theorem Enemy_update_frame_in_range (A : EnemyAnims) (env : Env)
    (e : Enemy) (target : option Player) :
  let e' := fst (fst (Enemy_update A env e target)) in
  (0 <= e_frame e' /\ e_frame e' < len (Enemy_seq A (e_state e')))
  /\ (0 <= Qfloor (e_frame e') < Z.pos (Enemy_seq A (e_state e')))%Z.
Proof.
  intros e'.
  assert (H : 0 <= e_frame e' /\ e_frame e' < len (Enemy_seq A (e_state e'))).
  { destruct (Enemy_update_cursor A env e target) as (Hsame & Hdiff).
    fold e' in Hsame, Hdiff.
    destruct (estate_eq_dec (e_state e') (e_state e)) as [E|E].
    - rewrite (Hsame E), E. apply fmod_bounds.
    - destruct (Hdiff E) as [H0|H0]; rewrite H0.
      + split; [apply Qle_refl|apply len_pos].
      + apply fmod_bounds. }
  split; [exact H|]. now apply Qfloor_in_range.
Qed.

Lemma Enemy_update_die (A : EnemyAnims) (env : Env) (e : Enemy)
    (target : option Player) :
  e_state e = E_die ->
  let '(e', target', out) := Enemy_update A env e target in
  e_state e' = E_die /\ e_current_health e' = e_current_health e
  /\ target' = target /\ out = [].
Proof.
  intros Hs. unfold Enemy_update.
  pose proof (Enemy_update_physics_keeps e) as (Hs1 & _ & _ & _ & Hh & _).
  set (e1 := Enemy_update_physics e) in *. clearbody e1.
  rewrite Hs1, Hs. rewrite <- Hh, <- Hs, <- Hs1.
  destruct e1; unfold Enemy_animate; cbn.
  destruct (Qleb _ _); cbn; repeat split; reflexivity.
Qed.

(** Death is final: a dead mook stays dead through any number of ticks,
    keeps its health, leaves its target alone and prints nothing, and
    every hit on it is ignored. *)
Theorem Enemy_dead_is_inert (A : EnemyAnims) (envs : list Env) (e : Enemy)
    (target : option Player) (damage : Z) (ui_system : bool) :
  e_state e = E_die ->
  let '(e', target', out) := Enemy_updates A envs e target in
  e_state e' = E_die /\ e_current_health e' = e_current_health e
  /\ target' = target /\ out = []
  /\ Enemy_take_damage e' damage ui_system = (e', [], PyNone).
Proof.
  revert e target. induction envs as [|env envs IH]; intros e target Hs.
  - cbn. repeat split; auto. now apply Enemy_take_damage_dead.
  - cbn [Enemy_updates].
    pose proof (Enemy_update_die A env e target Hs) as H1.
    destruct (Enemy_update A env e target) as [[e1 t1] out1].
    destruct H1 as (Hs1 & Hh1 & Ht1 & Ho1).
    specialize (IH e1 t1 Hs1).
    destruct (Enemy_updates A envs e1 t1) as [[e2 t2] out2].
    destruct IH as (Hs2 & Hh2 & Ht2 & Ho2 & Hd).
    subst. repeat split; auto. congruence.
Qed.

Lemma Enemy_dead_is_inert_witness :
  let '(e', target', out) :=
    Enemy_updates anims4 [env0; env0] mook_after_three_hits None in
  e_state e' = E_die
  /\ e_current_health e' = e_current_health mook_after_three_hits
  /\ target' = None /\ out = []
  /\ Enemy_take_damage e' 10 false = (e', [], PyNone).
Proof.
  apply (Enemy_dead_is_inert anims4 [env0; env0] mook_after_three_hits None
           10%Z false).
  reflexivity.
Defined.







(** A hit that follows another with no tick in between is always
    ignored: the first hit leaves the mook hurt or dying, or was itself
    ignored. *)
Theorem Enemy_take_damage_twice (e : Enemy) (damage1 damage2 : Z)
    (ui1 ui2 : bool) :
  let e1 := fst (fst (Enemy_take_damage e damage1 ui1)) in
  Enemy_take_damage e1 damage2 ui2 = (e1, [], PyNone).
Proof.
  intros e1.
  assert (Hs : e_state e1 = E_hurt \/ e_state e1 = E_die
               \/ e_state e1 = E_stun).
  { subst e1. unfold Enemy_take_damage.
    destruct (e_state e) eqn:Hs; cbn [fst]; auto;
      destruct (_ <=? 0)%Z; cbn; auto. }
  unfold Enemy_take_damage.
  destruct Hs as [Hs|[Hs|Hs]]; rewrite Hs; reflexivity.
Qed.

(** The attack point sits 120 px in front of the mook, so an attack
    cannot reach a player whose centre is further than 120 px plus the
    attack radius away horizontally: the attack misses and the player is
    as before. *)
Theorem Enemy_attack_reach (e : Enemy) (p : Player) (ui_system : bool) :
  e_state e = E_attack ->
  (120 + e_attack_radius e < Z.abs (p_rect_centerx p - e_rect_centerx e))%Z ->
  Enemy_attack_player (Enemy_update_attack_point e) (Some p) ui_system
  = (Some p, [Print (Msg_enemy_attacks (e_attack_damage e));
              Print Msg_enemy_attack_missed]).
Proof.
  intros Hs Hd. unfold Enemy_update_attack_point. rewrite Hs. cbn [estate_eqb].
  set (pt := ((e_rect_centerx e + (if (e_dir e =? 1)%Z then 120 else -120))%Z,
              (e_rect_centery e + -10)%Z)).
  set (e' := set_e_attack_point e pt).
  assert (Hap : e_attack_point e' = pt) by reflexivity.
  assert (Hr : e_attack_radius e' = e_attack_radius e) by reflexivity.
  assert (Hdm : e_attack_damage e' = e_attack_damage e) by reflexivity.
  clearbody e'. unfold Enemy_attack_player. rewrite Hap, Hr, Hdm.
  assert (E : within_radius pt (p_rect_centerx p, p_rect_centery p)
                (inject_Z (e_attack_radius e)) = false).
  { unfold within_radius, Qleb. apply andb_false_iff.
    destruct (Z_le_gt_dec 0 (e_attack_radius e)) as [H0|H0].
    - right. apply not_true_is_false. intros H.
      apply Qle_bool_iff in H. rewrite <- inject_Z_mult in H.
      rewrite <- Zle_Qle in H. unfold dist2, pt in H. cbn [fst snd] in H.
      match type of H with
      | (?a * ?a + ?b * ?b <= _)%Z =>
          pose proof (Z.square_nonneg b) as Hb;
          pose proof (Z.abs_square a) as Ha;
          assert (Hlt : (e_attack_radius e < Z.abs a)%Z)
            by (destruct (e_dir e =? 1)%Z; lia)
      end.
      nia.
    - left. apply not_true_is_false. intros H.
      apply Qle_bool_iff in H. change 0 with (inject_Z 0) in H.
      rewrite <- Zle_Qle in H. lia. }
  now rewrite E.
Qed.

Lemma Enemy_attack_reach_witness :
  let e := set_e_state mook100 E_attack in
  let p := Player_init (1000, 670)%Z in
  Enemy_attack_player (Enemy_update_attack_point e) (Some p) false
  = (Some p, [Print (Msg_enemy_attacks 50); Print Msg_enemy_attack_missed]).
Proof.
  apply (Enemy_attack_reach (set_e_state mook100 E_attack)
           (Player_init (1000, 670)%Z) false); reflexivity.
Defined.

End EnemyMore.

(** ** Damage numbers, health bar and dialog *)

Section UIMore.

Local Open Scope Q_scope.

Lemma update_texts_app (env : Env) (l1 l2 : list DamageText_obj) :
  update_texts env (l1 ++ l2)
  = match update_texts env l1, update_texts env l2 with
    | Ok a, Ok b => Ok (a ++ b)
    | Raise err, _ => Raise err
    | Ok _, Raise err => Raise err
    end.
Proof.
  induction l1 as [|d l1 IH]; cbn [app update_texts].
  - destruct (update_texts env l2); reflexivity.
  - destruct (DamageText_update env d) as [[d' keep]|err]; [|reflexivity].
    rewrite IH.
    destruct (update_texts env l1) as [a|err]; [|reflexivity].
    destruct (update_texts env l2) as [b|err]; [|reflexivity].
    destruct keep; reflexivity.
Qed.

(** A damage number lives for one second: added at [t0], it is still
    shown by every update before [t0 + 1], between its start height and 80
    px above it with an alpha between 0 and 255, and it is dropped by the
    first update at or after [t0 + 1]; the texts that were there are
    treated as they would be without it. *)
Theorem damage_text_lives_one_second (env0 env : Env) (ui : UISystem)
    (x y : Z) (damage : ui_text) (color : rgb) (old : list DamageText_obj) :
  update_texts env (damage_texts ui) = Ok old ->
  now env0 <= now env ->
  match UISystem_update env
          (UISystem_add_damage_text env0 ui x y damage color) with
  | Raise _ => False
  | Ok ui' =>
      (now env0 + 1 <= now env -> damage_texts ui' = old)
      /\ (now env < now env0 + 1 ->
          exists d,
            damage_texts ui' = old ++ [d]
            /\ dt_x d = x /\ dt_damage d = damage /\ dt_color d = color
            /\ inject_Z y - 80 < dt_y d /\ dt_y d <= inject_Z y
            /\ exists alpha,
                 DamageText_alpha env d = Ok alpha
                 /\ (0 <= alpha <= 255)%Z)
  end.
Proof.
  intros Hold Ht.
  unfold UISystem_update, UISystem_add_damage_text. cbn [damage_texts].
  rewrite update_texts_app, Hold. cbn [update_texts].
  unfold DamageText_update, DamageText_init.
  cbn [dt_duration dt_start_time dt_x dt_start_y dt_damage dt_color].
  destruct (Qleb 1 (now env - now env0)) eqn:E.
  - apply Qleb_le in E. cbn. rewrite app_nil_r. split; [reflexivity|].
    intros H. exfalso. apply (Qlt_irrefl (now env)). lra.
  - apply Qleb_gt in E. cbn. split.
    + intros H. exfalso. apply (Qlt_irrefl (now env)). lra.
    + intros _. eexists. split; [reflexivity|]. cbn.
      set (el := now env - now env0) in *.
      assert (H0 : 0 <= el) by (unfold el; lra).
      assert (Hp : el / 1 == el) by (field).
      repeat split.
      * rewrite Hp. lra.
      * rewrite Hp. lra.
      * unfold DamageText_alpha. cbn. fold el.
        eexists. split; [reflexivity|].
        assert (Ha : 0 <= 255 * (1 - el / 1)) by (rewrite Hp; lra).
        assert (Hb : 255 * (1 - el / 1) <= 255) by (rewrite Hp; lra).
        unfold Qtrunc. apply Qle_bool_iff in Ha. rewrite Ha.
        apply Qle_bool_iff in Ha. split.
        -- change 0%Z with (Qfloor 0). now apply Qfloor_resp_le.
        -- change 255%Z with (Qfloor 255). now apply Qfloor_resp_le.
Qed.

Lemma damage_text_lives_one_second_witness :
  match UISystem_update (mkEnv 0.5 500 0 true)
          (UISystem_add_damage_text (mkEnv 0 0 0 true) UISystem_init
             100 200 (Text_damage 20) (255, 50, 50)%Z) with
  | Raise _ => False
  | Ok ui' =>
      (0 + 1 <= 0.5 -> damage_texts ui' = [])
      /\ (0.5 < 0 + 1 ->
          exists d,
            damage_texts ui' = [] ++ [d]
            /\ dt_x d = 100%Z /\ dt_damage d = Text_damage 20
            /\ dt_color d = (255, 50, 50)%Z
            /\ inject_Z 200 - 80 < dt_y d /\ dt_y d <= inject_Z 200
            /\ exists alpha,
                 DamageText_alpha (mkEnv 0.5 500 0 true) d = Ok alpha
                 /\ (0 <= alpha <= 255)%Z)
  end.
Proof.
  apply (damage_text_lives_one_second (mkEnv 0 0 0 true)
           (mkEnv 0.5 500 0 true) UISystem_init 100 200 (Text_damage 20)
           (255, 50, 50)%Z []).
  - reflexivity.
  - apply Qle_bool_imp_le. reflexivity.
Defined.

(** What the health bar remembers stays below full health. *)
Definition ui_within (max_health : Z) (ui : UISystem) : Prop :=
  damage_prev_percent ui <= 1
  /\ match prev_player_health ui with
     | Some h => (h <= max_health)%Z
     | None => True
     end.

Definition same_place (a b : Rect) : Prop :=
  left a = left b /\ top a = top b /\ height a = height b.

Lemma Qtrunc_floor (q : Q) : 0 <= q -> Qtrunc q = Qfloor q.
Proof.
  intros H. unfold Qtrunc. apply Qle_bool_iff in H. now rewrite H.
Qed.

Lemma Qtrunc_mono (a b : Q) : 0 <= a -> a <= b -> (Qtrunc a <= Qtrunc b)%Z.
Proof.
  intros H0 H. rewrite !Qtrunc_floor by lra. now apply Qfloor_resp_le.
Qed.

Lemma Qtrunc_below (a : Q) (n : Z) :
  0 <= a -> a < inject_Z n -> (0 <= Qtrunc a < n)%Z.
Proof.
  intros H0 H. rewrite Qtrunc_floor by exact H0. split.
  - change 0%Z with (Qfloor 0). now apply Qfloor_resp_le.
  - rewrite Zlt_Qlt. eapply Qle_lt_trans; [apply Qfloor_le|exact H].
Qed.

Lemma Qtrunc_range (a : Q) (n : Z) :
  0 <= a -> a <= inject_Z n -> (0 <= Qtrunc a <= n)%Z.
Proof.
  intros H0 H. rewrite Qtrunc_floor by exact H0. split.
  - change 0%Z with (Qfloor 0). now apply Qfloor_resp_le.
  - rewrite <- (Qfloor_Z n). now apply Qfloor_resp_le.
Qed.

Lemma health_percent_range (current_health max_health : Z) :
  (0 < max_health)%Z -> (current_health <= max_health)%Z ->
  0 <= health_percent current_health max_health <= 1.
Proof.
  intros Hm Hc. unfold health_percent.
  assert (E : (max_health =? 0)%Z = false) by (apply Z.eqb_neq; lia).
  rewrite E.
  assert (Hq : 0 < inject_Z max_health).
  { change 0 with (inject_Z 0). rewrite <- Zlt_Qlt. exact Hm. }
  split.
  - apply Q.le_max_l.
  - apply Q.max_lub; [discriminate|].
    apply Qle_shift_div_r; [exact Hq|]. rewrite Qmult_1_l.
    rewrite <- Zle_Qle. exact Hc.
Qed.

(** The health bar of the player.  The red part is as wide as the share
    of health that is left, the dark-red part fills the rest of the 260
    px, and whenever the yellow flash of lost health is drawn, the
    dark-red rectangle drawn right after it lies over all of it. *)
Theorem player_health_bar_flash_is_covered (env : Env) (ui : UISystem)
    (current_health max_health icon_w x y : Z) :
  (0 < max_health)%Z -> (0 <= current_health <= max_health)%Z ->
  ui_within max_health ui ->
  match UISystem_draw_player_health_ui env ui current_health max_health
          icon_w x y with
  | Raise _ => False
  | Ok (ui', rects) =>
      let red_w :=
        Qtrunc (260 * health_percent current_health max_health) in
      ui_within max_health ui'
      /\ (0 <= red_w <= 260)%Z
      /\ (forall r, In r rects -> dr_color r = (180, 0, 0)%Z ->
          width (dr_rect r) = red_w)
      /\ (forall r, In r rects -> dr_color r = (80, 0, 0)%Z ->
          width (dr_rect r) = (260 - red_w)%Z)
      /\ (forall f, In f rects -> dr_color f = (255, 200, 0)%Z ->
          exists pre m,
            rects = pre ++ [f; m]
            /\ dr_color m = (80, 0, 0)%Z
            /\ same_place (dr_rect f) (dr_rect m)
            /\ (0 <= width (dr_rect f) <= width (dr_rect m))%Z)
  end.
Proof.
  intros Hm Hc (Hp & Hprev).
  pose proof (health_percent_range current_health max_health Hm
                (proj2 Hc)) as Hhp.
  unfold UISystem_draw_player_health_ui.
  assert (E0 : (max_health =? 0)%Z = false) by (apply Z.eqb_neq; lia).
  rewrite E0, andb_false_r.
  set (hp := health_percent current_health max_health) in *.
  set (prev := match prev_player_health ui with
               | Some h => h | None => current_health end).
  assert (Hprev' : (prev <= max_health)%Z).
  { unfold prev. destruct (prev_player_health ui); lia. }
  set (pp := if (current_health <? prev)%Z
             then Qmax 0 (inject_Z prev / inject_Z max_health)
             else damage_prev_percent ui).
  assert (Hpp : pp <= 1).
  { unfold pp. destruct (current_health <? prev)%Z; [|exact Hp].
    apply Q.max_lub; [discriminate|].
    apply Qle_shift_div_r.
    - change 0 with (inject_Z 0). rewrite <- Zlt_Qlt. exact Hm.
    - rewrite Qmult_1_l. rewrite <- Zle_Qle. exact Hprev'. }
  change (inject_Z 260) with 260.
  clearbody hp. clearbody pp.
  assert (Hr0 : 0 <= 260 * hp) by lra.
  assert (Hred : (0 <= Qtrunc (260 * hp) <= 260)%Z).
  { apply Qtrunc_range; [exact Hr0|]. change (inject_Z 260) with 260. lra. }
  assert (Hpw : (Qtrunc (260 * pp) <= 260)%Z).
  { destruct (Qlt_le_dec (260 * pp) 0) as [Hn|Hn].
    - unfold Qtrunc. destruct (Qle_bool 0 (260 * pp)) eqn:E.
      + apply Qle_bool_iff in E. exfalso. apply (Qlt_irrefl 0). lra.
      + assert (0 <= Qfloor (- (260 * pp)))%Z.
        { change 0%Z with (Qfloor 0). apply Qfloor_resp_le. lra. }
        lia.
    - apply Qtrunc_range; [exact Hn|]. change (inject_Z 260) with 260. lra. }
  cbv zeta.
  set (red_w := Qtrunc (260 * hp)) in *.
  destruct (Qltb 0 hp) eqn:Ered;
    destruct (Qltb (now env)
                (if (current_health <? prev)%Z
                 then now env + 1 else damage_flash_end ui)
              && Qltb hp pp) eqn:Efl;
    destruct (red_w <? 260)%Z eqn:Emi;
    cbn [app In dr_color dr_rect width left top height];
    (split; [split; [exact Hpp | cbn; lia]|]);
    (split; [exact Hred|]);
    repeat split; intros r Hin Hcol;
    repeat match goal with
           | H : _ \/ _ |- _ => destruct H as [H|H]
           | H : False |- _ => contradiction
           end;
    subst; cbn in Hcol; try discriminate; try reflexivity;
    try (apply andb_true_iff in Efl; destruct Efl as (_ & Efl);
         apply Qltb_lt in Efl;
         assert (Hlt : (0 <= red_w < 260)%Z)
           by (apply Qtrunc_below; [exact Hr0|change (inject_Z 260) with 260; lra]);
         apply Z.ltb_ge in Emi; lia).
  - apply andb_true_iff in Efl. destruct Efl as (_ & Efl).
    apply Qltb_lt in Efl.
    eexists [_; _; _], _. split; [reflexivity|].
    cbn [dr_color dr_rect width left top height].
    repeat split.
    + assert (red_w <= Qtrunc (260 * pp))%Z
        by (apply Qtrunc_mono; [exact Hr0|lra]).
      lia.
    + lia.
  - apply andb_true_iff in Efl. destruct Efl as (_ & Efl).
    apply Qltb_lt in Efl.
    eexists [_; _], _. split; [reflexivity|].
    cbn [dr_color dr_rect width left top height].
    repeat split.
    + assert (red_w <= Qtrunc (260 * pp))%Z
        by (apply Qtrunc_mono; [exact Hr0|lra]).
      lia.
    + lia.
Qed.

(** The bar as it was last drawn at full health 1000, drawn again after
    a hit of 200. *)
Definition bar_at_full_health : UISystem := mkUISystem [] (Some 1000%Z) 1 0.

Lemma player_health_bar_flash_is_covered_witness :
  match UISystem_draw_player_health_ui (mkEnv 0 0 0 true)
          bar_at_full_health 800 1000 100 20 20 with
  | Raise _ => False
  | Ok (ui', rects) =>
      let red_w := Qtrunc (260 * health_percent 800 1000) in
      ui_within 1000 ui'
      /\ (0 <= red_w <= 260)%Z
      /\ (forall r, In r rects -> dr_color r = (180, 0, 0)%Z ->
          width (dr_rect r) = red_w)
      /\ (forall r, In r rects -> dr_color r = (80, 0, 0)%Z ->
          width (dr_rect r) = (260 - red_w)%Z)
      /\ (forall f, In f rects -> dr_color f = (255, 200, 0)%Z ->
          exists pre m,
            rects = pre ++ [f; m]
            /\ dr_color m = (80, 0, 0)%Z
            /\ same_place (dr_rect f) (dr_rect m)
            /\ (0 <= width (dr_rect f) <= width (dr_rect m))%Z)
  end.
Proof.
  apply (player_health_bar_flash_is_covered (mkEnv 0 0 0 true)
           bar_at_full_health 800 1000 100 20 20).
  - reflexivity.
  - split; discriminate.
  - split; [discriminate|cbn; lia].
Defined.

Lemma start_loop_length (screen_h : Z) (files : string -> option (Z * Z))
    (dialogs : list dialog_arg) (acc entries : list dialog_entry) :
  start_loop screen_h files dialogs acc = Ok entries ->
  List.length entries = (List.length acc + List.length dialogs)%nat.
Proof.
  revert acc. induction dialogs as [|d dialogs IH]; intros acc H; cbn in H.
  - injection H as <-. cbn. lia.
  - destruct (scale_portrait screen_h files d) as [e|err]; [|discriminate].
    apply IH in H. rewrite H, length_app. cbn. lia.
Qed.

Lemma DialogSystem_next_iter (ds1 : DialogSystem) (k : nat) :
  ds_active ds1 = true -> ds_index ds1 = 0%Z ->
  let dsk := Nat.iter k DialogSystem_next ds1 in
  ds_index dsk = Z.of_nat k /\ ds_dialogs dsk = ds_dialogs ds1
  /\ ds_active dsk
     = (Nat.eqb k 0 || Nat.ltb k (List.length (ds_dialogs ds1))).
Proof.
  intros Ha Hi. cbv zeta. induction k as [|k IH].
  - cbn. repeat split; assumption.
  - rewrite Nat.iter_succ. destruct IH as (Hk & Hd & Hact).
    set (dsk := Nat.iter k DialogSystem_next ds1) in *. clearbody dsk.
    unfold DialogSystem_next. cbn [ds_index ds_dialogs ds_active].
    rewrite Hk, Hd, Hact. repeat split; [lia|].
    cbn [Nat.eqb orb].
    destruct (Z.of_nat (List.length (ds_dialogs ds1)) <=? Z.of_nat k + 1)%Z
      eqn:E.
    + apply Z.leb_le in E. symmetry. apply Nat.ltb_ge. lia.
    + apply Z.leb_gt in E.
      assert (E1 : Nat.ltb (S k) (List.length (ds_dialogs ds1)) = true)
        by (apply Nat.ltb_lt; lia).
      assert (E2 : Nat.ltb k (List.length (ds_dialogs ds1)) = true)
        by (apply Nat.ltb_lt; lia).
      rewrite E1, E2. apply orb_true_r.
Qed.

(** A dialog that was started walks through its entries: after [k]
    presses there is an entry to draw for every [k] below the number of
    entries, and the first press past the last entry closes the dialog.
    Only a dialog started with no entries at all is open with nothing to
    draw. *)
Theorem DialogSystem_walks (files : string -> option (Z * Z))
    (ds ds1 : DialogSystem) (dialogs : list dialog_arg) (k : nat) :
  DialogSystem_start files ds dialogs = Ok ds1 ->
  let dsk := Nat.iter k DialogSystem_next ds1 in
  ds_index dsk = Z.of_nat k
  /\ List.length (ds_dialogs dsk) = List.length dialogs
  /\ ((k < List.length dialogs)%nat ->
      ds_active dsk = true
      /\ exists e, nth_error (ds_dialogs ds1) k = Some e
                   /\ DialogSystem_current dsk = Ok (Some e))
  /\ ((0 < k)%nat -> (List.length dialogs <= k)%nat ->
      ds_active dsk = false /\ DialogSystem_current dsk = Ok None)
  /\ (k = 0%nat -> dialogs = [] ->
      ds_active dsk = true /\ DialogSystem_current dsk = Raise IndexError).
Proof.
  intros Hst dsk. unfold DialogSystem_start in Hst.
  destruct (start_loop (ds_screen_h ds) files dialogs []) as [entries|err]
    eqn:Hl; [|discriminate].
  injection Hst as <-.
  apply start_loop_length in Hl. cbn [List.length Nat.add] in Hl.
  destruct (DialogSystem_next_iter
              (mkDialogSystem true entries 0 (ds_screen_w ds)
                 (ds_screen_h ds)) k eq_refl eq_refl) as (Hk & Hd & Ha).
  fold dsk in Hk, Hd, Ha. cbn [ds_dialogs] in Hd, Ha |- *.
  rewrite Hd, Hl. split; [exact Hk|]. split; [reflexivity|].
  unfold DialogSystem_current. rewrite Ha, Hk, Hd, Hl.
  repeat split.
  - assert (E : Nat.ltb k (List.length dialogs) = true)
      by now apply Nat.ltb_lt.
    rewrite E. apply orb_true_r.
  - assert (E : Nat.ltb k (List.length dialogs) = true)
      by now apply Nat.ltb_lt.
    rewrite E, orb_true_r. cbn [negb].
    destruct (nth_error entries k) as [e|] eqn:En.
    + exists e. split; [reflexivity|].
      assert (E1 : (Z.of_nat k <? 0)%Z = false) by (apply Z.ltb_ge; lia).
      assert (E2 : (0 <=? Z.of_nat k)%Z = true) by (apply Z.leb_le; lia).
      assert (E3 : (Z.of_nat k <? Z.of_nat (List.length dialogs))%Z = true)
        by (apply Z.ltb_lt; lia).
      rewrite E1, E2, E3, Nat2Z.id, En. reflexivity.
    + apply nth_error_None in En. lia.
  - destruct k; [lia|]. cbn [Nat.eqb orb]. apply Nat.ltb_ge. lia.
  - destruct k; [lia|]. cbn [Nat.eqb orb].
    assert (E : Nat.ltb (S k) (List.length dialogs) = false)
      by (apply Nat.ltb_ge; lia).
    now rewrite E.
  - subst k. reflexivity.
  - subst k. subst dialogs. reflexivity.
Qed.

Lemma DialogSystem_walks_witness :
  let files := fun _ : string => None in
  let dialogs := [mkDialogArg Img_none (Some "Yori"%string);
                  mkDialogArg (Img_surface 100 200) None] in
  match DialogSystem_start files (DialogSystem_init (1280, 720)%Z) dialogs with
  | Ok ds1 =>
      let dsk := Nat.iter 1 DialogSystem_next ds1 in
      ds_active dsk = true
      /\ exists e, nth_error (ds_dialogs ds1) 1 = Some e
                   /\ DialogSystem_current dsk = Ok (Some e)
  | Raise _ => False
  end.
Proof.
  intros files dialogs.
  destruct (DialogSystem_start files (DialogSystem_init (1280, 720)%Z)
              dialogs) as [ds1|err] eqn:E; [|discriminate E].
  apply (DialogSystem_walks files (DialogSystem_init (1280, 720)%Z) ds1
           dialogs 1 E).
  cbn. lia.
Defined.

End UIMore.

(** ** Levels *)

Section LevelMore.

Local Open Scope Q_scope.

(** A background in the middle of its animation: a positive time per
    frame, a timer that has not run out, a frame that exists and a
    blending weight between 0 and 1. *)
Definition animating (ab : AnimatedBackground) : Prop :=
  0 < ab_animation_speed ab
  /\ (0 <= ab_animation_timer ab /\ ab_animation_timer ab < ab_animation_speed ab)
  /\ (0 <= ab_current_frame ab < Z.of_nat (ab_frames ab))%Z
  /\ (0 <= ab_transition_progress ab /\ ab_transition_progress ab <= 1).

(** The animation of the background never leaves its frames: an update
    by [dt >= 0] does not raise and keeps the frame index, the timer and
    the blending weight in range; the frame changes, to the next one
    cyclically, exactly when the timer reaches the time per frame. *)
Theorem AnimatedBackground_update_in_range (ab : AnimatedBackground)
    (dt : Q) :
  animating ab -> 0 <= dt ->
  match AnimatedBackground_update ab dt with
  | Raise _ => False
  | Ok ab' =>
      animating ab' /\ ab_frames ab' = ab_frames ab
      /\ (ab_animation_timer ab + dt < ab_animation_speed ab ->
          ab_current_frame ab' = ab_current_frame ab)
      /\ (ab_animation_speed ab <= ab_animation_timer ab + dt ->
          ab_current_frame ab'
          = ((ab_current_frame ab + 1) mod Z.of_nat (ab_frames ab))%Z
          /\ ab_animation_timer ab' = 0)
  end.
Proof.
  intros (Hs & (Ht0 & Ht1) & Hf & Hp0 & Hp1) Hdt.
  unfold AnimatedBackground_update.
  assert (Es : Qltb 0 (ab_animation_speed ab) = true) by now apply Qltb_lt.
  rewrite Es.
  destruct (Qleb (ab_animation_speed ab) (ab_animation_timer ab + dt)) eqn:E.
  - apply Qleb_le in E.
    destruct (ab_frames ab) as [|n] eqn:En; [cbn in Hf; lia|].
    cbn [ab_animation_speed ab_animation_timer ab_current_frame ab_frames
         ab_transition_progress].
    assert (Hmod : (0 <= (ab_current_frame ab + 1) mod Z.of_nat (S n)
                    < Z.of_nat (S n))%Z)
      by (apply Z.mod_pos_bound; lia).
    unfold animating.
    cbn [ab_animation_speed ab_animation_timer ab_current_frame ab_frames
         ab_transition_progress].
    repeat split; try exact Hs; try lra; try lia; try reflexivity.
  - apply Qleb_gt in E. unfold animating.
    cbn [ab_animation_speed ab_animation_timer ab_current_frame ab_frames
         ab_transition_progress].
    assert (Hq : 0 <= (ab_animation_timer ab + dt) / ab_animation_speed ab).
    { apply Qle_shift_div_l; [exact Hs|]. lra. }
    repeat split; try exact Hs; try lra; try lia; try reflexivity;
      try (apply Q.min_glb; [discriminate|exact Hq]);
      try apply Q.le_min_l;
      try (exfalso; apply (Qlt_irrefl (ab_animation_speed ab)); lra).
Qed.

Lemma AnimatedBackground_update_in_range_witness :
  match AnimatedBackground_update (mkAnimatedBackground 3 2 0.7 0.8 0.875)
          0.2 with
  | Raise _ => False
  | Ok ab' => ab_current_frame ab' = 0%Z /\ ab_animation_timer ab' = 0
  end.
Proof.
  pose proof (AnimatedBackground_update_in_range
                (mkAnimatedBackground 3 2 0.7 0.8 0.875) 0.2) as H.
  destruct (AnimatedBackground_update
              (mkAnimatedBackground 3 2 0.7 0.8 0.875) 0.2) as [ab'|err].
  - destruct H as (_ & _ & _ & H).
    + unfold animating; cbn. repeat split; try discriminate; reflexivity.
    + discriminate.
    + apply H. discriminate.
  - apply H.
    + unfold animating; cbn. repeat split; try discriminate; reflexivity.
    + discriminate.
Defined.

(** The cell of row [r] and column [c] of the map holds a tile that has
    an image. *)
Definition solid_cell (lvl : Level) (r c : nat) : Prop :=
  exists row tid tile,
    nth_error (map_data lvl) r = Some row
    /\ nth_error row c = Some tid
    /\ tid <> (-1)%Z
    /\ tiles_get (tiles lvl) tid = Some tile
    /\ tile_image tile = true.

Definition cell_rect (lvl : Level) (r c : nat) : Rect :=
  mkRect (Z.of_nat c * tile_size lvl) (Z.of_nat r * tile_size lvl)
    (tile_size lvl) (tile_size lvl).

Lemma solid_rects_row_spec (lvl : Level) (r : Z) (row : list Z) (c0 : nat)
    (rect : Rect) :
  In rect (solid_rects_row lvl r (Z.of_nat c0) row)
  <-> exists i tid tile,
        nth_error row i = Some tid /\ tid <> (-1)%Z
        /\ tiles_get (tiles lvl) tid = Some tile
        /\ tile_image tile = true
        /\ rect = mkRect (Z.of_nat (c0 + i) * tile_size lvl)
                    (r * tile_size lvl) (tile_size lvl) (tile_size lvl).
Proof.
  revert c0. induction row as [|tid row IH]; intros c0.
  - cbn. split; [contradiction|].
    intros (i & t & tl & H & _). destruct i; discriminate.
  - cbn [solid_rects_row].
    replace (Z.of_nat c0 + 1)%Z with (Z.of_nat (S c0)) by lia.
    assert (Hrest :
      In rect (solid_rects_row lvl r (Z.of_nat (S c0)) row)
      <-> exists i t tl,
            nth_error (tid :: row) (S i) = Some t /\ t <> (-1)%Z
            /\ tiles_get (tiles lvl) t = Some tl /\ tile_image tl = true
            /\ rect = mkRect (Z.of_nat (c0 + S i) * tile_size lvl)
                        (r * tile_size lvl) (tile_size lvl) (tile_size lvl)).
    { rewrite IH. split; intros (i & t & tl & H); exists i, t, tl;
        cbn [nth_error] in *;
        replace (c0 + S i)%nat with (S c0 + i)%nat in * by lia; exact H. }
    split.
    + intros Hin.
      assert (Hc : In rect (solid_rects_row lvl r (Z.of_nat (S c0)) row)
                   \/ (tid <> (-1)%Z
                       /\ exists tl, tiles_get (tiles lvl) tid = Some tl
                                     /\ tile_image tl = true
                                     /\ rect = mkRect
                                          (Z.of_nat c0 * tile_size lvl)
                                          (r * tile_size lvl)
                                          (tile_size lvl) (tile_size lvl))).
      { destruct (tid =? -1)%Z eqn:E; cbn [negb] in Hin; [now left|].
        apply Z.eqb_neq in E.
        destruct (tiles_get (tiles lvl) tid) as [tl|] eqn:Et; [|now left].
        destruct (tile_image tl) eqn:Ei; [|now left].
        destruct Hin as [<-|Hin]; [|now left].
        right. split; [exact E|]. exists tl. repeat split; auto. }
      destruct Hc as [Hc|(Hne & tl & Ht & Hi & ->)].
      * apply Hrest in Hc. destruct Hc as (i & t & tl & H).
        exists (S i), t, tl. exact H.
      * exists 0%nat, tid, tl. rewrite Nat.add_0_r. repeat split; auto.
    + intros (i & t & tl & Hn & Hne & Ht & Hi & ->).
      destruct i as [|i].
      * cbn in Hn. injection Hn as ->.
        apply Z.eqb_neq in Hne. rewrite Hne. cbn [negb].
        rewrite Ht, Hi, Nat.add_0_r. now left.
      * assert (Hin : In (mkRect (Z.of_nat (c0 + S i) * tile_size lvl)
                            (r * tile_size lvl) (tile_size lvl)
                            (tile_size lvl))
                        (solid_rects_row lvl r (Z.of_nat (S c0)) row)).
        { apply Hrest. exists i, t, tl. repeat split; auto. }
        destruct (negb (tid =? -1)%Z); [|exact Hin].
        destruct (tiles_get (tiles lvl) tid) as [tl'|]; [|exact Hin].
        destruct (tile_image tl'); [now right|exact Hin].
Qed.

Lemma solid_rects_rows_spec (lvl : Level) (rows : list (list Z)) (r0 : nat)
    (rect : Rect) :
  In rect (solid_rects_rows lvl (Z.of_nat r0) rows)
  <-> exists j c row tid tile,
        nth_error rows j = Some row /\ nth_error row c = Some tid
        /\ tid <> (-1)%Z /\ tiles_get (tiles lvl) tid = Some tile
        /\ tile_image tile = true
        /\ rect = mkRect (Z.of_nat c * tile_size lvl)
                    (Z.of_nat (r0 + j) * tile_size lvl)
                    (tile_size lvl) (tile_size lvl).
Proof.
  revert r0. induction rows as [|row rows IH]; intros r0.
  - cbn. split; [contradiction|].
    intros (j & c & rw & t & tl & H & _). destruct j; discriminate.
  - cbn [solid_rects_rows]. rewrite in_app_iff.
    replace (Z.of_nat r0 + 1)%Z with (Z.of_nat (S r0)) by lia.
    rewrite IH. change 0%Z with (Z.of_nat 0).
    rewrite solid_rects_row_spec. split.
    + intros [(c & t & tl & Hn & Hne & Ht & Hi & ->)
             |(j & c & rw & t & tl & Hj & Hn & Hne & Ht & Hi & ->)].
      * exists 0%nat, c, row, t, tl. rewrite Nat.add_0_r. cbn. repeat split; auto.
      * exists (S j), c, rw, t, tl.
        replace (r0 + S j)%nat with (S r0 + j)%nat by lia. cbn. repeat split; auto.
    + intros (j & c & rw & t & tl & Hj & Hn & Hne & Ht & Hi & ->).
      destruct j as [|j].
      * cbn in Hj. injection Hj as ->. left.
        exists c, t, tl. rewrite Nat.add_0_r. cbn. repeat split; auto.
      * right. exists j, c, rw, t, tl.
        replace (S r0 + j)%nat with (r0 + S j)%nat by lia. cbn in Hj. repeat split; auto.
Qed.

(** The solid rectangles of a level are exactly the cells of the map
    that hold a tile with an image, each as the square of the tile size
    at its place in the grid. *)
Theorem Level_get_solid_tile_rects_cells (lvl : Level) (rect : Rect) :
  In rect (Level_get_solid_tile_rects lvl)
  <-> exists r c, solid_cell lvl r c /\ rect = cell_rect lvl r c.
Proof.
  unfold Level_get_solid_tile_rects. change 0%Z with (Z.of_nat 0).
  rewrite solid_rects_rows_spec. unfold solid_cell, cell_rect. split.
  - intros (j & c & row & t & tl & Hj & Hn & Hne & Ht & Hi & ->).
    exists j, c. split; [exists row, t, tl; repeat split; auto|reflexivity].
  - intros (r & c & (row & t & tl & Hj & Hn & Hne & Ht & Hi) & ->).
    exists r, c, row, t, tl. repeat split; auto.
Qed.

(** The cell of row [r] in column [c] holds a tile, with or without an
    image. *)
Definition tile_cell (lvl : Level) (r c : nat) : Prop :=
  exists row tid,
    nth_error (map_data lvl) r = Some row /\ nth_error row c = Some tid
    /\ is_tile lvl tid = true.

(** A map whose rows are as long as its first row. *)
Definition rectangular (rows : list (list Z)) : Prop :=
  forall row, In row rows ->
    List.length row = List.length (hd [] rows).

Lemma nth_error_lt {X : Type} (l : list X) (n : nat) (x : X) :
  nth_error l n = Some x -> (n < List.length l)%nat.
Proof. intros H. apply nth_error_Some. congruence. Qed.

Lemma ground_scan_spec (lvl : Level) (col : nat) (rows : list (list Z)) :
  (forall row, In row rows -> (col < List.length row)%nat) ->
  match ground_scan lvl col (rev rows) (Z.of_nat (List.length rows)) with
  | Raise _ => False
  | Ok None =>
      forall r row tid,
        nth_error rows r = Some row -> nth_error row col = Some tid ->
        is_tile lvl tid = false
  | Ok (Some y) =>
      exists r row tid,
        nth_error rows r = Some row /\ nth_error row col = Some tid
        /\ is_tile lvl tid = true
        /\ y = (Z.of_nat r * tile_size lvl)%Z
        /\ forall r' row' tid',
             (r < r')%nat -> nth_error rows r' = Some row' ->
             nth_error row' col = Some tid' -> is_tile lvl tid' = false
  end.
Proof.
  induction rows as [|row rows IH] using rev_ind; intros Hlen.
  - cbn. intros r row tid H. destruct r; discriminate.
  - rewrite rev_app_distr, length_app. cbn [rev app List.length ground_scan].
    assert (Hrow : (col < List.length row)%nat)
      by (apply Hlen, in_or_app; right; now left).
    destruct (nth_error row col) as [tid|] eqn:En;
      [|apply nth_error_None in En; lia].
    assert (Hlast : nth_error (rows ++ [row]) (List.length rows) = Some row).
    { rewrite nth_error_app2 by lia. now rewrite Nat.sub_diag. }
    replace (Z.of_nat (List.length rows + 1) - 1)%Z
      with (Z.of_nat (List.length rows)) by lia.
    destruct (is_tile lvl tid) eqn:Et.
    + exists (List.length rows), row, tid. repeat split; auto.
      intros r' row' tid' Hr Hn. apply nth_error_lt in Hn.
      rewrite length_app in Hn. cbn in Hn. lia.
    + specialize (IH (fun rw Hin => Hlen rw (in_or_app _ _ _ (or_introl Hin)))).
      destruct (ground_scan lvl col (rev rows) (Z.of_nat (List.length rows)))
        as [[y|]|err]; [| |exact IH].
      * destruct IH as (r & rw & t & Hr & Hn & Ht & Hy & Hbelow).
        assert (Hlt : (r < List.length rows)%nat)
          by (apply nth_error_lt in Hr; exact Hr).
        exists r, rw, t. repeat split; auto.
        -- rewrite nth_error_app1 by exact Hlt. exact Hr.
        -- intros r' row' tid' Hr' Hn'.
           destruct (Nat.lt_ge_cases r' (List.length rows)) as [Hc|Hc].
           ++ rewrite nth_error_app1 in Hn' by exact Hc.
              now apply (Hbelow r' row' tid').
           ++ assert (r' = List.length rows).
              { apply nth_error_lt in Hn'. rewrite length_app in Hn'.
                cbn in Hn'. lia. }
              subst r'. rewrite Hlast in Hn'. injection Hn' as <-.
              intros Hc'. congruence.
      * intros r rw t Hr Hn.
        destruct (Nat.lt_ge_cases r (List.length rows)) as [Hc|Hc].
        -- rewrite nth_error_app1 in Hr by exact Hc. now apply (IH r rw t).
        -- assert (r = List.length rows).
           { apply nth_error_lt in Hr. rewrite length_app in Hr.
             cbn in Hr. lia. }
           subst r. rewrite Hlast in Hr. injection Hr as <-. congruence.
Qed.

(** The ground under a point of a rectangular map is the top of the
    lowest tile of its column, the one with the largest row: the scan
    starts at the bottom row and stops at the first tile, so tiles above
    it are not looked at.  Outside the columns of the map, and in a
    column without a tile, there is no ground. *)
Theorem Level_get_ground_y_at_lowest (lvl : Level) (x_pixel : Z) :
  (0 < tile_size lvl)%Z -> rectangular (map_data lvl) ->
  let col := (x_pixel / tile_size lvl)%Z in
  let cols := Z.of_nat (List.length (hd [] (map_data lvl))) in
  match Level_get_ground_y_at lvl x_pixel with
  | Raise _ => False
  | Ok None =>
      (col < 0)%Z \/ (cols <= col)%Z
      \/ forall r, ~ tile_cell lvl r (Z.to_nat col)
  | Ok (Some y) =>
      (0 <= col < cols)%Z
      /\ exists r,
           tile_cell lvl r (Z.to_nat col)
           /\ y = (Z.of_nat r * tile_size lvl)%Z
           /\ forall r', (r < r')%nat -> ~ tile_cell lvl r' (Z.to_nat col)
  end.
Proof.
  intros Hts Hrect col cols. unfold Level_get_ground_y_at.
  assert (E : (tile_size lvl =? 0)%Z = false) by (apply Z.eqb_neq; lia).
  rewrite E. fold col.
  assert (Hcols : match map_data lvl with
                  | row :: _ => Z.of_nat (List.length row)
                  | [] => 0%Z
                  end = cols).
  { unfold cols. destruct (map_data lvl); reflexivity. }
  rewrite Hcols.
  destruct ((col <? 0)%Z || (cols <=? col)%Z) eqn:Eo.
  - apply orb_true_iff in Eo. destruct Eo as [Eo|Eo].
    + left. now apply Z.ltb_lt.
    + right. left. now apply Z.leb_le.
  - apply orb_false_iff in Eo. destruct Eo as (E1 & E2).
    apply Z.ltb_ge in E1. apply Z.leb_gt in E2.
    pose proof (ground_scan_spec lvl (Z.to_nat col) (map_data lvl)) as H.
    assert (Hlen : forall row, In row (map_data lvl) ->
                     (Z.to_nat col < List.length row)%nat).
    { intros row Hin. rewrite (Hrect row Hin). unfold cols in E2. lia. }
    specialize (H Hlen).
    destruct (ground_scan lvl (Z.to_nat col) (rev (map_data lvl))
                (Z.of_nat (List.length (map_data lvl)))) as [[y|]|err];
      [| |exact H].
    + destruct H as (r & row & tid & Hr & Hn & Ht & Hy & Hab).
      split; [lia|]. exists r. split; [exists row, tid; auto|].
      split; [exact Hy|].
      intros r' Hlt (row' & tid' & Hr' & Hn' & Ht').
      rewrite (Hab r' row' tid' Hlt Hr' Hn') in Ht'. discriminate.
    + right. right. intros r (row & tid & Hr & Hn & Ht).
      rewrite (H r row tid Hr Hn) in Ht. discriminate.
Qed.

(** A level with a column of three tiles. *)
Definition tower_level : Level :=
  mkLevel [[-1; 0]; [-1; 0]; [0; 0]]%Z [(0%Z, mkTile 0 true true)] None
    0.8 64.

Lemma Level_get_ground_y_at_lowest_witness :
  match Level_get_ground_y_at tower_level 70 with
  | Raise _ => False
  | Ok None =>
      (70 / 64 < 0)%Z \/ (2 <= 70 / 64)%Z
      \/ forall r, ~ tile_cell tower_level r (Z.to_nat (70 / 64))
  | Ok (Some y) =>
      (0 <= 70 / 64 < 2)%Z
      /\ exists r,
           tile_cell tower_level r (Z.to_nat (70 / 64))
           /\ y = (Z.of_nat r * 64)%Z
           /\ forall r', (r < r')%nat ->
                ~ tile_cell tower_level r' (Z.to_nat (70 / 64))
  end.
Proof.
  apply (Level_get_ground_y_at_lowest tower_level 70).
  - reflexivity.
  - intros row Hin. cbn in Hin.
    destruct Hin as [<-|[<-|[<-|[]]]]; reflexivity.
Defined.

Lemma sorted_insert_In (x y : string) (l : list string) :
  In y (sorted_insert x l) <-> x = y \/ In y l.
Proof.
  induction l as [|z l IH]; cbn; [tauto|].
  destruct (String.leb x z); cbn; [tauto|]. rewrite IH. tauto.
Qed.

Lemma sorted_In (y : string) (l : list string) : In y (sorted l) <-> In y l.
Proof.
  induction l as [|x l IH]; cbn; [tauto|].
  rewrite sorted_insert_In, IH. tauto.
Qed.

Lemma sorted_insert_NoDup (x : string) (l : list string) :
  ~ In x l -> NoDup l -> NoDup (sorted_insert x l).
Proof.
  intros Hx Hnd. induction Hnd as [|z l Hz Hnd IH]; cbn.
  - constructor; [tauto|constructor].
  - destruct (String.leb x z).
    + constructor; [exact Hx|now constructor].
    + constructor.
      * rewrite sorted_insert_In. cbn in Hx. intros [->|H]; tauto.
      * apply IH. cbn in Hx. tauto.
Qed.

Lemma sorted_NoDup (l : list string) : NoDup l -> NoDup (sorted l).
Proof.
  induction 1 as [|x l Hx Hnd IH]; cbn; [constructor|].
  apply sorted_insert_NoDup; [now rewrite sorted_In|exact IH].
Qed.

Lemma index_nth (names : list string) (name : string) (i : Z) :
  index names name = Some i ->
  (0 <= i < Z.of_nat (List.length names))%Z
  /\ nth_error names (Z.to_nat i) = Some name.
Proof.
  revert i. induction names as [|x names IH]; intros i H; cbn in H;
    [discriminate|].
  destruct (String.eqb x name) eqn:E.
  - injection H as <-. apply String.eqb_eq in E. subst. cbn. split; [lia|auto].
  - destruct (index names name) as [j|]; [|discriminate].
    injection H as <-. destruct (IH j eq_refl) as (Hj & Hn).
    cbn [List.length]. split; [lia|].
    replace (Z.to_nat (Z.succ j)) with (S (Z.to_nat j)) by lia. exact Hn.
Qed.

Lemma nth_index (names : list string) (n : nat) (name : string) :
  NoDup names -> nth_error names n = Some name ->
  index names name = Some (Z.of_nat n).
Proof.
  intros Hnd. revert n. induction Hnd as [|x names Hx Hnd IH]; intros n H.
  - destruct n; discriminate.
  - destruct n as [|n]; cbn in H |- *.
    + injection H as ->. now rewrite String.eqb_refl.
    + assert (E : String.eqb x name = false).
      { apply String.eqb_neq. intros ->. apply Hx.
        eapply nth_error_In; eassumption. }
      rewrite E, (IH n H). cbn. f_equal. lia.
Qed.

Lemma index_In (names : list string) (name : string) :
  In name names -> exists i, index names name = Some i.
Proof.
  induction names as [|x names IH]; [contradiction|].
  intros Hin. cbn. destruct (String.eqb x name) eqn:E; [eauto|].
  apply String.eqb_neq in E. destruct Hin as [->|Hin]; [congruence|].
  destruct (IH Hin) as (i & ->). cbn. eauto.
Qed.

Lemma levels_get_In (levels : list (string * Level)) (name : string) :
  In name (map fst levels) -> exists lvl, levels_get levels name = Some lvl.
Proof.
  induction levels as [|[k l] levels IH]; [contradiction|].
  intros Hin. cbn. destruct (String.eqb k name) eqn:E; [eauto|].
  apply String.eqb_neq in E. destruct Hin as [Hin|Hin]; [cbn in Hin; congruence|].
  exact (IH Hin).
Qed.

(** One step through the sorted names from a level that is loaded. *)
Lemma LevelManager_step_spec (lm : LevelManager) (step : Z) (name : string)
    (i : Z) :
  let names := sorted (LevelManager_get_available_levels lm) in
  current_level_name lm = Some name ->
  index names name = Some i ->
  exists nxt lvl,
    nth_error names
      (Z.to_nat ((i + step) mod Z.of_nat (List.length names))) = Some nxt
    /\ levels_get (levels lm) nxt = Some lvl
    /\ LevelManager_step lm step
       = (mkLevelManager (levels lm) (Some lvl) (Some nxt), true).
Proof.
  intros names Hc Hi. unfold LevelManager_step. fold names.
  rewrite Hc, Hi.
  destruct (index_nth names name i Hi) as (Hr & _).
  assert (Hm : (0 <= (i + step) mod Z.of_nat (List.length names)
                < Z.of_nat (List.length names))%Z)
    by (apply Z.mod_pos_bound; lia).
  destruct (nth_error names
              (Z.to_nat ((i + step) mod Z.of_nat (List.length names))))
    as [nxt|] eqn:En; [|apply nth_error_None in En; lia].
  assert (Hin : In nxt (map fst (levels lm))).
  { apply sorted_In. eapply nth_error_In; exact En. }
  destruct (levels_get_In _ _ Hin) as (lvl & Hl).
  exists nxt, lvl. unfold LevelManager_set_current_level.
  rewrite Hl. auto.
Qed.

(** Going to the next level and then to the previous one comes back to
    the level one started from, also around the ends of the sorted names,
    and both calls succeed.  The dict of levels has each name once, and
    the current level is the one loaded under the current name. *)
Theorem LevelManager_next_then_previous (lm : LevelManager) (name : string)
    (lvl : Level) :
  NoDup (LevelManager_get_available_levels lm) ->
  current_level_name lm = Some name ->
  levels_get (levels lm) name = Some lvl ->
  current_level lm = Some lvl ->
  let '(lm1, ok1) := LevelManager_next_level lm in
  ok1 = true /\ LevelManager_previous_level lm1 = (lm, true).
Proof.
  intros Hnd Hc Hl Hcur.
  set (names := sorted (LevelManager_get_available_levels lm)).
  assert (Hnd' : NoDup names) by now apply sorted_NoDup.
  assert (Hin : In name names).
  { apply sorted_In.
    clear - Hl. unfold LevelManager_get_available_levels.
    induction (levels lm) as [|[k l] ls IH]; [discriminate|].
    cbn in Hl |- *. destruct (String.eqb k name) eqn:E.
    - left. now apply String.eqb_eq.
    - right. auto. }
  destruct (index_In names name Hin) as (i & Hi).
  destruct (index_nth names name i Hi) as (Hr & Hn).
  unfold LevelManager_next_level, LevelManager_previous_level.
  destruct (LevelManager_step_spec lm 1 name i Hc Hi)
    as (nxt & lvl1 & Hn1 & Hl1 & ->).
  fold names in Hn1. split; [reflexivity|].
  set (j := ((i + 1) mod Z.of_nat (List.length names))%Z) in *.
  assert (Hj : (0 <= j < Z.of_nat (List.length names))%Z)
    by (apply Z.mod_pos_bound; lia).
  assert (Hij : index names nxt = Some j).
  { rewrite (nth_index names (Z.to_nat j) nxt Hnd' Hn1). f_equal. lia. }
  destruct (LevelManager_step_spec
              (mkLevelManager (levels lm) (Some lvl1) (Some nxt)) (-1)
              nxt j eq_refl Hij) as (back & lvl2 & Hn2 & Hl2 & ->).
  change (sorted (LevelManager_get_available_levels
                    (mkLevelManager (levels lm) (Some lvl1) (Some nxt))))
    with names in Hn2.
  cbn [levels] in *.
  assert (Hback : ((j + -1) mod Z.of_nat (List.length names))%Z = i).
  { unfold j. set (n := Z.of_nat (List.length names)) in *.
    destruct (Z.eq_dec (i + 1) n) as [E|E].
    - rewrite E, Z.mod_same by lia. cbn.
      replace (-1)%Z with (n - 1 + (-1) * n)%Z by lia.
      rewrite Z.mod_add by lia. rewrite Z.mod_small by lia. lia.
    - rewrite (Z.mod_small (i + 1)) by lia.
      replace (i + 1 + -1)%Z with i by lia. apply Z.mod_small. lia. }
  rewrite Hback, Hn in Hn2. injection Hn2 as <-.
  rewrite Hl in Hl2. injection Hl2 as <-.
  destruct lm as [ls cl cn]. cbn in Hc, Hcur |- *. now rewrite Hc, Hcur.
Qed.

(** Three levels loaded in an order that is not the sorted one, the last
    of the sorted names being the current one. *)
Definition three_levels : LevelManager :=
  mkLevelManager
    [("level1"%string, tower_level); ("level2"%string, tower_level);
     ("level0"%string, tower_level)]
    (Some tower_level) (Some "level2"%string).

Lemma LevelManager_next_then_previous_witness :
  let '(lm1, ok1) := LevelManager_next_level three_levels in
  ok1 = true /\ LevelManager_previous_level lm1 = (three_levels, true).
Proof.
  apply (LevelManager_next_then_previous three_levels "level2"%string
           tower_level).
  - cbn. repeat constructor; cbn; intuition discriminate.
  - reflexivity.
  - reflexivity.
  - reflexivity.
Defined.

End LevelMore.

(** ** The main loop *)

Section MainMore.

Local Open Scope Z_scope.

Lemma fold_left_add (l : list Z) (a : Z) :
  fold_left Z.add l a = a + fold_left Z.add l 0.
Proof.
  revert a. induction l as [|w l IH]; intros a; cbn; [lia|].
  rewrite (IH (a + w)), (IH w). lia.
Qed.

Lemma level_index_from_finds (widths : list Z) (acc i0 x : Z) :
  (forall w, In w widths -> 0 < w) ->
  acc <= x < acc + fold_left Z.add widths 0 ->
  exists (k : nat) (s w : Z),
    level_index_from i0 (level_start_x_from acc widths) widths x
    = Some (i0 + Z.of_nat k)
    /\ nth_error (level_start_x_from acc widths) k = Some s
    /\ nth_error widths k = Some w
    /\ s <= x < s + w
    /\ forall (j : nat) s' w',
         nth_error (level_start_x_from acc widths) j = Some s' ->
         nth_error widths j = Some w' -> s' <= x < s' + w' -> j = k.
Proof.
  revert acc i0. induction widths as [|w widths IH]; intros acc i0 Hpos Hx.
  - cbn in Hx. lia.
  - cbn [level_start_x_from level_index_from].
    cbn [fold_left] in Hx. rewrite fold_left_add in Hx.
    assert (Hw : 0 < w) by (apply Hpos; now left).
    assert (Hmono : forall (j : nat) s' a ws,
               (forall w0, In w0 ws -> 0 < w0) ->
               nth_error (level_start_x_from a ws) j = Some s' -> a <= s').
    { intros j s' a ws. revert j a.
      induction ws as [|w0 ws IHw]; intros j a Hp Hn.
      - destruct j; discriminate.
      - destruct j as [|j]; cbn in Hn.
        + injection Hn as <-. lia.
        + apply IHw in Hn; [|intros; apply Hp; now right].
          assert (0 < w0) by (apply Hp; now left). lia. }
    destruct ((acc <=? x) && (x <? acc + w)) eqn:E.
    + apply andb_true_iff in E. destruct E as (E1 & E2).
      apply Z.leb_le in E1. apply Z.ltb_lt in E2.
      exists 0%nat, acc, w. cbn. repeat split; try lia; try (f_equal; lia).
      intros j s' w' Hs' Hw' Hin. destruct j as [|j]; [reflexivity|].
      cbn in Hs'. apply Hmono in Hs'; [lia|].
      intros; apply Hpos; now right.
    + assert (Hx' : acc + w <= x < acc + w + fold_left Z.add widths 0).
      { apply andb_false_iff in E. destruct E as [E|E].
        - apply Z.leb_gt in E. lia.
        - apply Z.ltb_ge in E. lia. }
      destruct (IH (acc + w) (i0 + 1)
                  (fun w0 H => Hpos w0 (or_intror H)) Hx')
        as (k & s & w1 & Hf & Hs & Hw1 & Hin & Huniq).
      exists (S k), s, w1. cbn [nth_error]. repeat split; try lia; auto.
      * rewrite Hf. f_equal. lia.
      * intros j s' w' Hs' Hw' Hin'. destruct j as [|j].
        -- cbn in Hs', Hw'. injection Hs' as <-. injection Hw' as <-. lia.
        -- f_equal. eapply Huniq; eauto.
Qed.

(** The levels lie side by side and fill the world: every [x] from 0 up
    to the total width lies in the span of exactly one level, and the
    loop over the levels finds that level, whatever the fallback index. *)
Theorem level_index_at_finds (widths : list Z) (current_level_idx x : Z) :
  (forall w, In w widths -> 0 < w) ->
  0 <= x < total_world_width widths ->
  let starts := level_start_x widths in
  exists (i : nat) (s w : Z),
    level_index_at starts widths current_level_idx x = Z.of_nat i
    /\ nth_error starts i = Some s /\ nth_error widths i = Some w
    /\ s <= x < s + w
    /\ forall (j : nat) s' w',
         nth_error starts j = Some s' -> nth_error widths j = Some w' ->
         s' <= x < s' + w' -> j = i.
Proof.
  intros Hpos Hx starts. unfold total_world_width in Hx.
  destruct (level_index_from_finds widths 0 0 x Hpos ltac:(lia))
    as (k & s & w & Hf & Hs & Hw & Hin & Hu).
  exists k, s, w. unfold level_index_at, starts, level_start_x.
  rewrite Hf. repeat split; auto; lia.
Qed.

Lemma level_index_at_finds_witness :
  exists (i : nat) (s w : Z),
    level_index_at (level_start_x [1280; 640; 1280]) [1280; 640; 1280] 0 1500
    = Z.of_nat i
    /\ nth_error (level_start_x [1280; 640; 1280]) i = Some s
    /\ nth_error [1280; 640; 1280] i = Some w
    /\ s <= 1500 < s + w
    /\ forall (j : nat) s' w',
         nth_error (level_start_x [1280; 640; 1280]) j = Some s' ->
         nth_error [1280; 640; 1280] j = Some w' ->
         s' <= 1500 < s' + w' -> j = i.
Proof.
  apply (level_index_at_finds [1280; 640; 1280] 0 1500).
  - intros w [<-|[<-|[<-|[]]]]; reflexivity.
  - cbn. lia.
Defined.




Lemma clamp_camera_range (cam total screen : Z) :
  0 <= clamp_camera cam total screen <= Z.max 0 (total - screen).
Proof. unfold clamp_camera. lia. Qed.

Lemma current_enemies_loop_empty (idx : nat) (starts widths : list Z)
    (enemies l : list Enemy) :
  current_enemies_loop idx starts widths enemies = Ok l -> l = [].
Proof.
  revert l. induction enemies as [|e enemies IH]; intros l H; cbn in H.
  - now injection H as <-.
  - destruct (nth_error starts idx) as [s|]; [|discriminate].
    destruct (s <=? e_rect_centerx e).
    + destruct (nth_error widths idx) as [w|]; [|discriminate].
      destruct (current_enemies_loop idx starts widths enemies) as [l'|];
        [|discriminate].
      unfold Enemy_hasattr_health in H. rewrite andb_false_r in H.
      cbn in H. injection H as <-. now apply IH.
    + destruct (current_enemies_loop idx starts widths enemies) as [l'|];
        [|discriminate].
      injection H as <-. now apply IH.
Qed.

(** The world without its mooks. *)
Definition without_mooks (w : World) : World :=
  mkWorld (w_player w) [] (w_yori w).

(** Wherever the camera is put, it stays inside the world: between 0 and
    the world's size less the screen's (or at 0 when the screen is the
    larger).  And the mooks never move it: the branch that would centre
    it between the player and a mook asks for an attribute [health] that
    no mook has, so the camera is where it would be without them. *)
Theorem calculate_dynamic_camera_in_world (env : Env)
    (current_level_idx : Z) (starts widths : list Z) (w : World)
    (screen_width screen_height total_world_width bg_height
       footer_margin : Z) :
  match calculate_dynamic_camera env current_level_idx starts widths w
          screen_width screen_height total_world_width bg_height
          footer_margin with
  | Raise _ => w_enemies w <> []
  | Ok (cam_x, cam_y) =>
      0 <= cam_x <= Z.max 0 (total_world_width - screen_width)
      /\ 0 <= cam_y <= Z.max 0 (bg_height - screen_height)
      /\ calculate_dynamic_camera env current_level_idx starts widths
           (without_mooks w) screen_width screen_height total_world_width
           bg_height footer_margin
         = Ok (cam_x, cam_y)
  end.
Proof.
  unfold calculate_dynamic_camera. cbn [without_mooks w_player w_yori w_enemies].
  cbn [current_enemies_loop].
  destruct (current_level_idx =? 0).
  { repeat split; try apply clamp_camera_range. }
  destruct (ystate_eqb (y_state (w_yori w)) Y_die
            && Qltb (now env - y_death_time (w_yori w)) 5).
  { repeat split; try apply clamp_camera_range. }
  destruct ((current_level_idx =? 2) || (current_level_idx =? 3)
            || (current_level_idx =? 4)).
  - destruct (current_enemies_loop (Z.to_nat current_level_idx) starts
                widths (w_enemies w)) as [l|err] eqn:El.
    + apply current_enemies_loop_empty in El. subst l.
      destruct ((current_level_idx =? 5) && Yori_alive (w_yori w));
        repeat split; try apply clamp_camera_range.
    + intros Hn. rewrite Hn in El. discriminate.
  - destruct ((current_level_idx =? 5) && Yori_alive (w_yori w));
      repeat split; try apply clamp_camera_range.
Qed.







Lemma find_closest_loop_min (c : Z * Z) (enemies : list (nat * Enemy)) :
  forall (ce : option nat) (cd : option Z),
    (exists k e,
        find_closest_loop c enemies ce cd = Some k /\ In (k, e) enemies
        /\ (forall j e', In (j, e') enemies ->
              dist2 (e_rect_centerx e, e_rect_centery e) c
              <= dist2 (e_rect_centerx e', e_rect_centery e') c)
        /\ (forall d, cd = Some d ->
              dist2 (e_rect_centerx e, e_rect_centery e) c < d))
    \/ (find_closest_loop c enemies ce cd = ce
        /\ (enemies = [] \/ exists d, cd = Some d)
        /\ forall d, cd = Some d -> forall j e', In (j, e') enemies ->
             d <= dist2 (e_rect_centerx e', e_rect_centery e') c).
Proof.
  induction enemies as [|[i e] enemies IH]; intros ce cd.
  - right. cbn. repeat split; auto. intros d _ j e' [].
  - cbn [find_closest_loop].
    set (De := dist2 (e_rect_centerx e, e_rect_centery e) c).
    destruct (match cd with
              | Some d => De <? d
              | None => true
              end) eqn:Hc.
    + assert (Hd : forall d, cd = Some d -> De < d).
      { intros d ->. now apply Z.ltb_lt. }
      left. destruct (IH (Some i) (Some De))
        as [(k & e2 & Hr & Hin & Hmin & Hlt)|(Hr & _ & Hge)].
      * exists k, e2. specialize (Hlt De eq_refl).
        repeat split; auto.
        -- now right.
        -- intros j e' [E|Hin']; [|now apply (Hmin j)].
           injection E as <- <-. fold De. lia.
        -- intros d E. specialize (Hd d E). lia.
      * exists i, e. repeat split; auto.
        -- now left.
        -- intros j e' [E|Hin']; [|now apply (Hge De eq_refl j)].
           injection E as <- <-. lia.
    + destruct cd as [d|]; [|discriminate]. apply Z.ltb_ge in Hc.
      destruct (IH ce (Some d))
        as [(k & e2 & Hr & Hin & Hmin & Hlt)|(Hr & _ & Hge)].
      * left. exists k, e2. specialize (Hlt d eq_refl).
        repeat split; auto.
        -- now right.
        -- intros j e' [E|Hin']; [|now apply (Hmin j)].
           injection E as <- <-. fold De. lia.
        -- intros d' E. injection E as <-. exact Hlt.
      * right. repeat split; auto.
        -- right. now exists d.
        -- intros d' E j e' [E'|Hin'].
           ++ injection E as <-. injection E' as <- <-. exact Hc.
           ++ now apply (Hge d' E j).
Qed.

Lemma find_closest_enemy_min (p : Player) (enemies : list (nat * Enemy)) :
  enemies <> [] ->
  exists k e,
    find_closest_enemy p enemies = Some k /\ In (k, e) enemies
    /\ forall j e', In (j, e') enemies ->
         dist2 (e_rect_centerx e, e_rect_centery e)
           (p_rect_centerx p, p_rect_centery p)
         <= dist2 (e_rect_centerx e', e_rect_centery e')
              (p_rect_centerx p, p_rect_centery p).
Proof.
  intros Hne. unfold find_closest_enemy.
  destruct enemies as [|a enemies]; [contradiction|].
  destruct (find_closest_loop_min (p_rect_centerx p, p_rect_centery p)
              (a :: enemies) None None)
    as [(k & e & Hr & Hin & Hmin & _)|(_ & [H|(d & H)] & _)];
    try discriminate.
  exists k, e. auto.
Qed.

Lemma In_combine_seq (l : list Enemy) :
  forall (s k : nat) (e : Enemy),
    In (k, e) (combine (seq s (List.length l)) l)
    <-> exists k', k = (s + k')%nat /\ nth_error l k' = Some e.
Proof.
  induction l as [|a l IH]; intros s k e; cbn [List.length seq combine].
  - split; [intros []|]. intros (k' & _ & H). destruct k'; discriminate.
  - split.
    + intros [E|H].
      * injection E as <- <-. exists 0%nat. split; [lia|reflexivity].
      * apply IH in H. destruct H as (k' & -> & H).
        exists (S k'). split; [lia|exact H].
    + intros (k' & -> & H). destruct k' as [|k'].
      * left. cbn in H. injection H as <-. f_equal. lia.
      * right. apply IH. exists k'. split; [lia|exact H].
Qed.

Lemma In_indexed (l : list Enemy) (k : nat) (e : Enemy) :
  In (k, e) (indexed l) <-> nth_error l k = Some e.
Proof.
  unfold indexed. rewrite In_combine_seq. split.
  - intros (k' & -> & H). exact H.
  - intros H. now exists k.
Qed.

Lemma estate_eqb_attack (s : estate) :
  estate_eqb s E_attack = true <-> s = E_attack.
Proof. destruct s; cbn; split; congruence. Qed.

(** Dynamic targeting leaves the mooks and the boss alone and picks the
    player's target: the boss in level 5 while it lives; otherwise the
    nearest living mook, where a living mook that is attacking comes
    before any that is not; and the old target when no mook is alive. *)
Theorem dynamic_targeting_closest (current_level_idx : Z) (w : World) :
  let w' := dynamic_targeting current_level_idx w in
  let D e := dist2 (e_rect_centerx e, e_rect_centery e)
               (p_rect_centerx (w_player w), p_rect_centery (w_player w)) in
  w_enemies w' = w_enemies w /\ w_yori w' = w_yori w
  /\ if (current_level_idx =? 5) && Yori_alive (w_yori w)
     then p_target (w_player w') = Some Ref_yori
     else
       ((forall e, In e (w_enemies w) -> targetable e = false)
        /\ p_target (w_player w') = p_target (w_player w))
       \/ exists i e,
            p_target (w_player w') = Some (Ref_enemy i)
            /\ nth_error (w_enemies w) i = Some e
            /\ targetable e = true
            /\ (forall j e', nth_error (w_enemies w) j = Some e' ->
                  targetable e' = true -> e_state e' = E_attack ->
                  e_state e = E_attack)
            /\ (forall j e', nth_error (w_enemies w) j = Some e' ->
                  targetable e' = true ->
                  e_state e' = E_attack \/ e_state e <> E_attack ->
                  D e <= D e').
Proof.
  cbv zeta. unfold dynamic_targeting. cbv zeta.
  set (en := indexed (w_enemies w)).
  set (p2 := match filter attacking_alive en with
             | [] => _
             | _ :: _ => _
             end).
  split; [reflexivity|]. split; [reflexivity|].
  destruct ((current_level_idx =? 5) && Yori_alive (w_yori w));
    [reflexivity|].
  cbn [w_player set_w_player].
  assert (Hatt : forall j e', In (j, e') (filter attacking_alive en)
                 <-> nth_error (w_enemies w) j = Some e'
                     /\ e_state e' = E_attack /\ targetable e' = true).
  { intros j e'. rewrite filter_In. unfold en, attacking_alive.
    rewrite In_indexed. cbn [snd]. rewrite andb_true_iff, estate_eqb_attack.
    tauto. }
  assert (Hliv : forall j e',
             In (j, e') (filter (fun ie => targetable (snd ie)) en)
             <-> nth_error (w_enemies w) j = Some e'
                 /\ targetable e' = true).
  { intros j e'. rewrite filter_In. unfold en. rewrite In_indexed.
    cbn [snd]. tauto. }
  subst p2.
  destruct (filter attacking_alive en) as [|a att] eqn:EA.
  - destruct (filter (fun ie => targetable (snd ie)) en) as [|b al] eqn:EL.
    + left. split; [|reflexivity].
      intros e Hin. destruct (targetable e) eqn:Ht; [|reflexivity].
      apply In_nth_error in Hin. destruct Hin as (j & Hj).
      destruct (proj2 (Hliv j e) (conj Hj Ht)).
    + right.
      destruct (find_closest_enemy_min (w_player w) (b :: al)
                  ltac:(discriminate)) as (k & e & Hr & Hin & Hmin).
      rewrite Hr. exists k, e.
      apply Hliv in Hin. destruct Hin as (Hk & Ht).
      split; [reflexivity|]. split; [exact Hk|]. split; [exact Ht|].
      split.
      * intros j e' Hj Ht' Hs'.
        destruct (proj2 (Hatt j e') (conj Hj (conj Hs' Ht'))).
      * intros j e' Hj Ht' _. apply (Hmin j). apply Hliv. now split.
  - right.
    destruct (find_closest_enemy_min (w_player w) (a :: att)
                ltac:(discriminate)) as (k & e & Hr & Hin & Hmin).
    rewrite Hr. exists k, e.
    apply Hatt in Hin. destruct Hin as (Hk & Hs & Ht).
    split; [reflexivity|]. split; [exact Hk|]. split; [exact Ht|].
    split.
    + intros; exact Hs.
    + intros j e' Hj Ht' [Hs'|Hn]; [|contradiction].
      apply (Hmin j). apply Hatt. auto.
Qed.

End MainMore.

(** ** More on the boss *)

Section YoriMore.

Local Open Scope Q_scope.

(** Ticks of the boss at the clock readings [envs]: the target is handed
    from tick to tick and the reports are collected. *)
Fixpoint Yori_updates (A : YoriAnims) (envs : list Env) (y : Yori)
    (target : option Player) : Yori * option Player * list event :=
  match envs with
  | [] => (y, target, [])
  | env :: envs =>
      let '(y1, target1, out1) := Yori_update A env y target in
      let '(y2, target2, out2) := Yori_updates A envs y1 target1 in
      (y2, target2, out1 ++ out2)
  end.

(** The hits of a fight, each with the clock and the draw of its moment,
    its damage and whether a UI is handed in. *)
Fixpoint Yori_hits (hits : list (Env * Z * bool)) (y : Yori)
    (target : option Player) : Yori :=
  match hits with
  | [] => y
  | (env, damage, ui_system) :: hits =>
      Yori_hits hits
        (fst (fst (Yori_take_damage env y target damage ui_system))) target
  end.

(** What a dying boss keeps through a tick. *)
Definition Yori_kept (y y1 : Yori) : Prop :=
  y_state y1 = y_state y /\ y_current_health y1 = y_current_health y
  /\ y_is_active y1 = y_is_active y.

Lemma Yori_kept_trans (a b c : Yori) :
  Yori_kept a b -> Yori_kept b c -> Yori_kept a c.
Proof.
  unfold Yori_kept. intros (H1 & H2 & H3) (H4 & H5 & H6).
  repeat split; etransitivity; eassumption.
Qed.

Lemma Yori_update_physics_die (env : Env) (y : Yori)
    (target : option Player) :
  y_state y = Y_die -> Yori_kept y (Yori_update_physics env y target).
Proof.
  intros Hs. unfold Yori_update_physics.
  assert (H1 : Yori_kept y (Yori_tick_skill_cooldown y)).
  { unfold Yori_tick_skill_cooldown.
    destruct (Qltb 0 (y_skill_cooldown y)); repeat split. }
  set (y1 := Yori_tick_skill_cooldown y) in *.
  assert (Hs1 : y_state y1 = Y_die).
  { destruct H1 as (E & _). now rewrite E. }
  clearbody y1.
  assert (H2 : Yori_kept y1 (Yori_use_queued_skill env y1 target)).
  { unfold Yori_use_queued_skill.
    destruct (y_should_use_skill y1 && Qleb (y_skill_cooldown y1) 0);
      [|repeat split].
    unfold Yori_start_skill_attack.
    change (y_state (set_y_should_use_skill y1 false)) with (y_state y1).
    rewrite Hs1. cbn [ystate_eqb negb andb]. repeat split. }
  cbv zeta.
  eapply Yori_kept_trans; [exact H1|].
  eapply Yori_kept_trans; [exact H2|].
  set (y2 := Yori_use_queued_skill env y1 target). clearbody y2.
  clear H1 H2 Hs Hs1 y y1.
  set (y3 := set_y_rigid_body y2 _).
  assert (H3 : Yori_kept y2 y3) by (repeat split).
  eapply Yori_kept_trans; [exact H3|]. clearbody y3. clear H3 y2.
  assert (H4 : Yori_kept y3 (Yori_resolve_ground y3)).
  { unfold Yori_resolve_ground. destruct (y_ground_y y3); [|repeat split].
    set (y4 := set_y_rigid_body y3 _).
    assert (H4 : Yori_kept y3 y4) by (repeat split).
    eapply Yori_kept_trans; [exact H4|]. clearbody y4.
    unfold Yori_keep_on_ground.
    destruct (RigidBody.is_grounded (y_rigid_body y4)); repeat split. }
  eapply Yori_kept_trans; [exact H4|].
  set (y5 := Yori_resolve_ground y3). clearbody y5.
  unfold Yori_sync_sprite, Yori_update_attack_point.
  match goal with
  | |- context [if ?c then _ else _] => destruct c
  end; repeat split.
Qed.

Lemma Yori_update_die_kept (A : YoriAnims) (env : Env) (y : Yori) :
  Yori_kept y (Yori_update_die A env y).
Proof.
  unfold Yori_update_die, Yori_animate.
  destruct (y_is_death_knockback y);
    [destruct (Qleb 1 _)|];
    destruct (ya_death A); try destruct (ya_hurt_counter A);
    try destruct (Qltb _ _); repeat split.
Qed.

Lemma Yori_update_dead (A : YoriAnims) (env : Env) (y : Yori)
    (target : option Player) :
  y_state y = Y_die -> y_is_active y = true ->
  let '(y', target', out) := Yori_update A env y target in
  Yori_kept y y' /\ target' = target /\ out = [].
Proof.
  intros Hs Ha. unfold Yori_update.
  pose proof (Yori_update_physics_die env y target Hs) as H1.
  set (y1 := Yori_update_physics env y target) in *. clearbody y1.
  destruct H1 as (Hs1 & Hh1 & Ha1).
  cbv zeta. rewrite Ha, Hs1, Hs. cbn [ystate_eqb negb]. rewrite andb_false_r.
  split; [|split; reflexivity].
  eapply Yori_kept_trans; [|apply Yori_update_die_kept].
  unfold Yori_kept. auto.
Qed.

(** The boss's death is final too: an active boss that is dying stays so
    through any number of ticks, at the health it has, attacks nobody, and
    every hit on it is ignored. *)
Theorem Yori_dead_is_inert (A : YoriAnims) (envs : list Env) (env : Env)
    (y : Yori) (target : option Player) (damage : Z) (ui_system : bool) :
  y_state y = Y_die -> y_is_active y = true ->
  let '(y', target', out) := Yori_updates A envs y target in
  y_state y' = Y_die /\ y_current_health y' = y_current_health y
  /\ target' = target /\ out = []
  /\ Yori_take_damage env y' target' damage ui_system = (y', [], PyNone).
Proof.
  revert y target. induction envs as [|env1 envs IH]; intros y target Hs Ha.
  - cbn [Yori_updates]. repeat split; auto.
    unfold Yori_take_damage. now rewrite Hs.
  - cbn [Yori_updates].
    pose proof (Yori_update_dead A env1 y target Hs Ha) as H1.
    destruct (Yori_update A env1 y target) as [[y1 t1] out1].
    destruct H1 as ((Hs1 & Hh1 & Ha1) & Ht1 & Ho1).
    rewrite Hs in Hs1. rewrite Ha in Ha1.
    specialize (IH y1 t1 Hs1 Ha1).
    destruct (Yori_updates A envs y1 t1) as [[y2 t2] out2].
    destruct IH as (Hs2 & Hh2 & Ht2 & Ho2 & Hd).
    subst. repeat split; auto. congruence.
Qed.

(** A boss that a hit of 600 has just killed, in its arena. *)
Definition dying_boss : Yori :=
  set_y_is_active
    (fst (fst (Yori_take_damage always_hit (boss 500) None 600 false))) true.

Lemma Yori_dead_is_inert_witness :
  let '(y', target', out) :=
    Yori_updates anims10 [always_hit; always_hit] dying_boss None in
  y_state y' = Y_die /\ y_current_health y' = y_current_health dying_boss
  /\ target' = None /\ out = []
  /\ Yori_take_damage always_hit y' target' 20 false = (y', [], PyNone).
Proof.
  apply (Yori_dead_is_inert anims10 [always_hit; always_hit] always_hit
           dying_boss None 20%Z false); reflexivity.
Defined.

(** Unlike a mook's, the boss's health stops at zero.  A hit on a living
    boss leaves its health between 0 and what it was, and a boss that is
    not alive after the hit is dying, at health 0, from this moment on. *)
Theorem Yori_take_damage_health_floor (env : Env) (y : Yori)
    (target : option Player) (damage : Z) (ui_system : bool) :
  Yori_alive y = true -> (0 <= damage)%Z ->
  let y' := fst (fst (Yori_take_damage env y target damage ui_system)) in
  (0 <= y_current_health y' <= y_current_health y)%Z
  /\ (Yori_alive y' = false ->
      y_state y' = Y_die /\ y_current_health y' = 0%Z
      /\ y_frame y' = 0 /\ y_death_time y' = now env).
Proof.
  intros Hal Hd. unfold Yori_alive in Hal. apply Z.ltb_lt in Hal.
  assert (Hc : forall y1, y_current_health y1 = y_current_health y ->
               (0 <= y_current_health y1 <= y_current_health y)%Z
               /\ (Yori_alive y1 = false ->
                   y_state y1 = Y_die /\ y_current_health y1 = 0%Z
                   /\ y_frame y1 = 0 /\ y_death_time y1 = now env)).
  { intros y1 E. split; [lia|].
    unfold Yori_alive. rewrite E. intros H. apply Z.ltb_ge in H. lia. }
  assert (Hsc : y_current_health (Yori_start_counter_attack env y target)
                = y_current_health y).
  { unfold Yori_start_counter_attack, Yori_face_player.
    destruct (y_state y); try reflexivity;
      destruct target as [p|]; try reflexivity;
      destruct (_ <? _)%Z; reflexivity. }
  cbv zeta. unfold Yori_take_damage.
  set (hit :=
         if (Qltb (Yori_health_percentage y) (y_low_health_threshold y)
             && Yori_attacking (y_state y)
             && Qltb (random01 env) (y_counter_attack_chance y))%bool
         then _ else _).
  assert (Hhit :
            (0 <= y_current_health (fst (fst hit)) <= y_current_health y)%Z
            /\ (Yori_alive (fst (fst hit)) = false ->
                y_state (fst (fst hit)) = Y_die
                /\ y_current_health (fst (fst hit)) = 0%Z
                /\ y_frame (fst (fst hit)) = 0
                /\ y_death_time (fst (fst hit)) = now env)).
  { unfold hit.
    destruct (Qltb (Yori_health_percentage y) (y_low_health_threshold y)
              && Yori_attacking (y_state y)
              && Qltb (random01 env) (y_counter_attack_chance y))%bool.
    - apply Hc. exact Hsc.
    - set (y1 := set_y_current_health y (y_current_health y - damage)).
      set (y2 := if (Qleb (y_low_health_threshold y1)
                       (Yori_health_percentage y)
                     && Qltb (Yori_health_percentage y1)
                          (y_low_health_threshold y1)
                     && negb (y_low_health_dialog_shown y1))%bool
                 then Yori_trigger_low_health_dialog y1 else y1).
      assert (E2 : y_current_health y2
                   = (y_current_health y - damage)%Z).
      { unfold y2. destruct (_ && _ && _)%bool; reflexivity. }
      assert (S2 : y_state y2 = y_state y).
      { unfold y2. destruct (_ && _ && _)%bool; reflexivity. }
      clearbody y2.
      destruct (y_current_health y2 <=? 0)%Z eqn:E0.
      + cbn [fst]. destruct target as [p|]; cbn.
        * split; [lia|]. intros _. repeat split; reflexivity.
        * split; [lia|]. intros _. repeat split; reflexivity.
      + cbn [fst]. apply Z.leb_gt in E0. split; [lia|].
        unfold Yori_alive. intros H. apply Z.ltb_ge in H. lia. }
  clearbody hit.
  destruct (y_state y); try exact Hhit.
  - apply Hc. exact Hsc.
  - apply Hc. reflexivity.
Qed.

Lemma Yori_take_damage_health_floor_witness :
  let y' := fst (fst (Yori_take_damage always_hit (boss 500) None 600 false)) in
  (0 <= y_current_health y' <= y_current_health (boss 500))%Z
  /\ (Yori_alive y' = false ->
      y_state y' = Y_die /\ y_current_health y' = 0%Z
      /\ y_frame y' = 0 /\ y_death_time y' = now always_hit).
Proof.
  apply (Yori_take_damage_health_floor always_hit (boss 500) None 600 false).
  - reflexivity.
  - lia.
Defined.

Lemma Yori_start_counter_attack_dialog (env : Env) (y : Yori)
    (target : option Player) :
  let y' := Yori_start_counter_attack env y target in
  y_low_health_dialog_shown y' = y_low_health_dialog_shown y
  /\ y_should_trigger_low_health_dialog y'
     = y_should_trigger_low_health_dialog y
  /\ y_can_counter_attack y' = y_can_counter_attack y.
Proof.
  unfold Yori_start_counter_attack, Yori_face_player.
  destruct (y_state y); destruct target as [p|];
    try destruct (_ <? _)%Z; repeat split.
Qed.

Lemma Yori_take_damage_dialog (env : Env) (y : Yori)
    (target : option Player) (damage : Z) (ui_system : bool) :
  y_low_health_dialog_shown y = true ->
  let y' := fst (fst (Yori_take_damage env y target damage ui_system)) in
  y_low_health_dialog_shown y' = true
  /\ y_should_trigger_low_health_dialog y'
     = y_should_trigger_low_health_dialog y
  /\ y_can_counter_attack y' = y_can_counter_attack y.
Proof.
  intros Hsh. cbv zeta.
  pose proof (Yori_start_counter_attack_dialog env y target) as Hc.
  cbv zeta in Hc. rewrite Hsh in Hc.
  unfold Yori_take_damage.
  set (hit :=
         if (Qltb (Yori_health_percentage y) (y_low_health_threshold y)
             && Yori_attacking (y_state y)
             && Qltb (random01 env) (y_counter_attack_chance y))%bool
         then _ else _).
  assert (Hhit :
            y_low_health_dialog_shown (fst (fst hit)) = true
            /\ y_should_trigger_low_health_dialog (fst (fst hit))
               = y_should_trigger_low_health_dialog y
            /\ y_can_counter_attack (fst (fst hit))
               = y_can_counter_attack y).
  { unfold hit.
    destruct (Qltb (Yori_health_percentage y) (y_low_health_threshold y)
              && Yori_attacking (y_state y)
              && Qltb (random01 env) (y_counter_attack_chance y))%bool.
    - exact Hc.
    - set (y1 := set_y_current_health y (y_current_health y - damage)).
      set (y2 := if (Qleb (y_low_health_threshold y1)
                       (Yori_health_percentage y)
                     && Qltb (Yori_health_percentage y1)
                          (y_low_health_threshold y1)
                     && negb (y_low_health_dialog_shown y1))%bool
                 then Yori_trigger_low_health_dialog y1 else y1).
      assert (E2 : y_low_health_dialog_shown y2 = true
                   /\ y_should_trigger_low_health_dialog y2
                      = y_should_trigger_low_health_dialog y
                   /\ y_can_counter_attack y2 = y_can_counter_attack y).
      { unfold y2.
        change (y_low_health_dialog_shown y1)
          with (y_low_health_dialog_shown y).
        rewrite Hsh. cbn [negb]. rewrite andb_false_r.
        repeat split. exact Hsh. }
      clearbody y2. destruct E2 as (E2 & E3 & E4).
      destruct (y_current_health y2 <=? 0)%Z; [destruct target as [p|]|];
        cbn [fst]; repeat split; assumption. }
  clearbody hit.
  destruct (y_state y); try exact Hhit.
  - exact Hc.
  - cbn [fst]. repeat split; try reflexivity; assumption.
Qed.

(** The boss asks for its low-health dialog once.  After the dialog has
    been shown, no hit of the rest of the fight asks for it again, whatever
    the health does, and none touches the permission to counter. *)
Theorem Yori_low_health_dialog_once (hits : list (Env * Z * bool))
    (y : Yori) (target : option Player) :
  y_low_health_dialog_shown y = true ->
  let y' := Yori_hits hits y target in
  y_low_health_dialog_shown y' = true
  /\ y_should_trigger_low_health_dialog y'
     = y_should_trigger_low_health_dialog y
  /\ y_can_counter_attack y' = y_can_counter_attack y.
Proof.
  cbv zeta. revert y.
  induction hits as [|[[env damage] ui_system] hits IH]; intros y Hsh.
  - cbn. repeat split; assumption.
  - cbn [Yori_hits].
    pose proof (Yori_take_damage_dialog env y target damage ui_system Hsh)
      as (H1 & H2 & H3).
    destruct (IH _ H1) as (H4 & H5 & H6).
    repeat split; [assumption|congruence|congruence].
Qed.

(** The boss after the hit that took it below its threshold and after
    main.py has shown the dialog and cleared the request. *)
Definition boss_after_dialog : Yori :=
  set_y_should_trigger_low_health_dialog
    (fst (fst (Yori_take_damage always_hit (boss 280) None 20 false))) false.

Lemma Yori_low_health_dialog_once_witness :
  let y' := Yori_hits [(always_hit, 20%Z, false); (mkEnv 1 0 1 true, 20%Z, false)]
              boss_after_dialog None in
  y_low_health_dialog_shown y' = true
  /\ y_should_trigger_low_health_dialog y'
     = y_should_trigger_low_health_dialog boss_after_dialog
  /\ y_can_counter_attack y' = y_can_counter_attack boss_after_dialog.
Proof.
  apply (Yori_low_health_dialog_once
           [(always_hit, 20%Z, false); (mkEnv 1 0 1 true, 20%Z, false)]
           boss_after_dialog None).
  reflexivity.
Defined.

End YoriMore.

(** ** More on the player *)

Section PlayerMore.

Local Open Scope Z_scope.

Lemma Player_take_damage_cases (p : Player) (damage : Z) (ui_system : bool) :
  let p1 := fst (fst (Player_take_damage p damage ui_system)) in
  p1 = p
  \/ (0 <= p_current_health p1
      /\ (p_current_health p - damage <= 0 ->
          p_current_health p1 = 0 /\ p_is_dead p1 = true
          /\ p_state p1 = P_death)
      /\ (0 < p_current_health p - damage ->
          p_current_health p1 = p_current_health p - damage
          /\ p_is_dead p1 = p_is_dead p /\ p_state p1 = P_hurt
          /\ p_blocking p1 = false /\ p_countering p1 = false
          /\ p_counter_ready p1 = false)).
Proof.
  cbv zeta. unfold Player_take_damage.
  destruct (p_is_dead p || pstate_eqb (p_state p) P_hurt
            || pstate_eqb (p_state p) P_death); [now left|].
  destruct (pstate_eqb (p_state p) P_skill); [now left|].
  destruct (p_blocking p); [now left|].
  right. cbv zeta.
  change (p_current_health
            (set_p_current_health p (p_current_health p - damage)))
    with (p_current_health p - damage).
  destruct (p_current_health p - damage <=? 0) eqn:E; cbn [fst].
  - apply Z.leb_le in E. split; [cbn; lia|]. split.
    + intros _. repeat split.
    + intros H. lia.
  - apply Z.leb_gt in E. split; [exact (Z.lt_le_incl _ _ E)|]. split.
    + intros H. lia.
    + intros _. repeat split.
Qed.

(** A hit that costs the player health buys a moment of safety: the
    health has not gone below zero, and the player is now dead or hurt, so
    that the next hit, whatever its damage, does nothing at all. *)
Theorem Player_take_damage_grace (p : Player) (damage damage2 : Z)
    (ui_system ui_system2 : bool) :
  let p1 := fst (fst (Player_take_damage p damage ui_system)) in
  p_current_health p1 <> p_current_health p ->
  0 <= p_current_health p1
  /\ (p_state p1 = P_death \/ p_state p1 = P_hurt)
  /\ Player_take_damage p1 damage2 ui_system2 = (p1, [], PyNone).
Proof.
  intros p1 Hne.
  destruct (Player_take_damage_cases p damage ui_system)
    as [E|(H0 & Hdead & Hhurt)]; fold p1 in E || fold p1 in H0, Hdead, Hhurt.
  - now rewrite E in Hne.
  - split; [exact H0|].
    destruct (Z_le_gt_dec (p_current_health p - damage) 0) as [Hle|Hgt].
    + destruct (Hdead Hle) as (_ & Hd & Hs). split; [now left|].
      unfold Player_take_damage. now rewrite Hd.
    + destruct (Hhurt ltac:(lia)) as (_ & _ & Hs & _). split; [now right|].
      unfold Player_take_damage. rewrite Hs. cbn [pstate_eqb].
      now rewrite orb_true_r.
Qed.

Lemma Player_take_damage_grace_witness :
  let p1 := fst (fst (Player_take_damage (Player_init (640, 670)) 50 false)) in
  0 <= p_current_health p1
  /\ (p_state p1 = P_death \/ p_state p1 = P_hurt)
  /\ Player_take_damage p1 900 true = (p1, [], PyNone).
Proof.
  apply (Player_take_damage_grace (Player_init (640, 670)) 50 900 false true).
  cbn. lia.
Defined.

Lemma Player_hit_all_player (env : Env) (damage : Z)
    (refs : list target_ref) :
  forall w,
    w_player (fst (fst (Player_hit_all env damage refs w))) = w_player w.
Proof.
  induction refs as [|r refs IH]; intros w; [reflexivity|].
  cbn [Player_hit_all].
  destruct (lookup w r) as [enemy|].
  - destruct (Player_check_attack_hit (w_player w) enemy).
    + destruct (target_take_damage env (w_player w) enemy damage
                  (p_ui_system (w_player w))) as [enemy' out].
      specialize (IH (store w r enemy')).
      destruct (Player_hit_all env damage refs (store w r enemy'))
        as [[w' n] out'].
      cbn [fst] in *. now rewrite IH, store_player.
    + specialize (IH w).
      destruct (Player_hit_all env damage refs w) as [[w' n] out'].
      exact IH.
  - specialize (IH w).
    destruct (Player_hit_all env damage refs w) as [[w' n] out'].
    exact IH.
Qed.

Lemma Player_start_counter_attack_attacking (w : World) :
  p_counter_attacking (Player_start_counter_attack w) = true
  /\ p_state (Player_start_counter_attack w) = P_counter_attack.
Proof.
  unfold Player_start_counter_attack, Player_update_attack_point,
    Player_face_target.
  destruct (Player_target w); cbv zeta;
    repeat match goal with
           | |- context [if ?c then _ else _] => destruct c
           end; split; reflexivity.
Qed.

Lemma Player_click_busy (env : Env) (w : World) :
  p_counter_ready (w_player w) = false ->
  p_counter_attacking (w_player w) = true ->
  Player_click env w = (w, []).
Proof.
  intros Hr Ha. unfold Player_click. cbv zeta. rewrite Hr, Ha.
  rewrite orb_true_r. reflexivity.
Qed.

Lemma Player_click_cooling (env : Env) (w : World) :
  p_counter_ready (w_player w) = false ->
  ticks env - p_last_attack_time (w_player w)
  < p_attack_cooldown (w_player w) ->
  Player_click env w = (w, []).
Proof.
  intros Hr Hc. unfold Player_click. cbv zeta. rewrite Hr.
  apply Z.ltb_lt in Hc. rewrite Hc.
  repeat match goal with
         | |- context [if ?c then _ else _] => destruct c
         end; reflexivity.
Qed.

(** The three ways a click can go: it is ignored, at this tick whatever
    else the moment brings; it launches the counter attack; or it starts an
    attack, which stamps the time of the click. *)
Lemma Player_click_cases (env : Env) (w : World) :
  (forall env', ticks env' = ticks env -> Player_click env' w = (w, []))
  \/ (p_counter_ready (w_player w) = true
      /\ Player_click env w
         = (set_w_player w
              (set_p_counter_ready (Player_start_counter_attack w) false),
            []))
  \/ (let p1 := w_player (fst (Player_click env w)) in
      p_counter_ready p1 = false /\ p_last_attack_time p1 = ticks env
      /\ p_attack_cooldown p1 = p_attack_cooldown (w_player w)
      /\ exists n, p_state p1 = P_attack n).
Proof.
  destruct (p_counter_ready (w_player w)) eqn:Hr.
  { right; left. split; [reflexivity|]. unfold Player_click.
    now rewrite Hr. }
  unfold Player_click. cbv zeta. rewrite Hr.
  match goal with |- context [if ?c then _ else _] => destruct c eqn:C1 end;
    [left; intros env' _; reflexivity|].
  match goal with |- context [if ?c then _ else _] => destruct c eqn:C2 end;
    [left; intros env' _; reflexivity|].
  match goal with |- context [if ?c then _ else _] => destruct c eqn:C3 end;
    [left; intros env' E; rewrite E, C3; reflexivity|].
  right; right.
  match goal with
  | |- context [set_p_last_attack_time ?x ?t] =>
      set (p1 := set_p_last_attack_time x t)
  end.
  assert (Hp1 : p_counter_ready p1 = false /\ p_last_attack_time p1 = ticks env
                /\ p_attack_cooldown p1 = p_attack_cooldown (w_player w)
                /\ exists n, p_state p1 = P_attack n).
  { subst p1. destruct (p_state (w_player w));
      repeat match goal with
             | |- context [if ?c then _ else _] => destruct c
             end;
      (split; [exact Hr|split; [reflexivity|split; [reflexivity|]]]);
      eexists; reflexivity. }
  clearbody p1.
  assert (Hafter : forall w', w_player w' = p1 ->
            p_counter_ready (set_p_frame (set_p_atk_covered (w_player w') 0) 0)
            = false
            /\ p_last_attack_time
                 (set_p_frame (set_p_atk_covered (w_player w') 0) 0)
               = ticks env
            /\ p_attack_cooldown
                 (set_p_frame (set_p_atk_covered (w_player w') 0) 0)
               = p_attack_cooldown (w_player w)
            /\ exists n,
                 p_state (set_p_frame (set_p_atk_covered (w_player w') 0) 0)
                 = P_attack n).
  { intros w' E. rewrite E. exact Hp1. }
  assert (Hone :
            forall out0,
              w_player
                (fst
                   (let '(w0, out) :=
                      match p_target p1, Player_target (set_w_player w p1) with
                      | Some r, Some enemy =>
                          if Player_check_attack_hit p1 enemy then
                            let '(enemy, out) :=
                              target_take_damage env p1 enemy
                                (attack_damage (p_state p1))
                                (p_ui_system p1) in
                            (store (set_w_player w p1) r enemy,
                             out ++ [Print (Msg_player_hit_target
                                              (attack_damage (p_state p1)))])
                          else (set_w_player w p1, out0)
                      | _, _ => (set_w_player w p1, out0)
                      end in
                    (w0, out))) = p1).
  { intros out0. destruct (p_target p1); [|reflexivity].
    destruct (Player_target (set_w_player w p1)) as [enemy|]; [|reflexivity].
    destruct (Player_check_attack_hit p1 enemy); [|reflexivity].
    destruct (target_take_damage env p1 enemy (attack_damage (p_state p1))
                (p_ui_system p1)) as [enemy' out].
    cbn [fst]. now rewrite store_player. }
  destruct (p_all_enemies p1) as [[|r refs]|].
  - specialize (Hone []).
    destruct (match p_target p1, Player_target (set_w_player w p1) with
              | Some r, Some enemy => _
              | _, _ => _
              end) as [w0 out].
    cbn [fst w_player set_w_player] in *. apply (Hafter w0). exact Hone.
  - pose proof (Player_hit_all_player env (attack_damage (p_state p1))
                  (r :: refs) (set_w_player w p1)) as H.
    destruct (Player_hit_all env (attack_damage (p_state p1)) (r :: refs)
                (set_w_player w p1)) as [[w' n] out].
    cbn [fst w_player set_w_player] in *. apply (Hafter w'). exact H.
  - specialize (Hone []).
    destruct (match p_target p1, Player_target (set_w_player w p1) with
              | Some r, Some enemy => _
              | _, _ => _
              end) as [w0 out].
    cbn [fst w_player set_w_player] in *. apply (Hafter w0). exact Hone.
Qed.

(** Two clicks in one tick act as one.  Whatever the first click did
    (nothing, the counter attack, or an attack with its hits), a second
    click at the same reading of the clock changes nothing and hits
    nobody. *)
Theorem Player_click_same_tick (env1 env2 : Env) (w : World) :
  ticks env2 = ticks env1 ->
  0 < p_attack_cooldown (w_player w) ->
  Player_click env2 (fst (Player_click env1 w))
  = (fst (Player_click env1 w), []).
Proof.
  intros Ht Hcd.
  destruct (Player_click_cases env1 w) as [H|[(Hr & E)|H]].
  - rewrite (H env1 eq_refl). cbn [fst]. now apply H.
  - rewrite E. cbn [fst].
    destruct (Player_start_counter_attack_attacking w) as (Ha & _).
    apply Player_click_busy; [reflexivity|exact Ha].
  - cbv zeta in H. destruct H as (Hr & Hl & Hc & _).
    apply Player_click_cooling; [exact Hr|].
    rewrite Hl, Hc, Ht. lia.
Qed.

Lemma Player_click_same_tick_witness :
  Player_click first_click (fst (Player_click first_click before_first_click))
  = (fst (Player_click first_click before_first_click), []).
Proof.
  apply (Player_click_same_tick first_click first_click before_first_click);
    reflexivity.
Defined.

End PlayerMore.
